(** * maskrcnn_benchmark/engine/trainer.py

    A shallow embedding of [reduce_loss_dict], [do_train] and [val], and the
    properties of the training loop's bookkeeping: cross-worker loss
    reduction, checkpoint cadence, persisted loss history, resumption.

    Python values are modelled as follows.
    - A tensor scalar is an element of a type [T] carrying the arithmetic the
      trainer uses (class [Scalar]); nothing is assumed about that
      arithmetic, so every statement holds for floating point as well as for
      exact rationals (instance [Scalar_Q]).
    - A [dict] is an association list in insertion order with distinct keys.
    - Tensors that are written in place live in a [heap]; a 0-d tensor is a
      reference (storage, offset), so that views alias their base tensor.
    - An exception is a value of [exn]; a call that can raise returns a
      [result], and effects made before the exception stay in the state. *)

From Stdlib Require Import String Ascii List ZArith QArith Bool Lia.
Import ListNotations.
Close Scope Q_scope.

Set Implicit Arguments.

(** ** Scalars *)

Class Scalar (T : Type) : Type := {
  zero : T;                       (* the int 0 that Python's sum() starts from *)
  add : T -> T -> T;              (* a + b *)
  div_count : T -> nat -> T;      (* a / n for a count n, as in all_losses /= world_size *)
  scale : T -> Z -> T             (* a * i for an int i, as in the ETA *)
}.

#[export] Instance Scalar_Q : Scalar Q := {
  zero := 0%Q;
  add := Qplus;
  div_count := fun q n => (q / inject_Z (Z.of_nat n))%Q;
  scale := fun q i => (q * inject_Z i)%Q
}.

(** ** Exceptions and results *)

Inductive exn : Type :=
| KeyError
| FileNotFoundError
| EOFError
| UnpicklingError
| RuntimeError          (* torch.stack on an empty list *)
| TypeError             (* a keyword argument given twice *)
| AttributeError
| NameError
| UnboundLocalError     (* a subclass of NameError *)
| ZeroDivisionError
| OtherError (what : string).

Inductive result (A : Type) : Type :=
| Ok (a : A)
| Raise (e : exn).

Arguments Ok {A} a.
Arguments Raise {A} e.

(** [except NameError] catches both classes. *)
Definition is_name_error (e : exn) : bool :=
  match e with
  | NameError | UnboundLocalError => true
  | _ => false
  end.

(** ** Dictionaries in insertion order *)

Definition dict (V : Type) : Type := list (string * V).

Definition keys {V} (d : dict V) : list string := map fst d.
Definition values {V} (d : dict V) : list V := map snd d.

Fixpoint dict_get {V} (k : string) (d : dict V) : option V :=
  match d with
  | [] => None
  | (k', v) :: d' => if String.eqb k k' then Some v else dict_get k d'
  end.

(** [d[k] = v]: an existing key keeps its position, a new key goes last. *)
Fixpoint dict_set {V} (k : string) (v : V) (d : dict V) : dict V :=
  match d with
  | [] => [(k, v)]
  | (k', v') :: d' =>
      if String.eqb k k' then (k, v) :: d' else (k', v') :: dict_set k v d'
  end.

(** [{k: v for k, v in items}] *)
Definition dict_of_items {V} (items : list (string * V)) : dict V :=
  fold_left (fun d kv => dict_set (fst kv) (snd kv) d) items [].

Definition mem_string (k : string) (l : list string) : bool :=
  existsb (String.eqb k) l.

(** [enumerate(xs, start)] *)
Fixpoint enumerate {A} (xs : list A) (start : Z) : list (Z * A) :=
  match xs with
  | [] => []
  | x :: xs' => (start, x) :: enumerate xs' (start + 1)%Z
  end.

(** Position-indexed map, for operations that act on a tensor elementwise. *)
Fixpoint mapi_from {A B} (f : nat -> A -> B) (i : nat) (l : list A) : list B :=
  match l with
  | [] => []
  | x :: l' => f i x :: mapi_from f (S i) l'
  end.

Definition mapi {A B} (f : nat -> A -> B) (l : list A) : list B := mapi_from f 0 l.

(** ** The process group

    [get_world_size()], [dist.get_rank()] and the collective [dist.reduce]
    belong to torch.distributed and utils/comm.py. A process sees them as
    follows: [world_size] and [rank] are what the two queries return, and
    [dist.reduce(t, dst=0)] overwrites [t] in place. On the destination the
    new content is the elementwise sum of every worker's tensor. On the
    other ranks the library only promises that the shape is kept; what is
    left there depends on the backend and is the parameter [leftover]: given
    the position, the local entry and the peers' entries at that position it
    returns the entry found in the buffer after the call. *)

Record process_group (T : Type) : Type := {
  world_size : nat;
  rank : nat;
  leftover : nat -> T -> list T -> T
}.

Inductive comm_call : Type :=
| Reduce (dst : nat) (numel : nat).

Section Reducer.

Context {T : Type} `{Scalar T}.

(** The entries the peers contribute at position [i]. *)
Definition column (i : nat) (peers : list (list T)) : list T :=
  map (fun p => nth i p zero) peers.

Definition sum_from (x : T) (xs : list T) : T := fold_left add xs x.

(** Content of the local buffer after [dist.reduce(buffer, dst=0)]. *)
Definition dist_reduce (pg : process_group T) (peers : list (list T))
    (buffer : list T) : list T :=
  if Nat.eqb (rank pg) 0
  then mapi (fun i x => sum_from x (column i peers)) buffer
  else mapi (fun i x => leftover pg i x (column i peers)) buffer.

(** *** Tensors as heap objects *)

(** A 0-d tensor: a storage address and an offset into it. *)
Definition tref : Type := (nat * nat)%type.

Record heap : Type := {
  storages : list (list T);
  dict_objs : list (dict tref)
}.

Definition read_tensor (h : heap) (r : tref) : T :=
  nth (snd r) (nth (fst r) (storages h) []) zero.

Definition get_dict (h : heap) (d : nat) : dict tref :=
  nth d (dict_objs h) [].

(** The dictionary as the values it currently denotes. *)
Definition read_dict (h : heap) (d : nat) : dict T :=
  map (fun kv => (fst kv, read_tensor h (snd kv))) (get_dict h d).

Definition alloc_storage (data : list T) (h : heap) : nat * heap :=
  (length (storages h),
   {| storages := storages h ++ [data]; dict_objs := dict_objs h |}).

Definition alloc_dict (d : dict tref) (h : heap) : nat * heap :=
  (length (dict_objs h),
   {| storages := storages h; dict_objs := dict_objs h ++ [d] |}).

Fixpoint list_update {A} (n : nat) (f : A -> A) (l : list A) : list A :=
  match l, n with
  | [], _ => []
  | x :: l', O => f x :: l'
  | x :: l', S n' => x :: list_update n' f l'
  end.

(** An in-place operation on the tensor stored at address [a]. *)
Definition update_storage (a : nat) (f : list T -> list T) (h : heap) : heap :=
  {| storages := list_update a f (storages h); dict_objs := dict_objs h |}.

(** [torch.stack(tensors, dim=0)] of 0-d tensors: a new 1-d tensor holding
    copies of the entries; an empty list is refused. *)
Definition torch_stack (tensors : list tref) (h : heap) : result nat * heap :=
  match tensors with
  | [] => (Raise RuntimeError, h)
  | _ :: _ =>
      let (a, h') := alloc_storage (map (read_tensor h) tensors) h in
      (Ok a, h')
  end.

(** Iterating a 1-d tensor yields one view per entry. *)
Definition views (a : nat) (n : nat) : list tref :=
  map (fun i => (a, i)) (seq 0 n).

(** [reduce_loss_dict(loss_dict)], lines 21-43. [loss_dict] is the address of
    the input dictionary, [peers] the stacked tensors the other workers bring
    to the collective. Returns the address of the returned dictionary, the
    heap after the call and the cross-process calls made. *)
Definition reduce_loss_dict (pg : process_group T) (peers : list (list T))
    (loss_dict : nat) (h : heap) : result nat * heap * list comm_call :=
  if Nat.ltb (world_size pg) 2 then (Ok loss_dict, h, [])
  else
    let items := get_dict h loss_dict in
    let loss_names := map fst items in
    let all_losses := map snd items in
    match torch_stack all_losses h with
    | (Raise e, h1) => (Raise e, h1, [])
    | (Ok a, h1) =>
        let h2 := update_storage a (dist_reduce pg peers) h1 in
        let h3 :=
          if Nat.eqb (rank pg) 0
          then update_storage a (map (fun x => div_count x (world_size pg))) h2
          else h2 in
        let (reduced_losses, h4) :=
          alloc_dict (dict_of_items (combine loss_names (views a (length all_losses)))) h3 in
        (Ok reduced_losses, h4, [Reduce 0 (length all_losses)])
    end.

(** The same function on values: what the returned dictionary denotes as a
    function of what the input dictionary denotes. [do_train] only reads the
    entries, so it is written against this view; [reduce_loss_dict_values_refines]
    relates the two. *)
Definition reduce_loss_dict_values (pg : process_group T) (peers : list (list T))
    (loss_dict : dict T) : result (dict T) :=
  if Nat.ltb (world_size pg) 2 then Ok loss_dict
  else
    let loss_names := keys loss_dict in
    match values loss_dict with
    | [] => Raise RuntimeError
    | all_losses =>
        let summed := dist_reduce pg peers all_losses in
        let scaled :=
          if Nat.eqb (rank pg) 0
          then map (fun x => div_count x (world_size pg)) summed
          else summed in
        Ok (dict_of_items (combine loss_names scaled))
    end.

End Reducer.

Arguments heap T : clear implicits.

(** ** The state around [do_train] *)

(** A file under ./outputs, classified by the outcome of [pickle.load] on
    its content, not by how the content came about.
    - [Pickled l]: a complete pickle of the list [l]; the call returns [l].
    - [RunsOut]: the call raises EOFError, as it does on a file of length 0
      ("Ran out of input").
    - [Garbled]: the call raises UnpicklingError, as it does on a pickle cut
      off inside an opcode or a frame ("pickle data was truncated") and on
      other damaged content. *)
Inductive file (T : Type) : Type :=
| Pickled (history : list T)
| RunsOut
| Garbled.

Arguments Pickled {T} history.
Arguments RunsOut {T}.
Arguments Garbled {T}.

(** Calls made by [val] (lines 156-182). A folder is kept as the list of
    components handed to [os.path.join]. *)
Inductive val_call : Type :=
| EmptyCache
| Mkdir (folder : list string)
| Inference (unwrapped : bool) (dataset : string) (iou_types : list string)
    (box_only : bool) (device : string) (output_folder : option (list string))
| Synchronize.

(** Calls on the collaborators of [do_train], in program order. *)
Inductive event (T : Type) : Type :=
| LoggerInfo (message : string)
| ModelTrain
| SchedulerStep
| ZeroGrad
| Backward (losses : T)
| OptimizerStep
| LogLine (iteration : Z) (eta_seconds : T)
| PltPlot (label : string) (series : list T)
| SaveFig (path : list string)
| CheckpointSave (iteration : Z) (arguments : dict Z)
| Validation (calls : list val_call)
| TotalTime.

Arguments LoggerInfo {T} message.
Arguments ModelTrain {T}.
Arguments SchedulerStep {T}.
Arguments ZeroGrad {T}.
Arguments Backward {T} losses.
Arguments OptimizerStep {T}.
Arguments LogLine {T} iteration eta_seconds.
Arguments PltPlot {T} label series.
Arguments SaveFig {T} path.
Arguments CheckpointSave {T} iteration arguments.
Arguments Validation {T} calls.
Arguments TotalTime {T}.

(** Modelled from the spec: utils/metric_logger.py is not part of the
    sources at hand. Section 4.2: a meter appends to a fixed-capacity sliding
    window, evicting the oldest entry, and keeps a running sum and count;
    [global_avg] is the running sum over the running count; meters are
    created on first update. *)
Record meter (T : Type) : Type := {
  window : list T;
  total : T;
  count : nat
}.

(** The four lists bound at lines 67-75. *)
Record histories (T : Type) : Type := {
  loss_classifier : list T;
  loss_box_reg : list T;
  loss_objectness : list T;
  loss_rpn_box_reg : list T
}.

Inductive history_var : Type :=
| LossClassifier | LossBoxReg | LossObjectness | LossRpnBoxReg.

(** [files] is the store of pickled histories, the paths ./outputs/<key>.p
    that lines 67-70 read and line 109 writes. The other files a run
    produces (the figures of line 138, the checkpoints, what inference
    writes) are not part of it: those writes appear in [trace]. *)
Record state (T : Type) : Type := {
  files : dict (file T);        (* ./outputs/<key>.p *)
  arguments : dict Z;           (* the caller's arguments dictionary *)
  meters : dict (meter T);      (* the MetricLogger *)
  trace : list (event T)        (* oldest first *)
}.

(** The three statements [do_train] builds from a key and hands to [exec]. *)
Inductive exec_stmt : Type :=
| AppendStmt   (* {key}.append(loss_dict_reduced["{key}"].item()) *)
| DumpStmt     (* pickle.dump({key}, open("./outputs/{key}.p", "wb")) *)
| PlotStmt.    (* plt.plot({key}, label="{key}") *)

(** What the trainer takes from its surroundings.
    - [group]: the process group.
    - [reserved_names]: names that the interpreter at hand binds or reserves
      beyond those of [python_reserved] (a later version's builtins, names
      injected into the module).
    - [exec_other]: the effect of an exec'd statement whose key text is
      neither a history variable nor an unbound identifier (it names another
      object in scope, or is not a plain name). It is taken to act on the
      history lists and on the output files.
    - [window_size]: capacity of a meter's window. *)
Record runtime (T : Type) : Type := {
  group : process_group T;
  reserved_names : list string;
  exec_other : exec_stmt -> string -> histories T -> dict (file T) ->
               result (histories T) * dict (file T);
  window_size : nat
}.

(** The fields of [cfg] read by the trainer. *)
Record config : Type := {
  OUTPUT_DIR : string;
  MODEL_MASK_ON : bool;
  MODEL_RPN_ONLY : bool;
  MODEL_DEVICE : string;
  DATASETS_TEST : list string
}.

(** One item of the data loader together with what the collaborators answer
    while it is processed: the Loss Mapping returned by [model(images,
    targets)] on this worker, the stacked tensors the peers bring to the
    reduction, and the two clock differences. *)
Record batch (T : Type) : Type := {
  losses_out : dict T;
  peers_out : list (list T);
  data_time : T;
  batch_time : T
}.

(** [len(data_loader)] and the items it yields. *)
Record loader (T : Type) : Type := {
  dl_len : nat;
  dl_batches : list (batch T)
}.

(** *** Names in scope at line 108 *)

(** Locals of [do_train]: those bound when the loop body runs, those bound
    later (lines 132, 148, 149) and the variable of the comprehension at line
    85, which Python 2 leaves in the frame. *)
Definition frame_names : list string :=
  [ "cfg"; "model"; "data_loader"; "optimizer"; "scheduler"; "checkpointer";
    "device"; "checkpoint_period"; "arguments"; "distributed"; "logger";
    "meters"; "max_iter"; "start_iter"; "start_training_time"; "end";
    "loss_classifier"; "loss_box_reg"; "loss_objectness"; "loss_rpn_box_reg";
    "iteration"; "images"; "targets"; "_"; "data_time"; "loss_dict"; "losses";
    "loss_dict_reduced"; "losses_reduced"; "batch_time"; "eta_seconds";
    "eta_string"; "key"; "fig"; "target"; "total_training_time";
    "total_time_str" ]%string.

(** Names bound at module level, lines 2-19, 21, 46, 156. *)
Definition module_names : list string :=
  [ "datetime"; "logging"; "pickle"; "time"; "os"; "matplotlib"; "plt";
    "torch"; "dist"; "get_world_size"; "MetricLogger"; "mkdir";
    "make_data_loader"; "inference"; "synchronize"; "get_rank";
    "reduce_loss_dict"; "do_train"; "val" ]%string.

Definition is_ident_start (c : ascii) : bool :=
  let n := nat_of_ascii c in
  ((65 <=? n) && (n <=? 90)) || ((97 <=? n) && (n <=? 122)) || (n =? 95).

Definition is_ident_char (c : ascii) : bool :=
  let n := nat_of_ascii c in
  is_ident_start c || ((48 <=? n) && (n <=? 57)).

Fixpoint all_chars (p : ascii -> bool) (s : string) : bool :=
  match s with
  | EmptyString => true
  | String c s' => p c && all_chars p s'
  end.

(** An ASCII identifier. *)
Definition is_identifier (k : string) : bool :=
  match k with
  | EmptyString => false
  | String c s' => is_ident_start c && all_chars is_ident_char s'
  end.

Definition history_of_name (k : string) : option history_var :=
  if String.eqb k "loss_classifier" then Some LossClassifier
  else if String.eqb k "loss_box_reg" then Some LossBoxReg
  else if String.eqb k "loss_objectness" then Some LossObjectness
  else if String.eqb k "loss_rpn_box_reg" then Some LossRpnBoxReg
  else None.

Definition history_name (h : history_var) : string :=
  match h with
  | LossClassifier => "loss_classifier"
  | LossBoxReg => "loss_box_reg"
  | LossObjectness => "loss_objectness"
  | LossRpnBoxReg => "loss_rpn_box_reg"
  end.

(** Names that Python itself binds or reserves: the keywords and soft
    keywords of Python 2 and 3, the attributes the import system sets on a
    module, and the names of the builtins module of Python 2.7 and of Python
    3 up to 3.13. A text in this list is never taken for an unbound name. *)
Definition python_reserved : list string :=
  [ "False"; "None"; "True"; "and"; "as"; "assert"; "async"; "await"; "break";
    "class"; "continue"; "def"; "del"; "elif"; "else"; "except"; "finally";
    "for"; "from"; "global"; "if"; "import"; "in"; "is"; "lambda"; "nonlocal";
    "not"; "or"; "pass"; "raise"; "return"; "try"; "while"; "with"; "yield";
    "exec"; "print"; "match"; "case"; "type"; "_";
    "__name__"; "__doc__"; "__file__"; "__builtins__"; "__package__";
    "__loader__"; "__spec__"; "__cached__"; "__path__"; "__annotations__";
    "__build_class__"; "__debug__"; "__import__"; "__dict__";
    "ArithmeticError"; "AssertionError"; "AttributeError"; "BaseException";
    "BaseExceptionGroup"; "BlockingIOError"; "BrokenPipeError"; "BufferError";
    "BytesWarning"; "ChildProcessError"; "ConnectionAbortedError";
    "ConnectionError"; "ConnectionRefusedError"; "ConnectionResetError";
    "DeprecationWarning"; "EOFError"; "Ellipsis"; "EncodingWarning";
    "EnvironmentError"; "Exception"; "ExceptionGroup"; "FileExistsError";
    "FileNotFoundError"; "FloatingPointError"; "FutureWarning"; "GeneratorExit";
    "IOError"; "ImportError"; "ImportWarning"; "IndentationError"; "IndexError";
    "InterruptedError"; "IsADirectoryError"; "KeyError"; "KeyboardInterrupt";
    "LookupError"; "MemoryError"; "ModuleNotFoundError"; "NameError";
    "NotADirectoryError"; "NotImplemented"; "NotImplementedError"; "OSError";
    "OverflowError"; "PendingDeprecationWarning"; "PermissionError";
    "ProcessLookupError"; "PythonFinalizationError"; "RecursionError";
    "ReferenceError"; "ResourceWarning"; "RuntimeError"; "RuntimeWarning";
    "StandardError"; "StopAsyncIteration"; "StopIteration"; "SyntaxError";
    "SyntaxWarning"; "SystemError"; "SystemExit"; "TabError"; "TimeoutError";
    "TypeError"; "UnboundLocalError"; "UnicodeDecodeError"; "UnicodeEncodeError";
    "UnicodeError"; "UnicodeTranslateError"; "UnicodeWarning"; "UserWarning";
    "VMSError"; "ValueError"; "Warning"; "WindowsError"; "ZeroDivisionError";
    "_IncompleteInputError";
    "abs"; "aiter"; "all"; "anext"; "any"; "apply"; "ascii"; "basestring";
    "bin"; "bool"; "breakpoint"; "buffer"; "bytearray"; "bytes"; "callable";
    "chr"; "classmethod"; "cmp"; "coerce"; "compile"; "complex"; "copyright";
    "credits"; "delattr"; "dict"; "dir"; "divmod"; "enumerate"; "eval";
    "execfile"; "exit"; "file"; "filter"; "float"; "format"; "frozenset";
    "getattr"; "globals"; "hasattr"; "hash"; "help"; "hex"; "id"; "input";
    "int"; "intern"; "isinstance"; "issubclass"; "iter"; "len"; "license";
    "list"; "locals"; "long"; "map"; "max"; "memoryview"; "min"; "next";
    "object"; "oct"; "open"; "ord"; "pow"; "property"; "quit"; "range";
    "raw_input"; "reduce"; "reload"; "repr"; "reversed"; "round"; "set";
    "setattr"; "slice"; "sorted"; "staticmethod"; "str"; "sum"; "super";
    "tuple"; "unichr"; "unicode"; "vars"; "xrange"; "zip" ]%string.

(** What the text [{key}] denotes when the exec'd statement evaluates it. *)
Inductive key_text : Type :=
| HistoryName (h : history_var)
| UnboundName
| OtherText.

Definition classify (reserved : list string) (key : string) : key_text :=
  match history_of_name key with
  | Some h => HistoryName h
  | None =>
      if is_identifier key
         && negb (mem_string key frame_names)
         && negb (mem_string key module_names)
         && negb (mem_string key python_reserved)
         && negb (mem_string key reserved)
      then UnboundName
      else OtherText
  end.

(** ["./outputs/{key}.p"] *)
Definition history_path (key : string) : string :=
  ("./outputs/" ++ key ++ ".p")%string.

(** ** The trainer *)

Section Trainer.

Context {T : Type} `{Scalar T}.

(** State and exceptions: a computation runs from a state to an outcome and
    the state reached, whether it returned or raised. *)
Definition M (A : Type) : Type := state T -> result A * state T.

Definition ret {A} (a : A) : M A := fun s => (Ok a, s).

Definition raise {A} (e : exn) : M A := fun s => (Raise e, s).

Definition bind {A B} (m : M A) (k : A -> M B) : M B :=
  fun s =>
    match m s with
    | (Ok a, s') => k a s'
    | (Raise e, s') => (Raise e, s')
    end.

Notation "x <- c ;; k" := (bind c (fun x => k))
  (at level 61, c at next level, right associativity).
Notation "c ;; k" := (bind c (fun _ => k))
  (at level 61, right associativity).

Definition lift {A} (r : result A) : M A :=
  match r with
  | Ok a => ret a
  | Raise e => raise e
  end.

Definition emit (e : event T) : M unit :=
  fun s => (Ok tt, {| files := files s; arguments := arguments s;
                      meters := meters s; trace := trace s ++ [e] |}).

Definition set_files (f : dict (file T)) : M unit :=
  fun s => (Ok tt, {| files := f; arguments := arguments s;
                      meters := meters s; trace := trace s |}).

Definition set_arguments (a : dict Z) : M unit :=
  fun s => (Ok tt, {| files := files s; arguments := a;
                      meters := meters s; trace := trace s |}).

Definition set_meters (m : dict (meter T)) : M unit :=
  fun s => (Ok tt, {| files := files s; arguments := arguments s;
                      meters := m; trace := trace s |}).

Definition get_state : M (state T) := fun s => (Ok s, s).

(** [for x in xs: acc = body(x, acc)] *)
Fixpoint for_each {A B} (xs : list A) (acc : B) (body : A -> B -> M B) : M B :=
  match xs with
  | [] => ret acc
  | x :: xs' => acc' <- body x acc ;; for_each xs' acc' body
  end.

(** *** MetricLogger *)

Definition new_meter : meter T := {| window := []; total := zero; count := 0 |}.

Definition lastn {A} (n : nat) (l : list A) : list A := skipn (length l - n) l.

Definition meter_update (capacity : nat) (v : T) (m : meter T) : meter T :=
  {| window := lastn capacity (window m ++ [v]);
     total := add (total m) v;
     count := S (count m) |}.

Definition global_avg (m : meter T) : T := div_count (total m) (count m).

(** [MetricLogger.update] with the keyword arguments [kwargs]. *)
Definition logger_update (capacity : nat) (kwargs : dict T)
    (ms : dict (meter T)) : dict (meter T) :=
  fold_left
    (fun ms kv =>
       let m := match dict_get (fst kv) ms with Some m => m | None => new_meter end in
       dict_set (fst kv) (meter_update capacity (snd kv) m) ms)
    kwargs ms.

(** [meters.update(loss=losses_reduced, **loss_dict_reduced)], line 94: the
    call itself fails with TypeError when the mapping also has the key "loss"
    (the keyword is given twice) or the key "self" (it collides with the
    first parameter of the method [update(self, **kwargs)]). *)
Definition update_loss_meters (capacity : nat) (losses_reduced : T)
    (loss_dict_reduced : dict T) : M unit :=
  if mem_string "loss" (keys loss_dict_reduced)
     || mem_string "self" (keys loss_dict_reduced)
  then raise TypeError
  else
    s <- get_state ;;
    set_meters (logger_update capacity (("loss"%string, losses_reduced) :: loss_dict_reduced)
                  (meters s)).

(** [meters.time.global_avg] *)
Definition time_global_avg : M T :=
  s <- get_state ;;
  match dict_get "time" (meters s) with
  | Some m => ret (global_avg m)
  | None => raise AttributeError
  end.

(** *** Loss history *)

Definition get_history (h : history_var) (hs : histories T) : list T :=
  match h with
  | LossClassifier => loss_classifier hs
  | LossBoxReg => loss_box_reg hs
  | LossObjectness => loss_objectness hs
  | LossRpnBoxReg => loss_rpn_box_reg hs
  end.

Definition append_history (h : history_var) (v : T) (hs : histories T) : histories T :=
  match h with
  | LossClassifier =>
      {| loss_classifier := loss_classifier hs ++ [v]; loss_box_reg := loss_box_reg hs;
         loss_objectness := loss_objectness hs; loss_rpn_box_reg := loss_rpn_box_reg hs |}
  | LossBoxReg =>
      {| loss_classifier := loss_classifier hs; loss_box_reg := loss_box_reg hs ++ [v];
         loss_objectness := loss_objectness hs; loss_rpn_box_reg := loss_rpn_box_reg hs |}
  | LossObjectness =>
      {| loss_classifier := loss_classifier hs; loss_box_reg := loss_box_reg hs;
         loss_objectness := loss_objectness hs ++ [v]; loss_rpn_box_reg := loss_rpn_box_reg hs |}
  | LossRpnBoxReg =>
      {| loss_classifier := loss_classifier hs; loss_box_reg := loss_box_reg hs;
         loss_objectness := loss_objectness hs; loss_rpn_box_reg := loss_rpn_box_reg hs ++ [v] |}
  end.

Definition empty_histories : histories T :=
  {| loss_classifier := []; loss_box_reg := [];
     loss_objectness := []; loss_rpn_box_reg := [] |}.

(** [pickle.load(open(path, 'rb'))] *)
Definition pickle_load (path : string) : M (list T) :=
  s <- get_state ;;
  match dict_get path (files s) with
  | None => raise FileNotFoundError
  | Some (Pickled l) => ret l
  | Some RunsOut => raise EOFError
  | Some Garbled => raise UnpicklingError
  end.

(** [pickle.dump(obj, open(path, "wb"))] *)
Definition pickle_dump (obj : list T) (path : string) : M unit :=
  s <- get_state ;;
  set_files (dict_set path (Pickled obj) (files s)).

(** [try: body except EOFError: handler] *)
Definition try_except_EOFError {A} (body handler : M A) : M A :=
  fun s =>
    match body s with
    | (Raise EOFError, s') => handler s'
    | other => other
    end.

(** Lines 66-75. *)
Definition load_histories : M (histories T) :=
  try_except_EOFError
    (loss_classifier <- pickle_load "./outputs/loss_classifier.p" ;;
     loss_box_reg <- pickle_load "./outputs/loss_box_reg.p" ;;
     loss_objectness <- pickle_load "./outputs/loss_objectness.p" ;;
     loss_rpn_box_reg <- pickle_load "./outputs/loss_rpn_box_reg.p" ;;
     ret {| loss_classifier := loss_classifier; loss_box_reg := loss_box_reg;
            loss_objectness := loss_objectness; loss_rpn_box_reg := loss_rpn_box_reg |})
    (ret empty_histories).

(** An exec'd statement that [exec_other] accounts for. *)
Definition exec_oracle (rt : runtime T) (stmt : exec_stmt) (key : string)
    (hs : histories T) : M (histories T) :=
  s <- get_state ;;
  let (r, f) := exec_other rt stmt key hs (files s) in
  set_files f ;; lift r.

(** Lines 108-109 for one key. *)
Definition persist_key (rt : runtime T) (loss_dict_reduced : dict T)
    (key : string) (hs : histories T) : M (histories T) :=
  match classify (reserved_names rt) key with
  | HistoryName h =>
      match dict_get key loss_dict_reduced with
      | None => raise KeyError
      | Some v =>
          let hs' := append_history h v hs in
          pickle_dump (get_history h hs') (history_path key) ;;
          ret hs'
      end
  | UnboundName => raise NameError
  | OtherText =>
      hs' <- exec_oracle rt AppendStmt key hs ;;
      exec_oracle rt DumpStmt key hs'
  end.

(** Lines 131-139 for one key. [fig.savefig] writes the figure file
    <OUTPUT_DIR>/<key>.png: that write is the event [SaveFig] with its path.
    It is not a write to [files], which holds the pickled histories only. *)
Definition plot_key (rt : runtime T) (cfg : config) (key : string)
    (hs : histories T) : M (histories T) :=
  hs' <- match classify (reserved_names rt) key with
         | HistoryName h => emit (PltPlot key (get_history h hs)) ;; ret hs
         | UnboundName => raise NameError
         | OtherText => exec_oracle rt PlotStmt key hs
         end ;;
  emit (SaveFig [OUTPUT_DIR cfg; (key ++ ".png")%string]) ;;
  ret hs'.

(** *** Validation, lines 156-182 *)

(** Modelled from the spec: [make_data_loader] (data/build.py) is not part
    of the sources at hand. Section 4.5: it constructs one evaluation data
    loader per configured validation dataset; a loader is named here by its
    dataset. *)
Definition make_data_loader (cfg : config) : list string := DATASETS_TEST cfg.

Definition val (cfg : config) (distributed : bool) : list val_call :=
  let iou_types :=
    if MODEL_MASK_ON cfg then ["bbox"; "segm"]%string else ["bbox"]%string in
  let dataset_names := DATASETS_TEST cfg in
  let with_dir := negb (String.eqb (OUTPUT_DIR cfg) "") in
  let output_folders :=
    map (fun name => if with_dir
                     then Some [OUTPUT_DIR cfg; "inference"%string; name]
                     else None) dataset_names in
  let data_loaders_val := make_data_loader cfg in
  [EmptyCache]
  ++ (if with_dir
      then map (fun name => Mkdir [OUTPUT_DIR cfg; "inference"%string; name]) dataset_names
      else [])
  ++ flat_map
       (fun fl => [Inference distributed (snd fl) iou_types (MODEL_RPN_ONLY cfg)
                     (MODEL_DEVICE cfg) (fst fl);
                   Synchronize])
       (combine output_folders data_loaders_val).

(** *** The loop body, lines 78-143 *)

(** [sum(loss for loss in d.values())] *)
Definition sum_values (d : dict T) : T := fold_left add (values d) zero.

(** [checkpointer.save("model_{:07d}".format(iteration), **arguments)]. The
    checkpoint file that the call writes is the event [CheckpointSave], with
    the iteration of its tag and the arguments stored in it; it is not a
    write to [files]. *)
Definition checkpointer_save (iteration : Z) : M unit :=
  s <- get_state ;;
  emit (CheckpointSave iteration (arguments s)).

Definition train_step (rt : runtime T) (cfg : config) (max_iter : Z)
    (checkpoint_period : Z) (distributed : bool)
    (item : Z * batch T) (hs : histories T) : M (histories T) :=
  let (iteration, b) := item in
  s <- get_state ;;
  set_arguments (dict_set "iteration" iteration (arguments s)) ;;
  emit SchedulerStep ;;
  emit ModelTrain ;;
  let loss_dict := losses_out b in
  let losses := sum_values loss_dict in
  loss_dict_reduced <- lift (reduce_loss_dict_values (group rt) (peers_out b) loss_dict) ;;
  let losses_reduced := sum_values loss_dict_reduced in
  update_loss_meters (window_size rt) losses_reduced loss_dict_reduced ;;
  emit ZeroGrad ;;
  (* losses is the int 0 when the mapping is empty *)
  match loss_dict with
  | [] => raise AttributeError
  | _ :: _ => emit (Backward losses)
  end ;;
  emit OptimizerStep ;;
  s <- get_state ;;
  set_meters (logger_update (window_size rt)
                [("time"%string, batch_time b); ("data"%string, data_time b)] (meters s)) ;;
  avg <- time_global_avg ;;
  let eta_seconds := scale avg (max_iter - iteration) in
  hs <- for_each (keys loss_dict_reduced) hs (persist_key rt loss_dict_reduced) ;;
  hs <- (if (iteration mod 20 =? 0)%Z || (iteration =? max_iter - 1)%Z
         then emit (LogLine iteration eta_seconds) ;;
              for_each (keys loss_dict_reduced) hs (plot_key rt cfg)
         else ret hs) ;;
  (if (checkpoint_period =? 0)%Z then raise ZeroDivisionError
   else if (iteration mod checkpoint_period =? 0)%Z && (0 <? iteration)%Z
        then checkpointer_save iteration ;;
             emit (Validation (val cfg distributed))
        else ret tt) ;;
  ret hs.

(** The loop of line 77; besides the histories it carries the local
    [iteration], unbound until the first item is taken. *)
Definition train_loop (rt : runtime T) (cfg : config) (max_iter : Z)
    (checkpoint_period : Z) (distributed : bool)
    (items : list (Z * batch T)) (hs : histories T) : M (option Z * histories T) :=
  for_each items (None, hs)
    (fun item acc =>
       hs' <- train_step rt cfg max_iter checkpoint_period distributed item (snd acc) ;;
       ret (Some (fst item), hs')).

(** Lines 77-154: the loop and the final report, from the histories bound
    at lines 67-75. *)
Definition train_and_report (rt : runtime T) (cfg : config) (max_iter : Z)
    (checkpoint_period : Z) (distributed : bool)
    (items : list (Z * batch T)) (hs : histories T) : M unit :=
  last <- train_loop rt cfg max_iter checkpoint_period distributed items hs ;;
  match fst last with
  | None => raise UnboundLocalError
  | Some iteration =>
      checkpointer_save iteration ;;
      if (max_iter =? 0)%Z then raise ZeroDivisionError
      else emit TotalTime
  end.

(** [do_train], lines 46-154. *)
Definition do_train (rt : runtime T) (cfg : config) (data_loader : loader T)
    (checkpoint_period : Z) (distributed : bool) : M unit :=
  emit (LoggerInfo "Start training") ;;
  set_meters [] ;;
  let max_iter := Z.of_nat (dl_len data_loader) in
  s <- get_state ;;
  start_iter <- match dict_get "iteration" (arguments s) with
                | Some i => ret i
                | None => raise KeyError
                end ;;
  emit ModelTrain ;;
  hs <- load_histories ;;
  train_and_report rt cfg max_iter checkpoint_period distributed
    (enumerate (dl_batches data_loader) start_iter) hs.

(** The loop of line 77 from the accumulator [acc] on: the iterations over
    [items] that are still to come. [train_loop] is this loop from
    [(None, hs)]. *)
Definition train_loop_from (rt : runtime T) (cfg : config) (max_iter : Z)
    (checkpoint_period : Z) (distributed : bool)
    (items : list (Z * batch T)) (acc : option Z * histories T)
    : M (option Z * histories T) :=
  for_each items acc
    (fun item acc =>
       hs' <- train_step rt cfg max_iter checkpoint_period distributed item (snd acc) ;;
       ret (Some (fst item), hs')).

(** A fresh process: the given files and arguments, nothing logged yet. *)
Definition initial (f : dict (file T)) (a : dict Z) : state T :=
  {| files := f; arguments := a; meters := []; trace := [] |}.

(** The same process when line 66 is reached. *)
Definition started (f : dict (file T)) (a : dict Z) : state T :=
  {| files := f; arguments := a; meters := [];
     trace := [LoggerInfo "Start training"; ModelTrain] |}.

(** ** Vocabulary of the statements *)

(** The worker-by-worker entries under a key, in rank order. *)
Definition worker_values (k : string) (workers : list (dict T)) : list T :=
  flat_map (fun w => match dict_get k w with Some v => [v] | None => [] end) workers.

Definition mean (vs : list T) : option T :=
  match vs with
  | [] => None
  | v :: rest => Some (div_count (sum_from v rest) (length vs))
  end.

(** The average, over all workers, of the entry under key [k]. *)
Definition elementwise_average (workers : list (dict T)) (k : string) : option T :=
  mean (worker_values k workers).

(** The sum, over all workers, of the entry under key [k]. *)
Definition elementwise_sum (workers : list (dict T)) (k : string) : option T :=
  match worker_values k workers with
  | [] => None
  | v :: rest => Some (sum_from v rest)
  end.

(** The reduction as the claim words it: same keys in the same order, the
    coordinator holds the averages and every other rank the sums. *)
Definition reduces_to_average_and_sums (pg : process_group T)
    (peer_dicts : list (dict T)) (d : nat) (h : heap T) : Prop :=
  exists r h' calls,
    reduce_loss_dict pg (map values peer_dicts) d h = (Ok r, h', calls) /\
    keys (read_dict h' r) = keys (read_dict h d) /\
    forall k, In k (keys (read_dict h d)) ->
      dict_get k (read_dict h' r)
      = if rank pg =? 0
        then elementwise_average (read_dict h d :: peer_dicts) k
        else elementwise_sum (read_dict h d :: peer_dicts) k.

(** Every reference held by the dictionary at [d] points into the heap. *)
Definition dict_refs_valid (h : heap T) (d : nat) : Prop :=
  Forall (fun kv => fst (snd kv) < length (storages h)) (get_dict h d).

Fixpoint distinct (l : list string) : bool :=
  match l with
  | [] => true
  | k :: l' => negb (mem_string k l') && distinct l'
  end.

Definition is_history_name (k : string) : bool :=
  match history_of_name k with Some _ => true | None => false end.

(** A Loss Mapping as the model returns it for the four tracked losses:
    not empty, keys distinct, every key one of the history variables. *)
Definition tracked (d : dict T) : bool :=
  match d with [] => false | _ :: _ => true end
  && distinct (keys d)
  && forallb is_history_name (keys d).

(** The first of the four reads at lines 67-70 that raises, if any. *)
Definition first_unreadable (f : dict (file T)) : option exn :=
  let outcome path :=
    match dict_get path f with
    | None => Some FileNotFoundError
    | Some (Pickled _) => None
    | Some RunsOut => Some EOFError
    | Some Garbled => Some UnpicklingError
    end in
  match outcome "./outputs/loss_classifier.p"%string with
  | Some e => Some e
  | None =>
  match outcome "./outputs/loss_box_reg.p"%string with
  | Some e => Some e
  | None =>
  match outcome "./outputs/loss_objectness.p"%string with
  | Some e => Some e
  | None => outcome "./outputs/loss_rpn_box_reg.p"%string
  end end end.

(** The histories as stored, when all four files hold a pickled list. *)
Definition stored_histories (f : dict (file T)) : histories T :=
  let stored path :=
    match dict_get path f with Some (Pickled l) => l | _ => [] end in
  {| loss_classifier := stored "./outputs/loss_classifier.p"%string;
     loss_box_reg := stored "./outputs/loss_box_reg.p"%string;
     loss_objectness := stored "./outputs/loss_objectness.p"%string;
     loss_rpn_box_reg := stored "./outputs/loss_rpn_box_reg.p"%string |}.

(** The histories bound when the loop starts, when lines 66-75 do not raise. *)
Definition loaded_histories (f : dict (file T)) : option (histories T) :=
  match first_unreadable f with
  | None => Some (stored_histories f)
  | Some EOFError => Some empty_histories
  | Some _ => None
  end.

(** Checkpoints and validation passes, as they appear in a trace. *)
Inductive cadence_event : Type :=
| Saved (iteration : Z)
| Validated.

Definition cadence (tr : list (event T)) : list cadence_event :=
  flat_map (fun e => match e with
                     | CheckpointSave i _ => [Saved i]
                     | Validation _ => [Validated]
                     | _ => []
                     end) tr.

(** The sum of the entries of a mapping as the words have it, entry by
    entry: with nothing to add it is [zero], the int 0 that Python's [sum]
    starts from, and up to and including an entry it is the sum of the
    entries before it plus that entry. [entries_sum] takes the entries last
    first. *)
Fixpoint entries_sum (last_first : list T) : T :=
  match last_first with
  | [] => zero
  | v :: before => add (entries_sum before) v
  end.

Definition sum_of_entries (d : dict T) : T := entries_sum (rev (values d)).

(** The arguments of the calls to [backward], in order. *)
Definition backward_values (tr : list (event T)) : list T :=
  flat_map (fun e => match e with Backward v => [v] | _ => [] end) tr.

(** A computation that makes no call to [backward]. *)
Definition no_backward {A} (m : M A) : Prop :=
  forall s, backward_values (trace (snd (m s))) = backward_values (trace s).

(** A computation that calls [backward] once, on [v], unless it raises
    before getting there; it makes no other call to [backward]. *)
Definition backward_once {A} (v : T) (m : M A) : Prop :=
  forall s,
    backward_values (trace (snd (m s))) = backward_values (trace s) ++ [v]
    \/ (backward_values (trace (snd (m s))) = backward_values (trace s)
        /\ exists e, fst (m s) = Raise e).

(** A computation whose calls to [backward] are, in order, on the sums of
    the mappings of the first [n] items of [xs]: of all of them when it
    returns, of some when it raises. *)
Definition backward_prefix {A} (xs : list (batch T)) (m : M A) : Prop :=
  forall s, exists n,
    n <= length xs /\
    backward_values (trace (snd (m s)))
    = backward_values (trace s)
      ++ map (fun b => sum_values (losses_out b)) (firstn n xs) /\
    ((exists a, fst (m s) = Ok a) -> n = length xs).

(** The checkpoints of a trace: the iteration in the tag and the arguments
    stored with it. *)
Definition saved_states (tr : list (event T)) : list (Z * dict Z) :=
  flat_map (fun e => match e with CheckpointSave i a => [(i, a)] | _ => [] end) tr.

(** Iterations [0 .. n-1]. *)
Definition iterations (n : nat) : list Z := map Z.of_nat (seq 0 n).

Definition positive_multiples (P : Z) (n : nat) : list Z :=
  filter (fun i => (0 <? i)%Z && (i mod P =? 0)%Z) (iterations n).

(** What lines 107-109 append to the list [h] when they run over the keys
    [ks] of the reduced mapping. *)
Definition appended (reduced : dict T) (ks : list string) (h : history_var) : list T :=
  if mem_string (history_name h) ks
  then match dict_get (history_name h) reduced with Some v => [v] | None => [] end
  else [].

(** The entry of key [k] in the reduced mapping of batch [b]. *)
Definition reduced_entry (rt : runtime T) (k : string) (b : batch T) : list T :=
  match reduce_loss_dict_values (group rt) (peers_out b) (losses_out b) with
  | Ok d => match dict_get k d with Some v => [v] | None => [] end
  | Raise _ => []
  end.

End Trainer.

Arguments M T A : clear implicits.

(** ** Vocabulary of the further properties *)

Section MoreVocabulary.

Context {T : Type} `{Scalar T}.

(** The calls of lines 131-139 over keys that are history variables: for
    each key the plot of its list, then the figure saved under its name. *)
Definition plot_events (cfg : config) (ks : list string) (hs : histories T)
    : list (event T) :=
  flat_map (fun k => match history_of_name k with
                     | Some h => [PltPlot k (get_history h hs);
                                  SaveFig [OUTPUT_DIR cfg; (k ++ ".png")%string]]
                     | None => []
                     end) ks.

(** The iterations for which a line was logged. *)
Definition logged_iterations (tr : list (event T)) : list Z :=
  flat_map (fun e => match e with LogLine i _ => [i] | _ => [] end) tr.

(** The calls on the model, the scheduler and the optimizer. *)
Definition training_calls (tr : list (event T)) : list (event T) :=
  filter (fun e => match e with
                   | ModelTrain | SchedulerStep | ZeroGrad | Backward _
                   | OptimizerStep => true
                   | _ => false
                   end) tr.

(** The series handed to [plt.plot]. *)
Definition plotted (tr : list (event T)) : list (string * list T) :=
  flat_map (fun e => match e with PltPlot k series => [(k, series)] | _ => [] end) tr.

End MoreVocabulary.

(** [val] (lines 156-182) with the loaders that [make_data_loader] returned
    as a parameter. *)
Definition val_on (cfg : config) (distributed : bool)
    (data_loaders_val : list string) : list val_call :=
  let iou_types :=
    if MODEL_MASK_ON cfg then ["bbox"; "segm"]%string else ["bbox"]%string in
  let dataset_names := DATASETS_TEST cfg in
  let with_dir := negb (String.eqb (OUTPUT_DIR cfg) "") in
  let output_folders :=
    map (fun name => if with_dir
                     then Some [OUTPUT_DIR cfg; "inference"%string; name]
                     else None) dataset_names in
  [EmptyCache]
  ++ (if with_dir
      then map (fun name => Mkdir [OUTPUT_DIR cfg; "inference"%string; name]) dataset_names
      else [])
  ++ flat_map
       (fun fl => [Inference distributed (snd fl) iou_types (MODEL_RPN_ONLY cfg)
                     (MODEL_DEVICE cfg) (fst fl);
                   Synchronize])
       (combine output_folders data_loaders_val).

Definition is_inference (c : val_call) : bool :=
  match c with Inference _ _ _ _ _ _ => true | _ => false end.

Definition is_synchronize (c : val_call) : bool :=
  match c with Synchronize => true | _ => false end.

Definition is_mkdir (c : val_call) : bool :=
  match c with Mkdir _ => true | _ => false end.

(** ** Worked inputs

    Concrete process groups, files and loaders over the rationals, used to
    run the definitions. *)

Definition keep_local : nat -> Q -> list Q -> Q := fun _ x _ => x.

Definition ex_single : process_group Q :=
  {| world_size := 1; rank := 0; leftover := keep_local |}.

Definition ex_coordinator : process_group Q :=
  {| world_size := 2; rank := 0; leftover := keep_local |}.

(** Rank 1 of two workers, on a backend that leaves the local tensor as it
    was on the ranks that are not the destination. *)
Definition ex_worker : process_group Q :=
  {| world_size := 2; rank := 1; leftover := keep_local |}.

Definition ex_runtime (pg : process_group Q) : runtime Q :=
  {| group := pg;
     reserved_names := [];
     exec_other := fun _ _ hs f => (Raise (OtherError "exec"), f);
     window_size := 20 |}.

Definition ex_cfg : config :=
  {| OUTPUT_DIR := "out"; MODEL_MASK_ON := false; MODEL_RPN_ONLY := false;
     MODEL_DEVICE := "cuda"; DATASETS_TEST := ["coco_val"%string] |}.

(** Four files created empty: every read runs out of input. *)
Definition ex_files_empty : dict (file Q) :=
  [ ("./outputs/loss_classifier.p"%string, RunsOut);
    ("./outputs/loss_box_reg.p"%string, RunsOut);
    ("./outputs/loss_objectness.p"%string, RunsOut);
    ("./outputs/loss_rpn_box_reg.p"%string, RunsOut) ].

(** A first run in a fresh directory: no history file yet. *)
Definition ex_files_absent : dict (file Q) := [].

Definition ex_arguments (start : Z) : dict Z := [("iteration"%string, start)].

Definition ex_batch (x y : Q) : batch Q :=
  {| losses_out := [("loss_classifier"%string, x); ("loss_box_reg"%string, y)];
     peers_out := [[3; 4]%Q];
     data_time := 1%Q;
     batch_time := 2%Q |}.

(** A Loss Mapping with all four tracked losses. *)
Definition ex_batch_full (x : Q) : batch Q :=
  {| losses_out := [("loss_classifier"%string, x); ("loss_box_reg"%string, 2%Q);
                    ("loss_objectness"%string, 3%Q); ("loss_rpn_box_reg"%string, 4%Q)];
     peers_out := [];
     data_time := 1%Q;
     batch_time := 2%Q |}.

Definition ex_loader_full : loader Q :=
  {| dl_len := 3; dl_batches := [ex_batch_full 1; ex_batch_full 2; ex_batch_full 3] |}.

(** A model that also returns a mask loss. *)
Definition ex_batch_mask : batch Q :=
  {| losses_out := [("loss_classifier"%string, 1%Q); ("loss_mask"%string, 2%Q)];
     peers_out := [];
     data_time := 1%Q;
     batch_time := 2%Q |}.

(** A model that names one entry "loss". *)
Definition ex_batch_loss : batch Q :=
  {| losses_out := [("loss_classifier"%string, 1%Q); ("loss"%string, 2%Q)];
     peers_out := [];
     data_time := 1%Q;
     batch_time := 2%Q |}.

Definition ex_loader : loader Q :=
  {| dl_len := 5;
     dl_batches := [ex_batch 1 2; ex_batch 2 2; ex_batch 3 2; ex_batch 4 2; ex_batch 5 2] |}.

(** The loader rebuilt after a restart from the checkpoint of iteration 2:
    its length is still 5 and it yields the three items left. *)
Definition ex_loader_resumed : loader Q :=
  {| dl_len := 5;
     dl_batches := [ex_batch 3 2; ex_batch 4 2; ex_batch 5 2] |}.

Definition ex_loader_none : loader Q := {| dl_len := 0; dl_batches := [] |}.

Definition ex_loader_mask : loader Q :=
  {| dl_len := 2; dl_batches := [ex_batch 1 2; ex_batch_mask] |}.

Definition ex_loader_loss : loader Q :=
  {| dl_len := 1; dl_batches := [ex_batch_loss] |}.

(** Histories stored by an earlier run. *)
Definition ex_files_stored : dict (file Q) :=
  [ ("./outputs/loss_classifier.p"%string, Pickled [7%Q]);
    ("./outputs/loss_box_reg.p"%string, Pickled [8%Q]);
    ("./outputs/loss_objectness.p"%string, Pickled []);
    ("./outputs/loss_rpn_box_reg.p"%string, Pickled []) ].

(** A loader that reports length 0 and yet yields an item. *)
Definition ex_loader_zero_len : loader Q :=
  {| dl_len := 0; dl_batches := [ex_batch 1 2] |}.

(** A model that returns no loss at all for the first item. *)
Definition ex_batch_nothing : batch Q :=
  {| losses_out := []; peers_out := [[]]; data_time := 1%Q; batch_time := 2%Q |}.

Definition ex_loader_nothing : loader Q :=
  {| dl_len := 2; dl_batches := [ex_batch_nothing; ex_batch 1 2] |}.

(** A heap with two 0-d tensors and the Loss Mapping that refers to them. *)
Definition ex_heap : heap Q :=
  {| storages := [[1%Q]; [2%Q]];
     dict_objs := [[("loss_classifier"%string, (0, 0)); ("loss_box_reg"%string, (1, 0))]] |}.

(** The Loss Mapping of the one other worker. *)
Definition ex_peer : dict Q :=
  [("loss_classifier"%string, 3%Q); ("loss_box_reg"%string, 4%Q)].

(** * Properties *)

(** ** Dictionaries *)

Section DictFacts.

Context {V : Type}.

Lemma mem_string_In (k : string) (l : list string) :
  mem_string k l = true <-> In k l.
Proof.
  unfold mem_string. rewrite existsb_exists. split.
  - intros [x [Hin Heq]]. apply String.eqb_eq in Heq. now subst.
  - intros Hin. exists k. split; [assumption | apply String.eqb_refl].
Qed.

Lemma mem_string_not_In (k : string) (l : list string) :
  mem_string k l = false <-> ~ In k l.
Proof.
  rewrite <- mem_string_In. destruct (mem_string k l); split; congruence.
Qed.

Lemma distinct_NoDup (l : list string) : distinct l = true <-> NoDup l.
Proof.
  induction l as [|k l IH]; simpl.
  - split; [constructor | reflexivity].
  - rewrite andb_true_iff, negb_true_iff, mem_string_not_In, IH.
    split.
    + intros [Hk Hl]. now constructor.
    + intros Hnd. inversion Hnd; subst. now split.
Qed.

Lemma dict_set_fresh (k : string) (v : V) (d : dict V) :
  ~ In k (keys d) -> dict_set k v d = d ++ [(k, v)].
Proof.
  induction d as [|[k' v'] d IH]; simpl; intros Hk.
  - reflexivity.
  - destruct (String.eqb_spec k k') as [-> | Hne].
    + exfalso. apply Hk. now left.
    + f_equal. apply IH. intros Hin. apply Hk. now right.
Qed.

Lemma fold_dict_set_distinct (items acc : dict V) :
  NoDup (keys (acc ++ items)) ->
  fold_left (fun d kv => dict_set (fst kv) (snd kv) d) items acc = acc ++ items.
Proof.
  revert acc. induction items as [|[k v] items IH]; intros acc Hnd; simpl.
  - now rewrite app_nil_r.
  - assert (Hsplit : acc ++ (k, v) :: items = (acc ++ [(k, v)]) ++ items)
      by now rewrite <- app_assoc.
    rewrite dict_set_fresh.
    + rewrite IH; rewrite <- Hsplit; [reflexivity | assumption].
    + unfold keys in *. rewrite map_app in Hnd. simpl in Hnd.
      apply NoDup_remove_2 in Hnd. intros Hin. apply Hnd.
      apply in_or_app. now left.
Qed.

(** With distinct keys a dict comprehension keeps the items as they come. *)
Lemma dict_of_items_distinct (items : dict V) :
  NoDup (keys items) -> dict_of_items items = items.
Proof.
  intros Hnd. unfold dict_of_items. now rewrite fold_dict_set_distinct.
Qed.

Lemma dict_get_set_same (k : string) (v : V) (d : dict V) :
  dict_get k (dict_set k v d) = Some v.
Proof.
  induction d as [|[k' v'] d IH]; simpl.
  - now rewrite String.eqb_refl.
  - destruct (String.eqb_spec k k') as [-> | Hne]; simpl.
    + now rewrite String.eqb_refl.
    + apply String.eqb_neq in Hne. now rewrite Hne.
Qed.

Lemma dict_get_set_other (k k' : string) (v : V) (d : dict V) :
  k <> k' -> dict_get k (dict_set k' v d) = dict_get k d.
Proof.
  intros Hne. induction d as [|[k0 v0] d IH]; simpl.
  - apply String.eqb_neq in Hne. now rewrite Hne.
  - destruct (String.eqb_spec k' k0) as [-> | Hne0]; simpl.
    + apply String.eqb_neq in Hne. now rewrite Hne.
    + destruct (String.eqb k k0); [reflexivity | assumption].
Qed.

Lemma dict_get_In_keys (k : string) (d : dict V) :
  In k (keys d) -> exists v, dict_get k d = Some v.
Proof.
  induction d as [|[k' v'] d IH]; simpl; intros Hin.
  - contradiction.
  - destruct (String.eqb_spec k k') as [-> | Hne].
    + now exists v'.
    + destruct Hin as [Heq | Hin]; [congruence | now apply IH].
Qed.

Lemma keys_combine (ks : list string) (vs : list V) :
  length ks = length vs -> keys (combine ks vs) = ks.
Proof.
  revert vs. induction ks as [|k ks IH]; intros [|v vs]; simpl; intros Hlen;
    try reflexivity; try discriminate.
  f_equal. apply IH. now injection Hlen.
Qed.

End DictFacts.

Lemma dict_set_map_values {A B : Type} (g : A -> B) (k : string) (v : A) (d : dict A) :
  map (fun kv => (fst kv, g (snd kv))) (dict_set k v d)
  = dict_set k (g v) (map (fun kv => (fst kv, g (snd kv))) d).
Proof.
  induction d as [|[k' v'] d IH]; simpl.
  - reflexivity.
  - destruct (String.eqb k k'); simpl; [reflexivity | now rewrite IH].
Qed.

Lemma dict_of_items_map_values {A B : Type} (g : A -> B) (items : dict A) :
  map (fun kv => (fst kv, g (snd kv))) (dict_of_items items)
  = dict_of_items (map (fun kv => (fst kv, g (snd kv))) items).
Proof.
  unfold dict_of_items.
  assert (Hgen : forall acc : dict A,
    map (fun kv => (fst kv, g (snd kv)))
        (fold_left (fun d kv => dict_set (fst kv) (snd kv) d) items acc)
    = fold_left (fun d kv => dict_set (fst kv) (snd kv) d)
        (map (fun kv => (fst kv, g (snd kv))) items)
        (map (fun kv => (fst kv, g (snd kv))) acc)).
  { induction items as [|[k v] items IH]; intros acc; simpl.
    - reflexivity.
    - rewrite IH. now rewrite dict_set_map_values. }
  exact (Hgen []).
Qed.

(** ** The loss reducer *)

Section ReducerFacts.

Context {T : Type} `{Scalar T}.

Lemma mapi_from_length {A B} (f : nat -> A -> B) (i : nat) (l : list A) :
  length (mapi_from f i l) = length l.
Proof.
  revert i. induction l as [|x l IH]; intros i; simpl; [reflexivity | now rewrite IH].
Qed.

Lemma dist_reduce_length (pg : process_group T) (peers : list (list T)) (buffer : list T) :
  length (dist_reduce pg peers buffer) = length buffer.
Proof.
  unfold dist_reduce, mapi. destruct (rank pg =? 0); apply mapi_from_length.
Qed.

Lemma list_update_last {A} (f : A -> A) (l : list A) (x : A) :
  list_update (length l) f (l ++ [x]) = l ++ [f x].
Proof.
  induction l as [|y l IH]; simpl; [reflexivity | now rewrite IH].
Qed.

Lemma list_update_length {A} (n : nat) (f : A -> A) (l : list A) :
  length (list_update n f l) = length l.
Proof.
  revert n. induction l as [|y l IH]; intros [|n]; simpl; try reflexivity.
  now rewrite IH.
Qed.

Lemma map_nth_seq_from {A} (d : A) (l pre : list A) :
  map (fun i => nth i (pre ++ l) d) (seq (length pre) (length l)) = l.
Proof.
  revert pre. induction l as [|x l IH]; intros pre; simpl.
  - reflexivity.
  - rewrite nth_middle. f_equal.
    specialize (IH (pre ++ [x])).
    rewrite <- app_assoc, length_app in IH. simpl in IH.
    now rewrite Nat.add_1_r in IH.
Qed.

Lemma map_nth_seq {A} (d : A) (l : list A) :
  map (fun i => nth i l d) (seq 0 (length l)) = l.
Proof. exact (map_nth_seq_from d l []). Qed.

Lemma map_values_combine {A B} (g : A -> B) (ks : list string) (vs : list A) :
  map (fun kv => (fst kv, g (snd kv))) (combine ks vs) = combine ks (map g vs).
Proof.
  revert vs. induction ks as [|k ks IH]; intros [|v vs]; simpl; try reflexivity.
  now rewrite IH.
Qed.

(** Reading the views of the tensor at [a] gives back its content. *)
Lemma read_views (h : heap T) (a : nat) (data : list T) :
  nth a (storages h) [] = data ->
  map (read_tensor h) (views a (length data)) = data.
Proof.
  intros Ha. unfold views. rewrite map_map. unfold read_tensor. simpl.
  rewrite Ha. apply map_nth_seq.
Qed.

Lemma keys_read_dict (h : heap T) (d : nat) : keys (read_dict h d) = keys (get_dict h d).
Proof. unfold read_dict, keys. rewrite map_map. reflexivity. Qed.

Lemma values_read_dict (h : heap T) (d : nat) :
  values (read_dict h d) = map (read_tensor h) (values (get_dict h d)).
Proof. unfold read_dict, values. now rewrite !map_map. Qed.

(** The value view is what the heap function computes: the dictionary it
    returns denotes the result of [reduce_loss_dict_values] on what the input
    denotes, and the two raise together. *)
Lemma reduce_loss_dict_values_refines (pg : process_group T) (peers : list (list T))
    (d : nat) (h : heap T) :
  match reduce_loss_dict pg peers d h with
  | (Ok r, h', _) =>
      reduce_loss_dict_values pg peers (read_dict h d) = Ok (read_dict h' r)
  | (Raise e, _, _) =>
      reduce_loss_dict_values pg peers (read_dict h d) = Raise e
  end.
Proof.
  unfold reduce_loss_dict, reduce_loss_dict_values.
  destruct (world_size pg <? 2); [reflexivity|].
  rewrite values_read_dict, keys_read_dict. unfold values, keys.
  destruct (get_dict h d) as [|kv items] eqn:Hitems; [reflexivity|].
  set (refs := map snd (kv :: items)).
  set (names := map fst (kv :: items)).
  assert (Hrefs : torch_stack refs h
                  = (Ok (length (storages h)),
                     {| storages := storages h ++ [map (read_tensor h) refs];
                        dict_objs := dict_objs h |})) by reflexivity.
  rewrite Hrefs.
  set (data := map (read_tensor h) refs).
  assert (Hcons : exists x xs, data = x :: xs) by (now exists (read_tensor h (snd kv)), (map (read_tensor h) (map snd items))).
  destruct Hcons as [x [xs Hdata]]. rewrite Hdata. rewrite <- Hdata.
  set (final := if rank pg =? 0
                then map (fun x => div_count x (world_size pg)) (dist_reduce pg peers data)
                else dist_reduce pg peers data).
  assert (Hlen : length final = length refs).
  { unfold final. destruct (rank pg =? 0);
      rewrite ?length_map, dist_reduce_length; unfold data; now rewrite length_map. }
  match goal with
  | |- context [alloc_dict ?dd ?hh] =>
      assert (Hst : storages hh = storages h ++ [final])
  end.
  { unfold final. destruct (rank pg =? 0); unfold update_storage; simpl;
      now rewrite !list_update_last. }
  match goal with
  | |- context [alloc_dict ?dd ?hh] =>
      assert (Hdo : dict_objs hh = dict_objs h)
        by (destruct (rank pg =? 0); reflexivity);
      set (h3 := hh) in *; set (newd := dd) in *
  end.
  unfold alloc_dict. f_equal.
  unfold read_dict, get_dict. simpl. rewrite Hdo, nth_middle.
  unfold newd. rewrite dict_of_items_map_values, map_values_combine.
  rewrite <- Hlen.
  match goal with
  | |- context [map (read_tensor ?hh) _] => set (h4 := hh)
  end.
  rewrite (@read_views h4 (length (storages h)) final); [reflexivity|].
  unfold h4. simpl. rewrite Hst. apply nth_middle.
Qed.

Lemma map_mapi_from {A B C} (g : B -> C) (f : nat -> A -> B) (i : nat) (l : list A) :
  map g (mapi_from f i l) = mapi_from (fun j x => g (f j x)) i l.
Proof.
  revert i. induction l as [|x l IH]; intros i; simpl; [reflexivity | now rewrite IH].
Qed.

Lemma mapi_from_shift {A B} (f : nat -> A -> B) (i : nat) (l : list A) :
  mapi_from f (S i) l = mapi_from (fun j => f (S j)) i l.
Proof.
  revert i. induction l as [|x l IH]; intros i; simpl; [reflexivity | now rewrite IH].
Qed.

Lemma mapi_from_ext {A B} (f g : nat -> A -> B) (i : nat) (l : list A) :
  (forall j x, f j x = g j x) -> mapi_from f i l = mapi_from g i l.
Proof.
  intros Hfg. revert i. induction l as [|x l IH]; intros i; simpl;
    [reflexivity | now rewrite Hfg, IH].
Qed.

Lemma column_tail (i : nat) (peers : list (dict T)) :
  column (S i) (map values peers) = column i (map values (map (@tl _) peers)).
Proof.
  unfold column. rewrite !map_map. apply map_ext. intros [|kv p]; simpl.
  - now destruct i.
  - reflexivity.
Qed.

(** The value the reducer leaves under each key, when the local entry and
    the peers' entries at the same position are combined by [F]. *)
Lemma combined_by_key (F : T -> list T -> T) (own : dict T) :
  forall peers : list (dict T),
  NoDup (keys own) ->
  Forall (fun p => keys p = keys own) peers ->
  forall k, In k (keys own) ->
  exists v,
    dict_get k own = Some v /\
    dict_get k (combine (keys own)
                  (mapi (fun i x => F x (column i (map values peers))) (values own)))
    = Some (F v (worker_values k peers)).
Proof.
  unfold mapi.
  induction own as [|[k0 v0] own IH]; intros peers Hnd Hkeys k Hin.
  - contradiction.
  - simpl in Hnd. inversion Hnd as [|? ? Hfresh Hnd']; subst.
    simpl. destruct (String.eqb_spec k k0) as [-> | Hne].
    + exists v0. split; [reflexivity|]. do 2 f_equal.
      unfold column, worker_values. clear -Hkeys.
      induction peers as [|p peers IHp]; simpl; [reflexivity|].
      inversion Hkeys as [|? ? Hp Hrest]; subst.
      destruct p as [|[kp vp] p]; simpl in Hp; [discriminate|].
      injection Hp as -> _. simpl. rewrite String.eqb_refl. simpl.
      f_equal. now apply IHp.
    + simpl in Hin. destruct Hin as [Heq | Hin]; [congruence|].
      destruct (IH (map (@tl _) peers) Hnd') with (k := k) as [v [Hget Hres]].
      * clear -Hkeys. induction peers as [|p peers IHp]; simpl; constructor.
        -- inversion Hkeys; subst. destruct p as [|kv p]; simpl in *;
             [discriminate | congruence].
        -- inversion Hkeys; subst. now apply IHp.
      * assumption.
      * exists v. split; [assumption|].
        rewrite mapi_from_shift.
        rewrite (mapi_from_ext _ (fun i x => F x (column i (map values (map (@tl _) peers))))
                   0 (values own)) by (intros; now rewrite column_tail).
        unfold values in *. rewrite Hres. do 2 f_equal.
        unfold worker_values. clear -Hkeys Hne.
        induction peers as [|p peers IHp]; simpl; [reflexivity|].
        inversion Hkeys as [|? ? Hp Hrest]; subst.
        destruct p as [|[kp vp] p]; simpl in Hp; [discriminate|].
        injection Hp as -> _. simpl.
        apply String.eqb_neq in Hne. rewrite Hne. f_equal. now apply IHp.
Qed.

Lemma worker_values_length (k : string) (workers : list (dict T)) :
  Forall (fun w => In k (keys w)) workers ->
  length (worker_values k workers) = length workers.
Proof.
  induction 1 as [|w workers Hw _ IH]; simpl; [reflexivity|].
  destruct (dict_get_In_keys k w Hw) as [v ->]. simpl.
  f_equal. exact IH.
Qed.

(** With at least two workers, distinct keys and a non-empty mapping the
    value view returns the keys in order, bound to the reduced buffer. *)
Lemma reduce_loss_dict_values_ok (pg : process_group T) (peers : list (list T))
    (own : dict T) :
  2 <= world_size pg -> own <> [] -> NoDup (keys own) ->
  reduce_loss_dict_values pg peers own
  = Ok (combine (keys own)
          (if rank pg =? 0
           then map (fun x => div_count x (world_size pg)) (dist_reduce pg peers (values own))
           else dist_reduce pg peers (values own))).
Proof.
  intros Hws Hne Hnd. unfold reduce_loss_dict_values.
  destruct (Nat.ltb_spec (world_size pg) 2) as [Hlt | _]; [lia|].
  destruct own as [|kv own]; [congruence|].
  simpl values. cbv iota. f_equal.
  apply dict_of_items_distinct.
  rewrite keys_combine; [assumption|].
  destruct (rank pg =? 0); rewrite ?length_map, dist_reduce_length;
    unfold keys, values; simpl; now rewrite !length_map.
Qed.

(** Whatever the number of workers, the value view keeps the keys. *)
Lemma reduce_loss_dict_values_keys (pg : process_group T) (peers : list (list T))
    (own : dict T) :
  own <> [] -> NoDup (keys own) ->
  exists reduced,
    reduce_loss_dict_values pg peers own = Ok reduced /\ keys reduced = keys own.
Proof.
  intros Hne Hnd.
  destruct (Nat.ltb_spec (world_size pg) 2) as [Hlt | Hge].
  - exists own. split; [|reflexivity].
    unfold reduce_loss_dict_values.
    destruct (Nat.ltb_spec (world_size pg) 2); [reflexivity | lia].
  - eexists. split; [now apply reduce_loss_dict_values_ok|].
    apply keys_combine.
    destruct (rank pg =? 0); rewrite ?length_map, dist_reduce_length;
      unfold keys, values; now rewrite !length_map.
Qed.

Lemma reduce_loss_dict_calls (pg : process_group T) (peers : list (list T))
    (d : nat) (h : heap T) :
  2 <= world_size pg -> get_dict h d <> [] ->
  snd (reduce_loss_dict pg peers d h) = [Reduce 0 (length (get_dict h d))].
Proof.
  intros Hws Hne. unfold reduce_loss_dict.
  destruct (Nat.ltb_spec (world_size pg) 2) as [Hlt | _]; [lia|].
  destruct (get_dict h d) as [|kv items]; [congruence|].
  simpl. now rewrite length_map.
Qed.

(** C6. With a single worker [reduce_loss_dict] returns its argument, the
    very same dictionary object, leaves the heap as it was and makes no
    cross-process call; on values it is the identity. *)
Theorem reduce_loss_dict_single_worker (pg : process_group T) (peers : list (list T))
    (d : nat) (h : heap T) :
  world_size pg = 1 ->
  reduce_loss_dict pg peers d h = (Ok d, h, []) /\
  reduce_loss_dict_values pg peers (read_dict h d) = Ok (read_dict h d).
Proof.
  intros Hws. unfold reduce_loss_dict, reduce_loss_dict_values.
  rewrite Hws. split; reflexivity.
Qed.

Lemma get_dict_nonempty_valid (h : heap T) (d : nat) :
  get_dict h d <> [] -> d < length (dict_objs h).
Proof.
  intros Hne. destruct (Nat.lt_ge_cases d (length (dict_objs h))) as [Hlt | Hge];
    [assumption|].
  exfalso. apply Hne. unfold get_dict. now apply nth_overflow.
Qed.

(** What a call leaves of the heap it started from: every tensor and every
    dictionary that existed keeps its content; the call only adds objects. *)
Lemma reduce_loss_dict_frame (pg : process_group T) (peers : list (list T))
    (d : nat) (h : heap T) :
  let h' := snd (fst (reduce_loss_dict pg peers d h)) in
  (forall a, a < length (storages h) -> nth a (storages h') [] = nth a (storages h) []) /\
  (forall o, o < length (dict_objs h) -> get_dict h' o = get_dict h o).
Proof.
  unfold reduce_loss_dict.
  destruct (world_size pg <? 2); [simpl; now split|].
  destruct (get_dict h d) as [|kv items] eqn:Hitems; [simpl; now split|].
  cbn [map torch_stack alloc_storage alloc_dict fst snd].
  split.
  - intros a Ha.
    destruct (rank pg =? 0); unfold update_storage; cbn [storages];
      rewrite !list_update_last; now apply app_nth1.
  - intros o Ho. unfold get_dict.
    destruct (rank pg =? 0); unfold update_storage; cbn [dict_objs];
      now apply app_nth1.
Qed.

(** C7. [reduce_loss_dict] does not write to its argument: after the call,
    for any number of workers and whether it returned or raised, the input
    dictionary holds the same references under the same keys and they denote
    the same values. *)
Theorem reduce_loss_dict_keeps_input (pg : process_group T) (peers : list (list T))
    (d : nat) (h : heap T) :
  d < length (dict_objs h) ->
  dict_refs_valid h d ->
  let h' := snd (fst (reduce_loss_dict pg peers d h)) in
  get_dict h' d = get_dict h d /\ read_dict h' d = read_dict h d.
Proof.
  intros Hd Hvalid h'.
  destruct (reduce_loss_dict_frame pg peers d h) as [Hst Hdo].
  fold h' in Hst, Hdo.
  assert (Hget : get_dict h' d = get_dict h d) by now apply Hdo.
  split; [assumption|].
  unfold read_dict. rewrite Hget.
  apply map_ext_in. intros [k [a i]] Hin.
  unfold dict_refs_valid in Hvalid. rewrite Forall_forall in Hvalid.
  specialize (Hvalid _ Hin). simpl in Hvalid.
  unfold read_tensor. simpl. now rewrite Hst.
Qed.

(** C3, amended. With at least two workers, a non-empty Loss Mapping and
    the same keys in the same order on every worker, [reduce_loss_dict]
    makes one reduce call and returns a mapping with the input's keys in the
    input's order. On rank 0 every value is the average over all workers of
    the entry under that key. On any other rank the values are what
    [dist.reduce] left in the local buffer, not divided: the sum over all
    workers if the backend leaves the sum there, and not otherwise. *)
Theorem reduce_loss_dict_reduces (pg : process_group T) (peer_dicts : list (dict T))
    (d : nat) (h : heap T) :
  2 <= world_size pg ->
  world_size pg = S (length peer_dicts) ->
  read_dict h d <> [] ->
  NoDup (keys (read_dict h d)) ->
  Forall (fun p => keys p = keys (read_dict h d)) peer_dicts ->
  exists r h',
    reduce_loss_dict pg (map values peer_dicts) d h
      = (Ok r, h', [Reduce 0 (length (read_dict h d))]) /\
    keys (read_dict h' r) = keys (read_dict h d) /\
    (rank pg = 0 ->
       forall k, In k (keys (read_dict h d)) ->
       dict_get k (read_dict h' r)
       = elementwise_average (read_dict h d :: peer_dicts) k) /\
    (rank pg <> 0 ->
       read_dict h' r
       = combine (keys (read_dict h d))
           (mapi (fun i x => leftover pg i x (column i (map values peer_dicts)))
              (values (read_dict h d)))) /\
    (rank pg <> 0 ->
       (forall i x col, leftover pg i x col = sum_from x col) ->
       forall k, In k (keys (read_dict h d)) ->
       dict_get k (read_dict h' r)
       = elementwise_sum (read_dict h d :: peer_dicts) k).
Proof.
  intros Hws Hcount Hne Hnd Hkeys.
  set (own := read_dict h d) in *.
  assert (Hitems : get_dict h d <> []).
  { intros Hnil. apply Hne. unfold own, read_dict. now rewrite Hnil. }
  pose proof (reduce_loss_dict_values_refines pg (map values peer_dicts) d h) as Href.
  pose proof (@reduce_loss_dict_calls pg (map values peer_dicts) d h Hws Hitems) as Hcalls.
  fold own in Href.
  rewrite (@reduce_loss_dict_values_ok pg (map values peer_dicts) own Hws Hne Hnd) in Href.
  destruct (reduce_loss_dict pg (map values peer_dicts) d h) as [[[r | e] h'] calls];
    [|discriminate].
  simpl in Hcalls. subst calls.
  injection Href as Href.
  exists r, h'. split.
  { do 2 f_equal. unfold own, read_dict. now rewrite length_map. }
  rewrite <- Href.
  assert (Hown_key : forall k v, dict_get k own = Some v ->
            worker_values k (own :: peer_dicts) = v :: worker_values k peer_dicts).
  { intros k v Hget. unfold worker_values. simpl. now rewrite Hget. }
  split; [|split; [|split]].
  - apply keys_combine.
    destruct (rank pg =? 0); rewrite ?length_map, dist_reduce_length;
      unfold keys, values; now rewrite !length_map.
  - intros Hrank k Hin.
    unfold dist_reduce. rewrite Hrank. simpl Nat.eqb. cbv iota.
    unfold mapi. rewrite map_mapi_from.
    destruct (@combined_by_key
                (fun x col => div_count (sum_from x col) (world_size pg))
                own peer_dicts Hnd Hkeys k Hin) as [v [Hget Hres]].
    unfold mapi in Hres. rewrite Hres.
    unfold elementwise_average. rewrite (Hown_key k v Hget).
    unfold mean. do 2 f_equal. simpl length. rewrite Hcount. f_equal.
    symmetry. apply worker_values_length.
    rewrite Forall_forall in *. intros p Hp. now rewrite (Hkeys p Hp).
  - intros Hrank. apply Nat.eqb_neq in Hrank.
    unfold dist_reduce. now rewrite Hrank.
  - intros Hrank Hsum k Hin. apply Nat.eqb_neq in Hrank.
    unfold dist_reduce. rewrite Hrank.
    destruct (@combined_by_key sum_from own peer_dicts Hnd Hkeys k Hin) as [v [Hget Hres]].
    unfold mapi in *.
    rewrite (mapi_from_ext _ (fun i x => sum_from x (column i (map values peer_dicts))))
      by (intros; apply Hsum).
    rewrite Hres. unfold elementwise_sum. now rewrite (Hown_key k v Hget).
Qed.

End ReducerFacts.

(** ** The training loop *)

Section TrainerFacts.

Context {T : Type} `{Scalar T}.

Lemma history_of_name_sound (k : string) (h : history_var) :
  history_of_name k = Some h -> k = history_name h.
Proof.
  unfold history_of_name.
  repeat match goal with
         | |- context [String.eqb k ?n] => destruct (String.eqb_spec k n) as [-> | _]
         end; intros Heq; inversion Heq; reflexivity.
Qed.

Lemma history_of_name_complete (h : history_var) :
  history_of_name (history_name h) = Some h.
Proof. destruct h; reflexivity. Qed.

Lemma history_name_inj (h h' : history_var) :
  history_name h = history_name h' -> h = h'.
Proof. destruct h, h'; simpl; intros Heq; try reflexivity; discriminate. Qed.

Lemma history_path_inj (h h' : history_var) :
  history_path (history_name h) = history_path (history_name h') -> h = h'.
Proof. destruct h, h'; simpl; intros Heq; try reflexivity; discriminate. Qed.

Lemma classify_history (reserved : list string) (h : history_var) :
  classify reserved (history_name h) = HistoryName h.
Proof. unfold classify. now rewrite history_of_name_complete. Qed.

Lemma is_history_name_spec (k : string) :
  is_history_name k = true -> exists h, k = history_name h.
Proof.
  unfold is_history_name. destruct (history_of_name k) as [h|] eqn:Hk; [|discriminate].
  intros _. exists h. now apply history_of_name_sound.
Qed.

Lemma get_append_same (h : history_var) (v : T) (hs : histories T) :
  get_history h (append_history h v hs) = get_history h hs ++ [v].
Proof. destruct h; reflexivity. Qed.

Lemma get_append_other (h h0 : history_var) (v : T) (hs : histories T) :
  h <> h0 -> get_history h (append_history h0 v hs) = get_history h hs.
Proof. destruct h, h0; intros Hne; try reflexivity; congruence. Qed.

(** Lines 107-109 when every key is a history variable: each key's list
    grows by the reduced entry and is written to its file; nothing else is
    touched. *)
Lemma persist_loop_tracked (rt : runtime T) (reduced : dict T) :
  forall (ks : list string) (hs : histories T) (s : state T),
  NoDup ks ->
  Forall (fun k => is_history_name k = true) ks ->
  Forall (fun k => In k (keys reduced)) ks ->
  exists hs' f',
    for_each ks hs (persist_key rt reduced) s
    = (Ok hs', {| files := f'; arguments := arguments s;
                  meters := meters s; trace := trace s |}) /\
    (forall h, get_history h hs' = get_history h hs ++ appended reduced ks h) /\
    (forall h, In (history_name h) ks ->
       dict_get (history_path (history_name h)) f' = Some (Pickled (get_history h hs'))) /\
    (forall p, (forall k, In k ks -> p <> history_path k) ->
       dict_get p f' = dict_get p (files s)).
Proof.
  induction ks as [|k ks IH]; intros hs s Hnd Hhist Hin.
  - exists hs, (files s). simpl. repeat split.
    + now destruct s.
    + intros h. unfold appended. simpl. now rewrite app_nil_r.
    + contradiction.
  - inversion Hnd as [|? ? Hfresh Hnd']; subst.
    inversion Hhist as [|? ? Hk Hhist']; subst.
    inversion Hin as [|? ? Hkin Hin']; subst.
    destruct (is_history_name_spec k Hk) as [h0 ->].
    destruct (dict_get_In_keys _ _ Hkin) as [v Hv].
    set (hs1 := append_history h0 v hs).
    set (s1 := {| files := dict_set (history_path (history_name h0))
                             (Pickled (get_history h0 hs1)) (files s);
                  arguments := arguments s; meters := meters s; trace := trace s |}).
    destruct (IH hs1 s1 Hnd' Hhist' Hin') as [hs' [f' [Hrun [Hget [Hfile Hother]]]]].
    exists hs', f'.
    assert (Hstep : for_each (history_name h0 :: ks) hs (persist_key rt reduced) s
                    = for_each ks hs1 (persist_key rt reduced) s1).
    { simpl. unfold bind at 1. unfold persist_key at 1.
      rewrite classify_history, Hv. reflexivity. }
    rewrite Hstep, Hrun. split; [reflexivity|].
    assert (Hfresh' : mem_string (history_name h0) ks = false)
      by now apply mem_string_not_In.
    split; [|split].
    + intros h. rewrite Hget. unfold appended. simpl mem_string.
      destruct (String.eqb_spec (history_name h) (history_name h0)) as [Heq | Hne].
      * apply history_name_inj in Heq. subst h0. simpl orb.
        rewrite Hfresh', app_nil_r. unfold hs1. rewrite get_append_same.
        now rewrite Hv.
      * simpl orb. unfold hs1. rewrite get_append_other; [reflexivity|].
        intros ->. now apply Hne.
    + intros h [Heq | Hmem].
      * apply history_name_inj in Heq. subst h0.
        rewrite Hother.
        -- simpl. rewrite dict_get_set_same. rewrite Hget. unfold appended.
           rewrite Hfresh', app_nil_r. reflexivity.
        -- intros k' Hk' Hpath.
           rewrite Forall_forall in Hhist'.
           destruct (is_history_name_spec k' (Hhist' _ Hk')) as [h' ->].
           apply history_path_inj in Hpath. subst h'. contradiction.
      * now apply Hfile.
    + intros p Hp. rewrite Hother.
      * simpl. apply dict_get_set_other. apply Hp. now left.
      * intros k' Hk'. apply Hp. now right.
Qed.

Lemma cadence_app (a b : list (event T)) : cadence (a ++ b) = cadence a ++ cadence b.
Proof. unfold cadence. apply flat_map_app. Qed.

Lemma backward_values_app (a b : list (event T)) :
  backward_values (a ++ b) = backward_values a ++ backward_values b.
Proof. unfold backward_values. apply flat_map_app. Qed.

(** Lines 131-139 when every key is a history variable: the lists are only
    read, and the events added are plots and figures. *)
Lemma plot_loop_tracked (rt : runtime T) (cfg : config) :
  forall (ks : list string) (hs : histories T) (s : state T),
  Forall (fun k => is_history_name k = true) ks ->
  exists ext,
    for_each ks hs (plot_key rt cfg) s
    = (Ok hs, {| files := files s; arguments := arguments s;
                 meters := meters s; trace := trace s ++ ext |}) /\
    cadence ext = [] /\ backward_values ext = [].
Proof.
  induction ks as [|k ks IH]; intros hs s Hhist.
  - exists []. simpl. rewrite app_nil_r. repeat split. now destruct s.
  - inversion Hhist as [|? ? Hk Hhist']; subst.
    destruct (is_history_name_spec k Hk) as [h0 ->].
    set (e1 := PltPlot (history_name h0) (get_history h0 hs)).
    set (e2 := @SaveFig T [OUTPUT_DIR cfg; (history_name h0 ++ ".png")%string]).
    set (s1 := {| files := files s; arguments := arguments s; meters := meters s;
                  trace := (trace s ++ [e1]) ++ [e2] |}).
    destruct (IH hs s1 Hhist') as [ext [Hrun [Hc Hb]]].
    exists (e1 :: e2 :: ext).
    assert (Hstep : for_each (history_name h0 :: ks) hs (plot_key rt cfg) s
                    = for_each ks hs (plot_key rt cfg) s1).
    { simpl. unfold bind at 1. unfold plot_key at 1.
      rewrite classify_history. reflexivity. }
    rewrite Hstep, Hrun. simpl trace.
    repeat split; try assumption.
    now rewrite <- !app_assoc.
Qed.

Lemma dict_get_not_In {V} (k : string) (d : dict V) :
  ~ In k (keys d) -> dict_get k d = None.
Proof.
  induction d as [|[k' v'] d IH]; simpl; intros Hk; [reflexivity|].
  destruct (String.eqb_spec k k') as [-> | Hne].
  - exfalso. apply Hk. now left.
  - apply IH. intros Hin. apply Hk. now right.
Qed.

Lemma tracked_spec (d : dict T) :
  tracked d = true ->
  d <> [] /\ NoDup (keys d) /\ Forall (fun k => is_history_name k = true) (keys d).
Proof.
  unfold tracked. rewrite !andb_true_iff. intros [[Hne Hd] Hall].
  split; [|split].
  - destruct d; [discriminate | congruence].
  - now apply distinct_NoDup.
  - apply Forall_forall. now apply forallb_forall.
Qed.

Lemma history_names_accepted (ks : list string) :
  Forall (fun k => is_history_name k = true) ks ->
  mem_string "loss" ks || mem_string "self" ks = false.
Proof.
  intros Hall. rewrite Forall_forall in Hall.
  apply orb_false_iff. split; apply mem_string_not_In; intros Hin;
    specialize (Hall _ Hin); discriminate.
Qed.

Lemma time_meter_present (capacity : nat) (bt dt : T) (ms : dict (meter T)) :
  exists m,
    dict_get "time" (logger_update capacity [("time"%string, bt); ("data"%string, dt)] ms)
    = Some m.
Proof.
  unfold logger_update. simpl. eexists.
  rewrite dict_get_set_other by discriminate.
  apply dict_get_set_same.
Qed.

Ltac run_step :=
  unfold bind at 1;
  cbn [get_state set_arguments emit set_meters set_files ret lift
       files arguments meters trace].

Lemma train_step_tracked (rt : runtime T) (cfg : config) (max_iter P : Z)
    (distributed : bool) (i : Z) (b : batch T) (hs : histories T) (s : state T) :
  tracked (losses_out b) = true ->
  P <> 0%Z ->
  exists hs' s',
    train_step rt cfg max_iter P distributed (i, b) hs s = (Ok hs', s') /\
    arguments s' = dict_set "iteration" i (arguments s) /\
    cadence (trace s')
    = cadence (trace s)
      ++ (if (i mod P =? 0)%Z && (0 <? i)%Z then [Saved i; Validated] else []) /\
    backward_values (trace s')
    = backward_values (trace s) ++ [sum_values (losses_out b)] /\
    (forall h, get_history h hs'
               = get_history h hs ++ reduced_entry rt (history_name h) b) /\
    (forall h, In (history_name h) (keys (losses_out b)) ->
       dict_get (history_path (history_name h)) (files s')
       = Some (Pickled (get_history h hs'))) /\
    (forall p, (forall k, In k (keys (losses_out b)) -> p <> history_path k) ->
       dict_get p (files s') = dict_get p (files s)).
Proof.
  intros Htr HP.
  destruct (tracked_spec _ Htr) as [Hne [Hnd Hhist]].
  destruct (@reduce_loss_dict_values_keys T _ (group rt) (peers_out b) (losses_out b) Hne Hnd)
    as [reduced [Hred Hkeys]].
  assert (Hin : Forall (fun k => In k (keys reduced)) (keys (losses_out b))).
  { rewrite Hkeys. apply Forall_forall. auto. }
  unfold train_step.
  run_step. run_step. run_step. run_step.
  rewrite Hred. run_step.
  unfold bind at 1. unfold update_loss_meters.
  rewrite Hkeys, (history_names_accepted Hhist).
  run_step. run_step.
  destruct (losses_out b) as [|kv0 rest] eqn:Hlosses; [congruence|].
  rewrite <- Hlosses in *.
  run_step. run_step. run_step. run_step.
  unfold bind at 1. unfold time_global_avg. run_step.
  match goal with
  | |- context [dict_get "time" (logger_update ?c [("time"%string, ?x); ("data"%string, ?y)] ?ms)] =>
      destruct (time_meter_present c x y ms) as [m Hm]; rewrite Hm
  end.
  cbn [ret].
  match goal with |- context [bind _ _ ?st0] => set (st := st0) end.
  destruct (persist_loop_tracked rt reduced hs st Hnd Hhist Hin)
    as [hs1 [f1 [Hrun [Hget [Hfile Hother]]]]].
  unfold bind at 1. rewrite Hrun.
  match goal with |- context [bind _ _ ?st0] => set (st1 := st0) end.
  assert (Hlog : exists ext,
    (if (i mod 20 =? 0)%Z || (i =? max_iter - 1)%Z
     then bind (emit (LogLine i (scale (global_avg m) (max_iter - i))))
            (fun _ => for_each (keys (losses_out b)) hs1 (plot_key rt cfg))
     else ret hs1) st1
    = (Ok hs1, {| files := files st1; arguments := arguments st1;
                  meters := meters st1; trace := trace st1 ++ ext |})
    /\ cadence ext = [] /\ backward_values ext = []).
  { destruct ((i mod 20 =? 0)%Z || (i =? max_iter - 1)%Z).
    - run_step.
      match goal with |- context [for_each _ _ _ ?st0] => set (st2 := st0) end.
      destruct (plot_loop_tracked rt cfg hs1 st2 Hhist) as [ext [Hplot [Hc Hb]]].
      exists (LogLine i (scale (global_avg m) (max_iter - i)) :: ext).
      rewrite Hplot. unfold st2. cbn [files arguments meters trace].
      rewrite <- app_assoc. repeat split; assumption.
    - exists []. unfold ret. rewrite app_nil_r. repeat split. }
  destruct Hlog as [ext [Hlog [Hc Hb]]].
  unfold bind at 1. rewrite Hlog.
  destruct (Z.eqb_spec P 0) as [HP0 | _]; [contradiction|].
  unfold st1, st. cbn [files arguments meters trace].
  assert (Hentry : forall h, appended reduced (keys (losses_out b)) h
                             = reduced_entry rt (history_name h) b).
  { intros h. unfold appended, reduced_entry. rewrite Hred, <- Hkeys.
    destruct (mem_string (history_name h) (keys reduced)) eqn:Hmem; [reflexivity|].
    apply mem_string_not_In in Hmem. now rewrite (dict_get_not_In _ _ Hmem). }
  destruct ((i mod P =? 0)%Z && (0 <? i)%Z).
  - run_step. unfold checkpointer_save. run_step. run_step.
    eexists. eexists. split; [reflexivity|].
    cbn [files arguments meters trace].
    repeat rewrite ?cadence_app, ?backward_values_app, ?Hc, ?Hb.
    simpl. rewrite ?app_nil_r. repeat rewrite <- app_assoc. simpl.
    split; [reflexivity|]. split; [reflexivity|]. split; [reflexivity|].
    split; [intros h; now rewrite Hget, Hentry|].
    split; assumption.
  - run_step.
    eexists. eexists. split; [reflexivity|].
    cbn [files arguments meters trace].
    repeat rewrite ?cadence_app, ?backward_values_app, ?Hc, ?Hb.
    simpl. rewrite ?app_nil_r. repeat rewrite <- app_assoc. simpl.
    split; [reflexivity|]. split; [reflexivity|]. split; [reflexivity|].
    split; [intros h; now rewrite Hget, Hentry|].
    split; assumption.
Qed.

Lemma reduced_entry_singleton (rt : runtime T) (k : string) (b : batch T) :
  tracked (losses_out b) = true -> In k (keys (losses_out b)) ->
  exists v, reduced_entry rt k b = [v].
Proof.
  intros Htr Hin. destruct (tracked_spec _ Htr) as [Hne [Hnd _]].
  destruct (@reduce_loss_dict_values_keys T _ (group rt) (peers_out b) (losses_out b) Hne Hnd)
    as [reduced [Hred Hkeys]].
  unfold reduced_entry. rewrite Hred. rewrite <- Hkeys in Hin.
  destruct (dict_get_In_keys _ _ Hin) as [v ->]. now exists v.
Qed.

Lemma last_cons {A} (l : list A) (x d : A) : last (x :: l) d = last l x.
Proof.
  revert x d. induction l as [|y l IH]; intros x d; [reflexivity|].
  change (last (x :: y :: l) d) with (last (y :: l) d). now rewrite !IH.
Qed.

(** The loop over items that all carry tracked mappings runs to its end;
    the trace, the lists and the files grow item by item. *)
Lemma train_loop_tracked (rt : runtime T) (cfg : config) (max_iter P : Z)
    (distributed : bool) :
  P <> 0%Z ->
  forall (items : list (Z * batch T)) (acc : option Z * histories T) (s : state T),
  Forall (fun item => tracked (losses_out (snd item)) = true) items ->
  exists hs' s',
    for_each items acc
      (fun item acc =>
         bind (train_step rt cfg max_iter P distributed item (snd acc))
           (fun hs' => ret (Some (fst item), hs'))) s
    = (Ok (last (map (fun item => Some (fst item)) items) (fst acc), hs'), s') /\
    cadence (trace s')
    = cadence (trace s)
      ++ flat_map (fun item =>
                     if (fst item mod P =? 0)%Z && (0 <? fst item)%Z
                     then [Saved (fst item); Validated] else []) items /\
    backward_values (trace s')
    = backward_values (trace s)
      ++ map (fun item => sum_values (losses_out (snd item))) items /\
    (forall h, get_history h hs'
               = get_history h (snd acc)
                 ++ flat_map (fun item => reduced_entry rt (history_name h) (snd item)) items) /\
    (forall h, items <> [] ->
       Forall (fun item => In (history_name h) (keys (losses_out (snd item)))) items ->
       dict_get (history_path (history_name h)) (files s')
       = Some (Pickled (get_history h hs'))) /\
    (items <> [] ->
       dict_get "iteration" (arguments s')
       = last (map (fun item => Some (fst item)) items) None) /\
    (items = [] -> s' = s).
Proof.
  intros HP. induction items as [|[i b] items IH]; intros acc s Htr.
  - exists (snd acc), s. destruct acc as [it hs]. simpl. rewrite !app_nil_r.
    split; [reflexivity|]. split; [reflexivity|]. split; [reflexivity|].
    split; [intros h; now rewrite app_nil_r|]. split; [intros h Hne; congruence|].
    split; [congruence | reflexivity].
  - inversion Htr as [|? ? Hb Hrest]; subst. simpl in Hb.
    destruct (@train_step_tracked rt cfg max_iter P distributed i b (snd acc) s Hb HP)
      as [hs1 [s1 [Hstep [Hargs [Hcad [Hback [Hget [Hfile Hother]]]]]]]].
    destruct (IH (Some i, hs1) s1 Hrest)
      as [hs' [s' [Hrun [Hcad' [Hback' [Hget' [Hfile' [Hargs' Hnil]]]]]]]].
    exists hs', s'.
    cbn [for_each]. unfold bind at 1. unfold bind at 1.
    rewrite Hstep. cbn [ret fst snd]. rewrite Hrun.
    cbn [map flat_map fst snd] in *. rewrite last_cons.
    split; [reflexivity|].
    split; [now rewrite Hcad', Hcad, <- app_assoc|].
    split; [now rewrite Hback', Hback, <- app_assoc|].
    split; [intros h; now rewrite Hget', Hget, <- app_assoc|].
    split; [|split; [|discriminate]].
    + intros h _ Hall. inversion Hall as [|? ? Hhere Hthere]; subst.
      destruct items as [|item items'].
      * rewrite (Hnil eq_refl). rewrite Hget'. cbn [flat_map].
        rewrite app_nil_r. now apply Hfile.
      * apply Hfile'; [discriminate | assumption].
    + intros _. destruct items as [|item items'].
      * rewrite (Hnil eq_refl), Hargs. cbn [map last].
        apply dict_get_set_same.
      * rewrite Hargs' by discriminate. cbn [map]. reflexivity.
Qed.

(** Lines 66-75, by the first read that raises. *)
Lemma load_histories_spec (s : state T) :
  load_histories s
  = match first_unreadable (files s) with
    | None => (Ok (stored_histories (files s)), s)
    | Some EOFError => (Ok empty_histories, s)
    | Some e => (Raise e, s)
    end.
Proof.
  unfold load_histories, try_except_EOFError, first_unreadable, stored_histories,
    pickle_load, bind, get_state, ret, raise.
  repeat match goal with
         | |- context [match dict_get ?p (files s) with _ => _ end] =>
             destruct (dict_get p (files s)) as [[?| |]|]; try reflexivity
         end.
Qed.

(** Lines 58-65: up to the loading of the histories only the start
    iteration is read. *)
Lemma do_train_started (rt : runtime T) (cfg : config) (dl : loader T) (P : Z)
    (distributed : bool) (f : dict (file T)) (a : dict Z) (start : Z) :
  dict_get "iteration" a = Some start ->
  do_train rt cfg dl P distributed (initial f a)
  = bind load_histories
      (train_and_report rt cfg (Z.of_nat (dl_len dl)) P distributed
         (enumerate (dl_batches dl) start))
      (started f a).
Proof.
  intros Hstart. unfold do_train, initial, started.
  run_step. run_step. run_step. rewrite Hstart. run_step. run_step.
  reflexivity.
Qed.

Lemma do_train_loaded (rt : runtime T) (cfg : config) (dl : loader T)
    (P : Z) (distributed : bool) (f : dict (file T)) (a : dict Z) (start : Z)
    (hs0 : histories T) :
  dict_get "iteration" a = Some start ->
  loaded_histories f = Some hs0 ->
  do_train rt cfg dl P distributed (initial f a)
  = train_and_report rt cfg (Z.of_nat (dl_len dl)) P distributed
      (enumerate (dl_batches dl) start) hs0 (started f a).
Proof.
  intros Hstart Hload.
  rewrite (@do_train_started rt cfg dl P distributed f a start Hstart).
  unfold bind. rewrite load_histories_spec. cbn [files started].
  unfold loaded_histories in Hload.
  destruct (first_unreadable f) as [[]|]; congruence.
Qed.

(** C2, amended. At loop start the four history files are read in order.
    If the first read that fails raises EOFError (as [pickle.load] does on a
    file of length 0), all four histories start empty and training goes on
    from there; if all four succeed, training goes on from the stored lists.
    No other failure is handled: for a file that is absent [do_train] raises
    FileNotFoundError, and for content on which [pickle.load] raises
    UnpicklingError (a pickle cut off inside an opcode is such content)
    [do_train] raises UnpicklingError, in both cases before the first
    iteration. *)
Theorem do_train_history_loading (rt : runtime T) (cfg : config) (dl : loader T)
    (P : Z) (distributed : bool) (f : dict (file T)) (a : dict Z) (start : Z) :
  dict_get "iteration" a = Some start ->
  do_train rt cfg dl P distributed (initial f a)
  = match first_unreadable f with
    | None =>
        train_and_report rt cfg (Z.of_nat (dl_len dl)) P distributed
          (enumerate (dl_batches dl) start) (stored_histories f) (started f a)
    | Some EOFError =>
        train_and_report rt cfg (Z.of_nat (dl_len dl)) P distributed
          (enumerate (dl_batches dl) start) empty_histories (started f a)
    | Some e => (Raise e, started f a)
    end.
Proof.
  intros Hstart. rewrite (@do_train_started rt cfg dl P distributed f a start Hstart).
  unfold bind. rewrite load_histories_spec. cbn [files started].
  destruct (first_unreadable f) as [[]|]; reflexivity.
Qed.

(** C9, amended. When the data loader yields no item, in particular when
    [max_iter] is 0, [do_train] (once the start iteration is read and the
    histories are loaded) fails at the final checkpoint save, line 147, with
    UnboundLocalError: [iteration] was never bound. Nothing has been saved
    and the timing report with its division by [max_iter] is not reached. *)
Theorem do_train_empty_loader (rt : runtime T) (cfg : config) (dl : loader T)
    (P : Z) (distributed : bool) (f : dict (file T)) (a : dict Z) (start : Z)
    (hs0 : histories T) :
  dict_get "iteration" a = Some start ->
  loaded_histories f = Some hs0 ->
  dl_batches dl = [] ->
  do_train rt cfg dl P distributed (initial f a)
  = (Raise UnboundLocalError, started f a)
  /\ cadence (trace (started f a)) = [].
Proof.
  intros Hstart Hload Hempty.
  rewrite (@do_train_loaded rt cfg dl P distributed f a start hs0 Hstart Hload), Hempty.
  split; reflexivity.
Qed.

(** *** Enumerated items *)

Lemma enumerate_indices {A} (xs : list A) (start : Z) :
  map fst (enumerate xs start)
  = map (fun n => (start + Z.of_nat n)%Z) (seq 0 (length xs)).
Proof.
  revert start. induction xs as [|x xs IH]; intros start; simpl; [reflexivity|].
  f_equal; [lia|].
  rewrite IH, <- seq_shift, map_map. apply map_ext. intros n. lia.
Qed.

Lemma enumerate_items {A} (xs : list A) (start : Z) :
  map snd (enumerate xs start) = xs.
Proof.
  revert start. induction xs as [|x xs IH]; intros start; simpl;
    [reflexivity | now rewrite IH].
Qed.

Lemma enumerate_Forall {A} (Q : A -> Prop) (xs : list A) (start : Z) :
  Forall Q xs -> Forall (fun item => Q (snd item)) (enumerate xs start).
Proof.
  intros Hall. revert start.
  induction Hall as [|x xs Hx _ IH]; intros start; simpl; constructor; auto.
Qed.

Lemma enumerate_last {A} (xs : list A) (start : Z) (d : option Z) :
  xs <> [] ->
  last (map (fun item => Some (fst item)) (enumerate xs start)) d
  = Some (start + Z.of_nat (length xs) - 1)%Z.
Proof.
  revert start d. induction xs as [|x xs IH]; intros start d Hne; [congruence|].
  cbn [enumerate map fst]. rewrite last_cons.
  destruct xs as [|y xs'].
  - simpl. f_equal. lia.
  - rewrite IH by discriminate. f_equal. cbn [length]. lia.
Qed.

Lemma flat_map_fst {A B} (g : Z -> list B) (items : list (Z * A)) :
  flat_map (fun item => g (fst item)) items = flat_map g (map fst items).
Proof.
  induction items as [|item items IH]; simpl; [reflexivity | now rewrite IH].
Qed.

Lemma flat_map_filter {A B} (p : A -> bool) (g : A -> list B) (l : list A) :
  flat_map (fun x => if p x then g x else []) l = flat_map g (filter p l).
Proof.
  induction l as [|x l IH]; simpl; [reflexivity|].
  destruct (p x); simpl; now rewrite IH.
Qed.

(** The loop and the final report over tracked items: the run gets to the
    timing report, which divides by [max_iter]. *)
Lemma train_and_report_tracked (rt : runtime T) (cfg : config) (max_iter P : Z)
    (distributed : bool) (xs : list (batch T)) (start : Z)
    (hs : histories T) (s : state T) :
  P <> 0%Z ->
  xs <> [] ->
  Forall (fun b => tracked (losses_out b) = true) xs ->
  let idx := (start + Z.of_nat (length xs) - 1)%Z in
  exists hs' s',
    train_and_report rt cfg max_iter P distributed (enumerate xs start) hs s
    = ((if (max_iter =? 0)%Z then Raise ZeroDivisionError else Ok tt), s') /\
    cadence (trace s')
    = cadence (trace s)
      ++ flat_map (fun i => if (i mod P =? 0)%Z && (0 <? i)%Z
                            then [Saved i; Validated] else [])
           (map fst (enumerate xs start))
      ++ [Saved idx] /\
    backward_values (trace s')
    = backward_values (trace s) ++ map (fun b => sum_values (losses_out b)) xs /\
    (forall h, get_history h hs'
               = get_history h hs
                 ++ flat_map (fun b => reduced_entry rt (history_name h) b) xs) /\
    (forall h, Forall (fun b => In (history_name h) (keys (losses_out b))) xs ->
       dict_get (history_path (history_name h)) (files s')
       = Some (Pickled (get_history h hs'))) /\
    dict_get "iteration" (arguments s') = Some idx.
Proof.
  intros HP Hne Htr idx.
  assert (Hitems : enumerate xs start <> [])
    by (destruct xs; [congruence | discriminate]).
  destruct (@train_loop_tracked rt cfg max_iter P distributed HP
              (enumerate xs start) (None, hs) s
              (@enumerate_Forall _ (fun b => tracked (losses_out b) = true) xs start Htr))
    as [hs' [s1 [Hrun [Hcad [Hback [Hget [Hfile [Hargs _]]]]]]]].
  cbn [fst snd] in *.
  rewrite !(@enumerate_last _ xs start None Hne) in *. fold idx in Hrun, Hargs.
  unfold train_and_report, train_loop. unfold bind at 1. rewrite Hrun.
  cbn [fst]. unfold checkpointer_save. run_step. run_step.
  assert (Hmap : forall (g : batch T -> T),
            map (fun item : Z * batch T => g (snd item)) (enumerate xs start) = map g xs).
  { intros g. transitivity (map g (map snd (enumerate xs start)));
      [now rewrite map_map | now rewrite enumerate_items]. }
  assert (Hflat : forall (g : batch T -> list T),
            flat_map (fun item : Z * batch T => g (snd item)) (enumerate xs start)
            = flat_map g xs).
  { intros g. transitivity (flat_map g (map snd (enumerate xs start)));
      [|now rewrite enumerate_items].
    generalize (enumerate xs start). intros l.
    induction l as [|item l IH]; simpl; [reflexivity | now rewrite IH]. }
  pose proof (flat_map_fst
                (fun i => if (i mod P =? 0)%Z && (0 <? i)%Z
                          then [Saved i; Validated] else [])
                (enumerate xs start)) as Hidx.
  cbv beta in Hidx.
  destruct (max_iter =? 0)%Z.
  - eexists. eexists. split; [reflexivity|].
    cbn [files arguments meters trace raise].
    rewrite cadence_app, backward_values_app, Hcad, Hback. simpl.
    rewrite ?app_nil_r, <- app_assoc, Hidx,
      (Hmap (fun b => sum_values (losses_out b))).
    split; [reflexivity|]. split; [reflexivity|].
    split; [intros h; now rewrite Hget, (Hflat (fun b => reduced_entry rt (history_name h) b))|].
    split; [|now apply Hargs].
    intros h Hall. apply Hfile; [assumption|].
    now apply (@enumerate_Forall _ (fun b => In (history_name h) (keys (losses_out b)))).
  - eexists. eexists. split; [reflexivity|].
    cbn [files arguments meters trace emit].
    rewrite !cadence_app, !backward_values_app, Hcad, Hback. simpl.
    rewrite ?app_nil_r, <- app_assoc, Hidx,
      (Hmap (fun b => sum_values (losses_out b))).
    split; [reflexivity|]. split; [reflexivity|].
    split; [intros h; now rewrite Hget, (Hflat (fun b => reduced_entry rt (history_name h) b))|].
    split; [|now apply Hargs].
    intros h Hall. apply Hfile; [assumption|].
    now apply (@enumerate_Forall _ (fun b => In (history_name h) (keys (losses_out b)))).
Qed.

Lemma started_quiet (f : dict (file T)) (a : dict Z) :
  cadence (trace (started f a)) = [] /\ backward_values (trace (started f a)) = [].
Proof. split; reflexivity. Qed.

Lemma positive_multiples_spec (P : Z) (n : nat) (i : Z) :
  P <> 0%Z ->
  In i (positive_multiples P n) <-> (0 < i < Z.of_nat n)%Z /\ (P | i)%Z.
Proof.
  intros HP. unfold positive_multiples, iterations.
  rewrite filter_In, in_map_iff, andb_true_iff, Z.ltb_lt, Z.eqb_eq.
  rewrite (Z.mod_divide i P HP).
  split.
  - intros [[m [Hm Hin]] [Hpos Hdiv]]. apply in_seq in Hin.
    split; [lia | assumption].
  - intros [Hrange Hdiv]. split; [|split; [lia | assumption]].
    exists (Z.to_nat i). split; [lia|]. apply in_seq. lia.
Qed.

(** C4. A run from iteration 0 over [max_iter] items with tracked Loss
    Mappings and a non-zero [checkpoint_period = P] completes; its
    checkpoints and validation passes are, in order, a save followed by a
    validation pass at every iteration that is a positive multiple of [P],
    and then the final save at [max_iter - 1] with no validation; there is
    no other save and no other validation. *)
Theorem checkpoint_cadence (rt : runtime T) (cfg : config) (dl : loader T) (P : Z)
    (distributed : bool) (f : dict (file T)) (a : dict Z) (hs0 : histories T) :
  P <> 0%Z ->
  dict_get "iteration" a = Some 0%Z ->
  loaded_histories f = Some hs0 ->
  dl_batches dl <> [] ->
  dl_len dl = length (dl_batches dl) ->
  Forall (fun b => tracked (losses_out b) = true) (dl_batches dl) ->
  let run := do_train rt cfg dl P distributed (initial f a) in
  fst run = Ok tt /\
  cadence (trace (snd run))
  = flat_map (fun i => [Saved i; Validated]) (positive_multiples P (dl_len dl))
    ++ [Saved (Z.of_nat (dl_len dl) - 1)%Z] /\
  (forall i, In i (positive_multiples P (dl_len dl))
             <-> (0 < i < Z.of_nat (dl_len dl))%Z /\ (P | i)%Z).
Proof.
  intros HP Hstart Hload Hne Hlen Htr run.
  assert (Hpos : (Z.of_nat (dl_len dl) =? 0)%Z = false).
  { apply Z.eqb_neq. rewrite Hlen. destruct (dl_batches dl); [congruence | simpl; lia]. }
  destruct (@train_and_report_tracked rt cfg (Z.of_nat (dl_len dl)) P distributed
              (dl_batches dl) 0%Z hs0 (started f a) HP Hne Htr)
    as [hs' [s' [Hrun [Hcad _]]]].
  unfold run.
  rewrite (@do_train_loaded rt cfg dl P distributed f a 0%Z hs0 Hstart Hload), Hrun, Hpos.
  split; [reflexivity|]. split; [|intros i; now apply positive_multiples_spec].
  cbn [snd]. rewrite Hcad. cbn [started trace cadence flat_map app].
  rewrite enumerate_indices, <- Hlen.
  replace (0 + Z.of_nat (dl_len dl) - 1)%Z with (Z.of_nat (dl_len dl) - 1)%Z by lia.
  f_equal.
  rewrite (flat_map_filter (fun i => (i mod P =? 0)%Z && (0 <? i)%Z)
             (fun i => [Saved i; Validated])).
  unfold positive_multiples, iterations. f_equal.
  rewrite (map_ext (fun n => (0 + Z.of_nat n)%Z) Z.of_nat) by (intros; lia).
  apply filter_ext. intros i. apply andb_comm.
Qed.

(** *** Which computations call [backward] *)

Lemma no_backward_ret {A} (a : A) : no_backward (@ret T A a).
Proof. intros s. reflexivity. Qed.

Lemma no_backward_raise {A} (e : exn) : no_backward (@raise T A e).
Proof. intros s. reflexivity. Qed.

Lemma no_backward_lift {A} (r : result A) : no_backward (@lift T A r).
Proof. destruct r; intros s; reflexivity. Qed.

Lemma no_backward_get_state : no_backward (@get_state T).
Proof. intros s. reflexivity. Qed.

Lemma no_backward_set_files (f : dict (file T)) : no_backward (set_files f).
Proof. intros s. reflexivity. Qed.

Lemma no_backward_set_arguments (a : dict Z) : no_backward (@set_arguments T a).
Proof. intros s. reflexivity. Qed.

Lemma no_backward_set_meters (m : dict (meter T)) : no_backward (set_meters m).
Proof. intros s. reflexivity. Qed.

Lemma no_backward_emit (e : event T) :
  backward_values [e] = [] -> no_backward (emit e).
Proof.
  intros He s. simpl. rewrite backward_values_app, He. apply app_nil_r.
Qed.

Lemma no_backward_bind {A B} (m : M T A) (k : A -> M T B) :
  no_backward m -> (forall a, no_backward (k a)) -> no_backward (bind m k).
Proof.
  intros Hm Hk s. unfold bind. specialize (Hm s).
  destruct (m s) as [[a | e] s1]; simpl in *.
  - now rewrite Hk.
  - assumption.
Qed.

Lemma no_backward_for_each {A B} (body : A -> B -> M T B) (xs : list A) :
  (forall x acc, no_backward (body x acc)) ->
  forall acc, no_backward (for_each xs acc body).
Proof.
  intros Hbody. induction xs as [|x xs IH]; intros acc; simpl.
  - apply no_backward_ret.
  - apply no_backward_bind; [apply Hbody | intros; apply IH].
Qed.

Lemma no_backward_try {A} (body handler : M T A) :
  no_backward body -> no_backward handler ->
  no_backward (try_except_EOFError body handler).
Proof.
  intros Hb Hh s. unfold try_except_EOFError. specialize (Hb s).
  destruct (body s) as [[a | []] s1]; simpl in *; try assumption.
  now rewrite Hh.
Qed.

Create HintDb quiet.

#[local] Hint Resolve no_backward_ret no_backward_raise no_backward_lift
  no_backward_get_state no_backward_set_files no_backward_set_arguments
  no_backward_set_meters : quiet.

Ltac quiet :=
  repeat first
    [ apply no_backward_bind; [|intros]
    | apply no_backward_emit; reflexivity
    | apply no_backward_for_each; intros
    | solve [auto with quiet]
    | match goal with
      | |- no_backward (match ?x with _ => _ end) => destruct x
      | |- no_backward (let (_, _) := ?x in _) => destruct x
      | |- no_backward (if ?c then _ else _) => destruct c
      end ].

Lemma no_backward_exec_oracle (rt : runtime T) (stmt : exec_stmt) (key : string)
    (hs : histories T) : no_backward (exec_oracle rt stmt key hs).
Proof. unfold exec_oracle. quiet. Qed.

Lemma no_backward_persist_key (rt : runtime T) (reduced : dict T) (key : string)
    (hs : histories T) : no_backward (persist_key rt reduced key hs).
Proof.
  unfold persist_key, pickle_dump. quiet; try apply no_backward_exec_oracle.
Qed.

Lemma no_backward_plot_key (rt : runtime T) (cfg : config) (key : string)
    (hs : histories T) : no_backward (plot_key rt cfg key hs).
Proof.
  unfold plot_key. quiet; try apply no_backward_exec_oracle.
Qed.

Lemma no_backward_load_histories : no_backward (@load_histories T).
Proof.
  unfold load_histories. apply no_backward_try; unfold pickle_load; quiet.
Qed.

Lemma backward_once_bind {A B} (v : T) (m : M T A) (k : A -> M T B) :
  no_backward m -> (forall a, backward_once v (k a)) -> backward_once v (bind m k).
Proof.
  intros Hm Hk s. unfold bind. specialize (Hm s).
  destruct (m s) as [[a | e] s1]; simpl in *.
  - rewrite <- Hm. apply Hk.
  - right. split; [assumption | now exists e].
Qed.

Lemma backward_once_emit {B} (v : T) (k : unit -> M T B) :
  (forall a, no_backward (k a)) -> backward_once v (bind (emit (Backward v)) k).
Proof.
  intros Hk s. left. unfold bind. simpl. rewrite Hk. simpl.
  now rewrite backward_values_app.
Qed.

Lemma backward_once_raise {A B} (v : T) (e : exn) (k : A -> M T B) :
  backward_once v (bind (@raise T A e) k).
Proof. intros s. right. simpl. split; [reflexivity | now exists e]. Qed.

(** One pass through the loop body calls [backward] at most once, and then
    on the sum of the entries of the mapping the model returned. *)
Lemma train_step_backward (rt : runtime T) (cfg : config) (max_iter P : Z)
    (distributed : bool) (item : Z * batch T) (hs : histories T) :
  backward_once (sum_values (losses_out (snd item)))
    (train_step rt cfg max_iter P distributed item hs).
Proof.
  destruct item as [i b]. unfold train_step. cbn [snd].
  do 6 (apply backward_once_bind; [unfold update_loss_meters; quiet | intros]).
  apply backward_once_bind; [quiet|intros].
  destruct (losses_out b) as [|kv rest].
  - apply backward_once_raise.
  - apply backward_once_emit. intros _.
    unfold time_global_avg, checkpointer_save.
    quiet; try first [apply no_backward_persist_key | apply no_backward_plot_key].
Qed.

Lemma backward_prefix_bind {A B} (xs : list (batch T)) (m : M T A) (k : A -> M T B) :
  no_backward m -> (forall a, backward_prefix xs (k a)) ->
  backward_prefix xs (bind m k).
Proof.
  intros Hm Hk s. unfold bind. specialize (Hm s).
  destruct (m s) as [[a | e] s1]; simpl in *.
  - rewrite <- Hm. apply Hk.
  - exists 0. split; [lia|]. split.
    + simpl. now rewrite app_nil_r.
    + intros [a Ha]. discriminate.
Qed.

Lemma backward_prefix_then {A B} (xs : list (batch T)) (m : M T A) (k : A -> M T B) :
  backward_prefix xs m -> (forall a, no_backward (k a)) ->
  backward_prefix xs (bind m k).
Proof.
  intros Hm Hk s. unfold bind. destruct (Hm s) as [n [Hn [Hbv Hok]]].
  exists n. destruct (m s) as [[a | e] s1]; simpl in *.
  - split; [assumption|]. split.
    + now rewrite Hk.
    + intros _. apply Hok. now exists a.
  - split; [assumption|]. split; [assumption|].
    intros [b Hb]. discriminate.
Qed.

(** The loop calls [backward] once per item it gets through, on that
    item's own sum. *)
Lemma train_loop_backward (rt : runtime T) (cfg : config) (max_iter P : Z)
    (distributed : bool) (xs : list (batch T)) :
  forall (start : Z) (acc : option Z * histories T),
  backward_prefix xs
    (for_each (enumerate xs start) acc
       (fun item acc =>
          bind (train_step rt cfg max_iter P distributed item (snd acc))
            (fun hs' => ret (Some (fst item), hs')))).
Proof.
  induction xs as [|b xs IH]; intros start acc s.
  - exists 0. simpl. rewrite app_nil_r. repeat split. lia.
  - pose proof (@train_step_backward rt cfg max_iter P distributed (start, b) (snd acc) s)
      as Hstep.
    cbn [snd] in Hstep.
    match goal with
    | |- context [for_each (enumerate (b :: xs) start) acc ?body s] =>
        assert (Heq : for_each (enumerate (b :: xs) start) acc body s
                      = match train_step rt cfg max_iter P distributed (start, b) (snd acc) s with
                        | (Ok hs1, s1) =>
                            for_each (enumerate xs (start + 1)%Z) (Some start, hs1) body s1
                        | (Raise e, s1) => (Raise e, s1)
                        end)
          by (cbn [enumerate for_each]; unfold bind;
              destruct (train_step rt cfg max_iter P distributed (start, b) (snd acc) s)
                as [[hs1 | e] s1]; reflexivity);
        rewrite !Heq; clear Heq
    end.
    destruct (train_step rt cfg max_iter P distributed (start, b) (snd acc) s)
      as [[hs1 | e] s1]; cbn [fst snd] in *.
    + destruct Hstep as [Hone | [_ [e He]]]; [|discriminate].
      destruct (IH (start + 1)%Z (Some start, hs1) s1) as [n [Hn [Hbv Hok]]].
      exists (S n). split; [simpl; lia|]. split.
      * rewrite Hbv, Hone. cbn [firstn map]. rewrite <- app_assoc. reflexivity.
      * intros Hret. simpl. f_equal. now apply Hok.
    + destruct Hstep as [Hone | [Hnone _]].
      * exists 1. split; [simpl; lia|]. split; [assumption|].
        intros [a Ha]. discriminate.
      * exists 0. split; [lia|]. split.
        -- simpl. now rewrite app_nil_r.
        -- intros [a Ha]. discriminate.
Qed.

(** Line 89 computes the sum of the entries: [sum] adds them from the left
    to the int 0. *)
Lemma sum_values_is_sum_of_entries (d : dict T) : sum_values d = sum_of_entries d.
Proof.
  unfold sum_values, sum_of_entries. induction (values d) as [|v vs IH] using rev_ind.
  - reflexivity.
  - rewrite fold_left_app, rev_app_distr. simpl. now rewrite IH.
Qed.

(** C5. In every run of [do_train], whatever the process group, the peers'
    losses and the outcome: the calls to [backward] are, in order, one per
    iteration gone through, and the value back-propagated in an iteration is
    the sum of the entries of the Loss Mapping the model returned on this
    worker for that item, [sum_of_entries] being that sum written out entry
    by entry. The reduced mapping, the process group and the peers' tensors
    do not enter it. When the run returns, every item has had its call. *)
Theorem backward_takes_local_losses (rt : runtime T) (cfg : config) (dl : loader T)
    (P : Z) (distributed : bool) (s : state T) :
  let run := do_train rt cfg dl P distributed s in
  exists n,
    n <= length (dl_batches dl) /\
    backward_values (trace (snd run))
    = backward_values (trace s)
      ++ map (fun b => sum_of_entries (losses_out b)) (firstn n (dl_batches dl)) /\
    (fst run = Ok tt -> n = length (dl_batches dl)).
Proof.
  intros run.
  assert (Hrun : backward_prefix (dl_batches dl) (do_train rt cfg dl P distributed)).
  { unfold do_train.
    do 6 (apply backward_prefix_bind;
          [quiet; try apply no_backward_load_histories | intros]).
    unfold train_and_report, train_loop.
    apply backward_prefix_then; [apply train_loop_backward|].
    intros last. unfold checkpointer_save. quiet. }
  destruct (Hrun s) as [n [Hn [Hbv Hok]]].
  exists n. split; [assumption|]. split.
  - unfold run. rewrite Hbv. f_equal. apply map_ext.
    intros b. apply sum_values_is_sum_of_entries.
  - intros Hret. apply Hok. now exists tt.
Qed.

(** *** A key that names nothing *)

Lemma for_each_app {A B} (xs ys : list A) (body : A -> B -> M T B) :
  forall (acc : B) (s : state T),
  for_each (xs ++ ys) acc body s
  = bind (for_each xs acc body) (fun acc' => for_each ys acc' body) s.
Proof.
  induction xs as [|x xs IH]; intros acc s; simpl.
  - reflexivity.
  - unfold bind.
    destruct (body x acc s) as [[a | e] s1]; [|reflexivity].
    rewrite IH. reflexivity.
Qed.

Lemma enumerate_app {A} (xs ys : list A) (start : Z) :
  enumerate (xs ++ ys) start
  = enumerate xs start ++ enumerate ys (start + Z.of_nat (length xs))%Z.
Proof.
  revert start. induction xs as [|x xs IH]; intros start; simpl.
  - f_equal. lia.
  - rewrite IH. do 3 f_equal. lia.
Qed.

(** *** The history files, iteration by iteration *)

Lemma firstn_flat_map_single {A B} (g : A -> list B) (xs : list A) :
  Forall (fun x => exists v, g x = [v]) xs ->
  forall j, firstn j (flat_map g xs) = flat_map g (firstn j xs).
Proof.
  induction 1 as [|x xs [v Hv] _ IH]; intros j.
  - now rewrite !firstn_nil.
  - destruct j as [|j]; [reflexivity|].
    cbn [flat_map firstn]. rewrite Hv. cbn [app firstn]. now rewrite IH.
Qed.

Lemma firstn_Forall {A} (Q : A -> Prop) (xs : list A) (j : nat) :
  Forall Q xs -> Forall Q (firstn j xs).
Proof.
  intros Hall. revert j. induction Hall as [|x xs Hx _ IH]; intros [|j]; simpl;
    try constructor; auto.
Qed.

Lemma flat_map_snd {A B} (g : A -> list B) (items : list (Z * A)) :
  flat_map (fun item => g (snd item)) items = flat_map g (map snd items).
Proof.
  induction items as [|item items IH]; simpl; [reflexivity | now rewrite IH].
Qed.

Lemma stored_histories_get (f : dict (file T)) (h : history_var) (l : list T) :
  dict_get (history_path (history_name h)) f = Some (Pickled l) ->
  get_history h (stored_histories f) = l.
Proof.
  intros Hf. unfold stored_histories. unfold history_path in Hf.
  destruct h; cbn in Hf |- *; now rewrite Hf.
Qed.

Lemma all_pickled_readable (f : dict (file T)) :
  (forall h, exists l, dict_get (history_path (history_name h)) f = Some (Pickled l)) ->
  first_unreadable f = None.
Proof.
  intros Hall. unfold first_unreadable.
  destruct (Hall LossClassifier) as [l1 H1]. destruct (Hall LossBoxReg) as [l2 H2].
  destruct (Hall LossObjectness) as [l3 H3]. destruct (Hall LossRpnBoxReg) as [l4 H4].
  unfold history_path in H1, H2, H3, H4. cbn in H1, H2, H3, H4.
  now rewrite H1, H2, H3, H4.
Qed.

(** C8, amended. Take a history variable whose key is in the Loss Mapping
    of every item, its list empty when the loop starts, and a run over
    K >= 1 items with tracked mappings. The file of that key is rewritten in
    every iteration, whether the iteration logs or not: when the loop has
    gone through its first j items (and goes on from there with the
    others), the file holds the first j entries of the series, the entry of
    an item being its reduced loss under that key. After the run the file
    holds the K entries in order.
    Reading the histories again the way [do_train] does, lines 66-75, gives
    that series back only when all four history files can then be read, as
    they can when every mapping has all four keys. When the first of the
    four that cannot be read raises EOFError (another history file is still
    empty), the reload binds the empty list to this key as well; on any
    other failure it raises. *)
Theorem loss_history_persisted (rt : runtime T) (cfg : config) (dl : loader T) (P : Z)
    (distributed : bool) (f : dict (file T)) (a : dict Z) (start : Z)
    (hs0 : histories T) (h : history_var) :
  P <> 0%Z ->
  dict_get "iteration" a = Some start ->
  loaded_histories f = Some hs0 ->
  get_history h hs0 = [] ->
  dl_batches dl <> [] ->
  Forall (fun b => tracked (losses_out b) = true) (dl_batches dl) ->
  Forall (fun b => In (history_name h) (keys (losses_out b))) (dl_batches dl) ->
  let xs := dl_batches dl in
  let max_iter := Z.of_nat (dl_len dl) in
  let path := history_path (history_name h) in
  let s' := snd (do_train rt cfg dl P distributed (initial f a)) in
  exists series,
    map (fun v => [v]) series = map (reduced_entry rt (history_name h)) xs /\
    length series = length xs /\
    do_train rt cfg dl P distributed (initial f a)
    = train_and_report rt cfg max_iter P distributed (enumerate xs start) hs0
        (started f a) /\
    (forall j, 1 <= j <= length xs ->
       exists acc s_j,
         train_loop rt cfg max_iter P distributed (enumerate (firstn j xs) start) hs0
           (started f a)
         = (Ok acc, s_j) /\
         fst acc = Some (start + Z.of_nat j - 1)%Z /\
         dict_get path (files s_j) = Some (Pickled (firstn j series)) /\
         train_loop rt cfg max_iter P distributed (enumerate xs start) hs0 (started f a)
         = train_loop_from rt cfg max_iter P distributed
             (enumerate (skipn j xs) (start + Z.of_nat j)) acc s_j) /\
    dict_get path (files s') = Some (Pickled series) /\
    (exists hs', get_history h hs' = series /\
       load_histories s'
       = match first_unreadable (files s') with
         | None => (Ok hs', s')
         | Some EOFError => (Ok empty_histories, s')
         | Some e => (Raise e, s')
         end) /\
    ((forall h', Forall (fun b => In (history_name h') (keys (losses_out b))) xs) ->
     first_unreadable (files s') = None).
Proof.
  intros HP Hstart Hload Hempty Hne Htr Hkey xs max_iter path s'.
  subst xs max_iter path.
  set (entry := reduced_entry rt (history_name h)).
  pose proof (@do_train_loaded rt cfg dl P distributed f a start hs0 Hstart Hload) as Hdo.
  destruct (@train_and_report_tracked rt cfg (Z.of_nat (dl_len dl)) P distributed
              (dl_batches dl) start hs0 (started f a) HP Hne Htr)
    as [hs1 [s1 [Hrun [_ [_ [Hget [Hfile _]]]]]]].
  assert (Hs' : s' = s1) by (unfold s'; now rewrite Hdo, Hrun).
  rewrite Hs'. clear s' Hs'.
  assert (Hone : Forall (fun b => exists v, entry b = [v]) (dl_batches dl)).
  { clear -Htr Hkey. induction (dl_batches dl) as [|b bs IH]; [constructor|].
    inversion Htr; inversion Hkey; subst. constructor; [|now apply IH].
    now apply reduced_entry_singleton. }
  assert (Hsingle : map (fun v => [v]) (flat_map entry (dl_batches dl))
                    = map entry (dl_batches dl)).
  { clear -Hone. induction Hone as [|b bs [v Hv] _ IH]; [reflexivity|].
    cbn [flat_map map]. rewrite Hv. cbn [app map]. now f_equal. }
  assert (Hseries : dict_get (history_path (history_name h)) (files s1)
                    = Some (Pickled (flat_map entry (dl_batches dl)))).
  { rewrite (Hfile h Hkey), (Hget h), Hempty. reflexivity. }
  exists (flat_map entry (dl_batches dl)).
  split; [exact Hsingle|].
  split; [rewrite <- (length_map (fun v => [v])), Hsingle; apply length_map|].
  split; [exact Hdo|].
  split; [|split; [exact Hseries|split]].
  - intros j Hj.
    assert (Hlen : length (firstn j (dl_batches dl)) = j) by (apply firstn_length_le; lia).
    assert (Hpre : firstn j (dl_batches dl) <> [])
      by (intros Hnil; rewrite Hnil in Hlen; simpl in Hlen; lia).
    assert (Hitems : enumerate (firstn j (dl_batches dl)) start <> [])
      by (destruct (firstn j (dl_batches dl)); [congruence | discriminate]).
    destruct (@train_loop_tracked rt cfg (Z.of_nat (dl_len dl)) P distributed HP
                (enumerate (firstn j (dl_batches dl)) start) (None, hs0) (started f a)
                (@enumerate_Forall _ (fun b => tracked (losses_out b) = true) _ start
                   (firstn_Forall j Htr)))
      as [hs_j [s_j [Hrun_j [_ [_ [Hget_j [Hfile_j _]]]]]]].
    cbn [fst] in Hrun_j.
    rewrite (@enumerate_last _ (firstn j (dl_batches dl)) start None Hpre), Hlen in Hrun_j.
    eexists. exists s_j.
    split; [exact Hrun_j|]. split; [reflexivity|]. split.
    + rewrite (Hfile_j h Hitems
                 (@enumerate_Forall _ (fun b => In (history_name h) (keys (losses_out b)))
                    _ start (firstn_Forall j Hkey))).
      rewrite (Hget_j h). cbn [snd]. rewrite Hempty. cbn [app].
      rewrite (flat_map_snd entry), enumerate_items.
      now rewrite (firstn_flat_map_single entry Hone).
    + assert (Hsplit : enumerate (dl_batches dl) start
                       = enumerate (firstn j (dl_batches dl)) start
                         ++ enumerate (skipn j (dl_batches dl)) (start + Z.of_nat j)%Z).
      { rewrite <- (firstn_skipn j (dl_batches dl)) at 1.
        now rewrite enumerate_app, Hlen. }
      unfold train_loop, train_loop_from. rewrite Hsplit, for_each_app.
      unfold bind at 1. unfold train_loop in Hrun_j. rewrite Hrun_j. reflexivity.
  - exists (stored_histories (files s1)).
    split; [now apply stored_histories_get|]. apply load_histories_spec.
  - intros Hall. apply all_pickled_readable. intros h'. eexists. apply Hfile, Hall.
Qed.

(** Lines 107-109 when the first key that is not a history variable is an
    identifier bound nowhere: the statement built from it raises NameError;
    the keys before it have been appended and written. *)
Lemma persist_loop_unbound (rt : runtime T) (reduced : dict T)
    (ks1 ks2 : list string) (k : string) (hs : histories T) (s : state T) :
  NoDup (ks1 ++ k :: ks2) ->
  Forall (fun k => is_history_name k = true) ks1 ->
  Forall (fun k => In k (keys reduced)) ks1 ->
  classify (reserved_names rt) k = UnboundName ->
  exists f',
    for_each (ks1 ++ k :: ks2) hs (persist_key rt reduced) s
    = (Raise NameError, {| files := f'; arguments := arguments s;
                           meters := meters s; trace := trace s |}).
Proof.
  intros Hnd Hhist Hin Hclass.
  destruct (@persist_loop_tracked rt reduced ks1 hs s
              (NoDup_app_remove_r _ _ Hnd) Hhist Hin)
    as [hs1 [f1 [Hrun _]]].
  exists f1. rewrite for_each_app. unfold bind at 1. rewrite Hrun.
  cbn [for_each]. unfold bind at 1. unfold persist_key. rewrite Hclass.
  reflexivity.
Qed.

(** The loop body on such a mapping: the gradient step is taken, then the
    history step raises NameError; nothing is logged or saved after it. *)
Lemma train_step_unbound (rt : runtime T) (cfg : config) (max_iter P : Z)
    (distributed : bool) (i : Z) (b : batch T) (hs : histories T) (s : state T)
    (ks1 ks2 : list string) (k : string) :
  keys (losses_out b) = ks1 ++ k :: ks2 ->
  NoDup (keys (losses_out b)) ->
  mem_string "loss" (keys (losses_out b)) = false ->
  mem_string "self" (keys (losses_out b)) = false ->
  Forall (fun k => is_history_name k = true) ks1 ->
  classify (reserved_names rt) k = UnboundName ->
  exists s',
    train_step rt cfg max_iter P distributed (i, b) hs s = (Raise NameError, s') /\
    backward_values (trace s')
    = backward_values (trace s) ++ [sum_values (losses_out b)] /\
    cadence (trace s') = cadence (trace s).
Proof.
  intros Hks Hnd Hloss Hself Hhist Hclass.
  assert (Hne : losses_out b <> []).
  { intros Hnil. rewrite Hnil in Hks. destruct ks1; discriminate. }
  destruct (@reduce_loss_dict_values_keys T _ (group rt) (peers_out b) (losses_out b) Hne Hnd)
    as [reduced [Hred Hkeys]].
  assert (Hin : Forall (fun k => In k (keys reduced)) ks1).
  { rewrite Hkeys, Hks. apply Forall_forall. intros x Hx. apply in_or_app. now left. }
  unfold train_step.
  run_step. run_step. run_step. run_step.
  rewrite Hred. run_step.
  unfold bind at 1. unfold update_loss_meters.
  rewrite Hkeys, Hloss, Hself. cbn [orb].
  run_step. run_step.
  destruct (losses_out b) as [|kv0 rest] eqn:Hlosses; [congruence|].
  rewrite <- Hlosses in *.
  run_step. run_step. run_step. run_step.
  unfold bind at 1. unfold time_global_avg. run_step.
  match goal with
  | |- context [dict_get "time" (logger_update ?c [("time"%string, ?x); ("data"%string, ?y)] ?ms)] =>
      destruct (time_meter_present c x y ms) as [m Hm]; rewrite Hm
  end.
  cbn [ret].
  match goal with |- context [bind _ _ ?st0] => set (st := st0) end.
  rewrite Hks in Hnd. rewrite Hks.
  destruct (@persist_loop_unbound rt reduced ks1 ks2 k hs st Hnd Hhist Hin Hclass)
    as [f' Hrun].
  unfold bind at 1. rewrite Hrun.
  eexists. split; [reflexivity|].
  unfold st. cbn [files arguments meters trace].
  rewrite !cadence_app, !backward_values_app. simpl. rewrite !app_nil_r.
  split; reflexivity.
Qed.

(** C10, amended. Take an iteration reached after iterations with tracked
    mappings, whose Loss Mapping has distinct keys, none of them "loss" or
    "self" (with either, the meters update of line 94 raises TypeError
    before the gradient step), and in which the first key that is not one of
    the four history variables is an identifier bound nowhere in the scope
    of [do_train]: no local, no module-level name, none of the builtins and
    keywords of [python_reserved], none of the runtime's further names. In
    that iteration the gradient step is taken and then the history step
    raises NameError; [do_train] ends with that exception: no later item is
    processed and the final checkpoint is not saved. *)
Theorem unbound_key_aborts (rt : runtime T) (cfg : config) (dl : loader T) (P : Z)
    (distributed : bool) (f : dict (file T)) (a : dict Z) (start : Z)
    (hs0 : histories T) (pre post : list (batch T)) (b : batch T)
    (ks1 ks2 : list string) (k : string) :
  P <> 0%Z ->
  dict_get "iteration" a = Some start ->
  loaded_histories f = Some hs0 ->
  dl_batches dl = pre ++ b :: post ->
  Forall (fun b => tracked (losses_out b) = true) pre ->
  keys (losses_out b) = ks1 ++ k :: ks2 ->
  NoDup (keys (losses_out b)) ->
  mem_string "loss" (keys (losses_out b)) = false ->
  mem_string "self" (keys (losses_out b)) = false ->
  Forall (fun k => is_history_name k = true) ks1 ->
  classify (reserved_names rt) k = UnboundName ->
  let run := do_train rt cfg dl P distributed (initial f a) in
  fst run = Raise NameError /\
  backward_values (trace (snd run))
  = map (fun b => sum_values (losses_out b)) (pre ++ [b]) /\
  cadence (trace (snd run))
  = flat_map (fun i => if (i mod P =? 0)%Z && (0 <? i)%Z
                       then [Saved i; Validated] else [])
      (map fst (enumerate pre start)).
Proof.
  intros HP Hstart Hload Hsplit Hpre Hks Hnd Hloss Hself Hhist Hclass run.
  unfold run.
  rewrite (@do_train_loaded rt cfg dl P distributed f a start hs0 Hstart Hload).
  rewrite Hsplit, enumerate_app. cbn [enumerate].
  destruct (@train_loop_tracked rt cfg (Z.of_nat (dl_len dl)) P distributed HP
              (enumerate pre start) (None, hs0) (started f a)
              (@enumerate_Forall _ (fun b => tracked (losses_out b) = true) pre start Hpre))
    as [hs1 [s1 [Hrun [Hcad [Hback [_ _]]]]]].
  destruct (@train_step_unbound rt cfg (Z.of_nat (dl_len dl)) P distributed
              (start + Z.of_nat (length pre))%Z b hs1 s1 ks1 ks2 k
              Hks Hnd Hloss Hself Hhist Hclass)
    as [s2 [Hstep [Hback2 Hcad2]]].
  match goal with
  | |- context [train_and_report ?r ?c ?m ?p ?d ?items ?h ?st] =>
      assert (Heq : train_and_report r c m p d items h st = (Raise NameError, s2))
  end.
  { unfold train_and_report, train_loop. unfold bind at 1.
    rewrite for_each_app. unfold bind at 1. rewrite Hrun.
    cbn [for_each]. unfold bind at 1. unfold bind at 1.
    cbn [snd]. rewrite Hstep. reflexivity. }
  rewrite Heq. cbn [fst snd].
  split; [reflexivity|].
  rewrite Hback2, Hcad2, Hback, Hcad. cbn [started trace].
  split.
  - rewrite map_app. simpl. f_equal.
    transitivity (map (fun b => sum_values (losses_out b)) (map snd (enumerate pre start)));
      [now rewrite map_map | now rewrite enumerate_items].
  - simpl. apply (flat_map_fst
                    (fun i => if (i mod P =? 0)%Z && (0 <? i)%Z
                              then [Saved i; Validated] else [])).
Qed.

(** X14. A run restored from arguments that record iteration [N] takes its
    first item as iteration [N]: with one item left, the run ends with the
    arguments still at [N] and its final checkpoint tagged [N]. *)
Lemma resumed_run_first_iteration (rt : runtime T) (cfg : config) (P : Z)
    (distributed : bool) (f : dict (file T)) (a : dict Z) (N : Z)
    (hs0 : histories T) (len : nat) (b : batch T) :
  P <> 0%Z ->
  dict_get "iteration" a = Some N ->
  loaded_histories f = Some hs0 ->
  tracked (losses_out b) = true ->
  let run := do_train rt cfg {| dl_len := S len; dl_batches := [b] |} P distributed
               (initial f a) in
  fst run = Ok tt /\
  dict_get "iteration" (arguments (snd run)) = Some N /\
  cadence (trace (snd run))
  = (if (N mod P =? 0)%Z && (0 <? N)%Z then [Saved N; Validated] else [])
    ++ [Saved N].
Proof.
  intros HP Hstart Hload Htr run. unfold run.
  rewrite (@do_train_loaded rt cfg _ P distributed f a N hs0 Hstart Hload).
  cbn [dl_len dl_batches].
  destruct (@train_and_report_tracked rt cfg (Z.of_nat (S len)) P distributed
              [b] N hs0 (started f a) HP) as [hs' [s' [Hrun [Hcad [_ [_ [_ Hargs]]]]]]];
    [discriminate | now repeat constructor |].
  rewrite Hrun. cbn [fst snd].
  replace (N + Z.of_nat (length [b]) - 1)%Z with N in * by (simpl; lia).
  split; [reflexivity|]. split; [assumption|].
  rewrite Hcad. simpl. now rewrite app_nil_r.
Qed.

End TrainerFacts.

(** * The statements on the worked inputs *)

(** C1. A run of five items with [checkpoint_period = 2] saves at iteration
    2 a checkpoint whose arguments record iteration 2. Restarted from those
    arguments, with the three items left, [do_train] takes its first item as
    iteration 2 again, not as iteration 3: the checkpoint of iteration 2 is
    saved a second time and the run ends at iteration 4 with one item never
    numbered 5. *)
Theorem resume_repeats_saved_iteration :
  let first := do_train (ex_runtime ex_single) ex_cfg ex_loader 2 false
                 (initial ex_files_empty (ex_arguments 0)) in
  let resumed := do_train (ex_runtime ex_single) ex_cfg ex_loader_resumed 2 false
                   (initial (files (snd first)) (ex_arguments 2)) in
  saved_states (trace (snd first))
  = [(2, ex_arguments 2); (4, ex_arguments 4); (4, ex_arguments 4)]%Z /\
  map fst (enumerate (dl_batches ex_loader_resumed) 2) = [2; 3; 4]%Z /\
  fst resumed = Ok tt /\
  saved_states (trace (snd resumed))
  = [(2, ex_arguments 2); (4, ex_arguments 4); (4, ex_arguments 4)]%Z.
Proof. vm_compute. repeat split. Qed.

Lemma reduce_loss_dict_single_worker_witness :
  reduce_loss_dict ex_single [values ex_peer] 0 ex_heap = (Ok 0, ex_heap, []) /\
  reduce_loss_dict_values ex_single [values ex_peer] (read_dict ex_heap 0)
  = Ok (read_dict ex_heap 0).
Proof.
  apply (@reduce_loss_dict_single_worker Q Scalar_Q ex_single [values ex_peer] 0 ex_heap).
  reflexivity.
Defined.

Lemma reduce_loss_dict_keeps_input_witness :
  let h' := snd (fst (reduce_loss_dict ex_coordinator [values ex_peer] 0 ex_heap)) in
  get_dict h' 0 = get_dict ex_heap 0 /\ read_dict h' 0 = read_dict ex_heap 0.
Proof.
  apply (@reduce_loss_dict_keeps_input Q Scalar_Q ex_coordinator [values ex_peer] 0 ex_heap).
  - simpl. lia.
  - unfold dict_refs_valid. simpl. repeat constructor.
Defined.

Lemma reduce_loss_dict_reduces_witness :
  exists r h',
    reduce_loss_dict ex_coordinator (map values [ex_peer]) 0 ex_heap
    = (Ok r, h', [Reduce 0 2]) /\
    keys (read_dict h' r) = ["loss_classifier"; "loss_box_reg"]%string /\
    dict_get "loss_classifier" (read_dict h' r)
    = elementwise_average [read_dict ex_heap 0; ex_peer] "loss_classifier".
Proof.
  destruct (@reduce_loss_dict_reduces Q Scalar_Q ex_coordinator [ex_peer] 0 ex_heap)
    as [r [h' [Hrun [Hkeys [Havg _]]]]].
  - simpl. lia.
  - reflexivity.
  - discriminate.
  - apply distinct_NoDup. reflexivity.
  - repeat constructor.
  - exists r, h'. split; [exact Hrun|]. split; [exact Hkeys|].
    apply Havg; [reflexivity | simpl; now left].
Defined.

(** On rank 1 of two workers, with a backend that leaves the local tensor
    untouched off the destination, the returned mapping holds the local
    losses 1 and 2, not the sums 4 and 6. *)
Lemma worker_keeps_local_loss :
  2 <= world_size ex_worker /\
  world_size ex_worker = S (length [ex_peer]) /\
  Forall (fun p => keys p = keys (read_dict ex_heap 0)) [ex_peer] /\
  ~ reduces_to_average_and_sums ex_worker [ex_peer] 0 ex_heap.
Proof.
  split; [simpl; lia|]. split; [reflexivity|]. split; [repeat constructor|].
  intros [r [h' [calls [Hrun [_ Hsum]]]]].
  vm_compute in Hrun. injection Hrun as <- <- _.
  specialize (Hsum "loss_classifier"%string (or_introl eq_refl)).
  vm_compute in Hsum. discriminate.
Qed.

Lemma do_train_history_loading_witness :
  first_unreadable ex_files_empty = Some EOFError /\
  do_train (ex_runtime ex_single) ex_cfg ex_loader 2 false
    (initial ex_files_empty (ex_arguments 0))
  = train_and_report (ex_runtime ex_single) ex_cfg (Z.of_nat (dl_len ex_loader)) 2 false
      (enumerate (dl_batches ex_loader) 0) empty_histories
      (started ex_files_empty (ex_arguments 0)).
Proof.
  assert (Hfirst : first_unreadable ex_files_empty = Some EOFError) by reflexivity.
  split; [exact Hfirst|].
  pose proof (@do_train_history_loading Q Scalar_Q (ex_runtime ex_single) ex_cfg ex_loader
                2%Z false ex_files_empty (ex_arguments 0) 0%Z eq_refl) as Hw.
  rewrite Hfirst in Hw. exact Hw.
Defined.

(** On a first run no history file exists: [open] raises FileNotFoundError,
    which [except EOFError] does not catch, and [do_train] fails before the
    first iteration. *)
Lemma absent_history_file_is_fatal :
  dict_get "./outputs/loss_classifier.p" ex_files_absent = None /\
  do_train (ex_runtime ex_single) ex_cfg ex_loader 2 false
    (initial ex_files_absent (ex_arguments 0))
  = (Raise FileNotFoundError, started ex_files_absent (ex_arguments 0)) /\
  backward_values (trace (started ex_files_absent (ex_arguments 0))) = [].
Proof. vm_compute. repeat split. Qed.

Lemma checkpoint_cadence_witness :
  let run := do_train (ex_runtime ex_coordinator) ex_cfg ex_loader 2 false
               (initial ex_files_empty (ex_arguments 0)) in
  fst run = Ok tt /\
  cadence (trace (snd run)) = [Saved 2; Validated; Saved 4; Validated; Saved 4].
Proof.
  destruct (@checkpoint_cadence Q Scalar_Q (ex_runtime ex_coordinator) ex_cfg ex_loader
              2%Z false ex_files_empty (ex_arguments 0) empty_histories)
    as [Hok [Hcad _]].
  - discriminate.
  - reflexivity.
  - reflexivity.
  - discriminate.
  - reflexivity.
  - repeat constructor.
  - split; [exact Hok | exact Hcad].
Defined.

Lemma loss_history_persisted_witness :
  let s' := snd (do_train (ex_runtime ex_single) ex_cfg ex_loader_full 2 false
                   (initial ex_files_empty (ex_arguments 0))) in
  exists series,
    length series = 3 /\
    dict_get "./outputs/loss_classifier.p" (files s') = Some (Pickled series) /\
    exists hs', get_history LossClassifier hs' = series /\
                load_histories s' = (Ok hs', s').
Proof.
  destruct (@loss_history_persisted Q Scalar_Q (ex_runtime ex_single) ex_cfg
              ex_loader_full 2%Z false ex_files_empty (ex_arguments 0) 0%Z
              empty_histories LossClassifier)
    as [series [_ [Hlen [_ [_ [Hfile [[hs' [Hget Hload]] Hall]]]]]]].
  - discriminate.
  - reflexivity.
  - reflexivity.
  - reflexivity.
  - discriminate.
  - repeat constructor.
  - repeat (constructor; [cbn; auto 6|]). constructor.
  - rewrite Hall in Hload.
    + exists series. split; [exact Hlen|]. split; [exact Hfile|].
      exists hs'. split; [exact Hget | exact Hload].
    + intros []; repeat (constructor; [cbn; auto 6|]); constructor.
Defined.

(** A model that returns two of the four tracked losses, in a directory
    where the four history files were created empty. After five iterations
    the file of [loss_classifier] holds its five entries; the file of
    [loss_objectness] is still empty, so that the reads of lines 67-70 end in
    EOFError at the third file and the handler binds the empty list to all
    four names: read again by [do_train], the history of [loss_classifier]
    is empty, not the five entries stored. *)
Lemma partial_mappings_reload_empty :
  let s' := snd (do_train (ex_runtime ex_single) ex_cfg ex_loader 2 false
                   (initial ex_files_empty (ex_arguments 0))) in
  Forall (fun b => In "loss_classifier"%string (keys (losses_out b)))
    (dl_batches ex_loader) /\
  dict_get "./outputs/loss_classifier.p" (files s') = Some (Pickled [1; 2; 3; 4; 5]%Q) /\
  dict_get "./outputs/loss_objectness.p" (files s') = Some RunsOut /\
  load_histories s' = (Ok empty_histories, s') /\
  get_history LossClassifier (@empty_histories Q) = [].
Proof. vm_compute. repeat split; repeat constructor. Qed.

Lemma do_train_empty_loader_witness :
  do_train (ex_runtime ex_single) ex_cfg ex_loader_none 2 false
    (initial ex_files_empty (ex_arguments 0))
  = (Raise UnboundLocalError, started ex_files_empty (ex_arguments 0))
  /\ cadence (trace (started ex_files_empty (ex_arguments 0))) = [].
Proof.
  apply (@do_train_empty_loader Q Scalar_Q (ex_runtime ex_single) ex_cfg ex_loader_none
           2%Z false ex_files_empty (ex_arguments 0) 0%Z empty_histories);
    reflexivity.
Defined.

(** With an empty loader ([max_iter = 0]) the run does not end in a
    division by zero: it stops one statement earlier, at the final save. *)
Lemma empty_loader_is_not_division_error :
  dl_len ex_loader_none = 0 /\
  dl_batches ex_loader_none = [] /\
  fst (do_train (ex_runtime ex_single) ex_cfg ex_loader_none 2 false
         (initial ex_files_empty (ex_arguments 0)))
  = Raise UnboundLocalError /\
  fst (do_train (ex_runtime ex_single) ex_cfg ex_loader_none 2 false
         (initial ex_files_empty (ex_arguments 0)))
  <> Raise ZeroDivisionError.
Proof. vm_compute. repeat split. discriminate. Qed.

Lemma unbound_key_aborts_witness :
  let run := do_train (ex_runtime ex_single) ex_cfg ex_loader_mask 2 false
               (initial ex_files_empty (ex_arguments 0)) in
  fst run = Raise NameError /\
  backward_values (trace (snd run))
  = map (fun b => sum_values (losses_out b)) [ex_batch 1 2; ex_batch_mask].
Proof.
  destruct (@unbound_key_aborts Q Scalar_Q (ex_runtime ex_single) ex_cfg ex_loader_mask
              2%Z false ex_files_empty (ex_arguments 0) 0%Z empty_histories
              [ex_batch 1 2] [] ex_batch_mask ["loss_classifier"%string] []
              "loss_mask"%string)
    as [Hraise [Hback _]].
  - discriminate.
  - reflexivity.
  - reflexivity.
  - reflexivity.
  - repeat constructor.
  - reflexivity.
  - apply distinct_NoDup. reflexivity.
  - reflexivity.
  - reflexivity.
  - repeat constructor.
  - reflexivity.
  - split; [exact Hraise | exact Hback].
Defined.

(** A mapping with the key "loss", which is none of the four history
    variables: the iteration fails with TypeError at the meters update of line
    94, where the keyword [loss] is given twice; the history step is not
    reached and no file is written. *)
Lemma loss_key_is_type_error :
  history_of_name "loss" = None /\
  In "loss"%string (keys (losses_out ex_batch_loss)) /\
  fst (do_train (ex_runtime ex_single) ex_cfg ex_loader_loss 2 false
         (initial ex_files_empty (ex_arguments 0)))
  = Raise TypeError /\
  is_name_error TypeError = false /\
  files (snd (do_train (ex_runtime ex_single) ex_cfg ex_loader_loss 2 false
                (initial ex_files_empty (ex_arguments 0))))
  = ex_files_empty.
Proof. vm_compute. repeat split. right. now left. Qed.

(** * Further properties of the trainer *)

Section MoreFacts.

Context {T : Type} `{Scalar T}.

Ltac run_step :=
  unfold bind at 1;
  cbn [get_state set_arguments emit set_meters set_files ret lift
       files arguments meters trace].

(** Lines 131-139 over history keys, call by call. *)
Lemma plot_loop_events (rt : runtime T) (cfg : config) :
  forall (ks : list string) (hs : histories T) (s : state T),
  Forall (fun k => is_history_name k = true) ks ->
  for_each ks hs (plot_key rt cfg) s
  = (Ok hs, {| files := files s; arguments := arguments s;
               meters := meters s; trace := trace s ++ plot_events cfg ks hs |}).
Proof.
  induction ks as [|k ks IH]; intros hs s Hhist.
  - simpl. rewrite app_nil_r. now destruct s.
  - inversion Hhist as [|? ? Hk Hhist']; subst.
    destruct (is_history_name_spec k Hk) as [h0 ->].
    cbn [for_each]. unfold bind at 1. unfold plot_key at 1.
    rewrite classify_history. unfold bind.
    cbn [emit ret files arguments meters trace].
    rewrite (IH hs _ Hhist'). cbn [files arguments meters trace].
    unfold plot_events. cbn [flat_map]. rewrite history_of_name_complete.
    now rewrite <- !app_assoc.
Qed.

(** The loop body on a tracked mapping, call by call. *)
Lemma train_step_tracked_events (rt : runtime T) (cfg : config) (max_iter P : Z)
    (distributed : bool) (i : Z) (b : batch T) (hs : histories T) (s : state T) :
  tracked (losses_out b) = true ->
  P <> 0%Z ->
  exists hs' s' eta,
    train_step rt cfg max_iter P distributed (i, b) hs s = (Ok hs', s') /\
    trace s'
    = trace s
      ++ [SchedulerStep; ModelTrain; ZeroGrad;
          Backward (sum_values (losses_out b)); OptimizerStep]
      ++ (if (i mod 20 =? 0)%Z || (i =? max_iter - 1)%Z
          then LogLine i eta :: plot_events cfg (keys (losses_out b)) hs'
          else [])
      ++ (if (i mod P =? 0)%Z && (0 <? i)%Z
          then [CheckpointSave i (dict_set "iteration" i (arguments s));
                Validation (val cfg distributed)]
          else []).
Proof.
  intros Htr HP.
  destruct (tracked_spec _ Htr) as [Hne [Hnd Hhist]].
  destruct (@reduce_loss_dict_values_keys T _ (group rt) (peers_out b) (losses_out b) Hne Hnd)
    as [reduced [Hred Hkeys]].
  assert (Hin : Forall (fun k => In k (keys reduced)) (keys (losses_out b))).
  { rewrite Hkeys. apply Forall_forall. auto. }
  unfold train_step.
  run_step. run_step. run_step. run_step.
  rewrite Hred. run_step.
  unfold bind at 1. unfold update_loss_meters.
  rewrite Hkeys, (history_names_accepted Hhist).
  run_step. run_step.
  destruct (losses_out b) as [|kv0 rest] eqn:Hlosses; [congruence|].
  rewrite <- Hlosses in *.
  run_step. run_step. run_step. run_step.
  unfold bind at 1. unfold time_global_avg. run_step.
  match goal with
  | |- context [dict_get "time" (logger_update ?c [("time"%string, ?x); ("data"%string, ?y)] ?ms)] =>
      destruct (time_meter_present c x y ms) as [m Hm]; rewrite Hm
  end.
  cbn [ret].
  match goal with |- context [bind _ _ ?st0] => set (st := st0) end.
  destruct (persist_loop_tracked rt reduced hs st Hnd Hhist Hin)
    as [hs1 [f1 [Hrun _]]].
  unfold bind at 1. rewrite Hrun.
  exists hs1.
  destruct (Z.eqb_spec P 0) as [HP0 | _]; [contradiction|].
  destruct ((i mod 20 =? 0)%Z || (i =? max_iter - 1)%Z).
  - run_step. run_step. rewrite (plot_loop_events rt cfg hs1 _ Hhist).
    cbn [files arguments meters trace].
    destruct ((i mod P =? 0)%Z && (0 <? i)%Z).
    + run_step. unfold checkpointer_save. run_step. run_step.
      eexists. eexists. split; [reflexivity|].
      unfold st. cbn [files arguments meters trace].
      repeat rewrite <- app_assoc. reflexivity.
    + run_step.
      eexists. eexists. split; [reflexivity|].
      unfold st. cbn [files arguments meters trace].
      repeat rewrite <- app_assoc. simpl. now rewrite app_nil_r.
  - run_step.
    destruct ((i mod P =? 0)%Z && (0 <? i)%Z).
    + run_step. unfold checkpointer_save. run_step. run_step.
      eexists. exists zero. split; [reflexivity|].
      unfold st. cbn [files arguments meters trace].
      repeat rewrite <- app_assoc. reflexivity.
    + run_step.
      eexists. exists zero. split; [reflexivity|].
      unfold st. cbn [files arguments meters trace].
      repeat rewrite <- app_assoc. simpl. reflexivity.
Qed.

Lemma logged_iterations_app (a b : list (event T)) :
  logged_iterations (a ++ b) = logged_iterations a ++ logged_iterations b.
Proof. unfold logged_iterations. apply flat_map_app. Qed.

Lemma training_calls_app (a b : list (event T)) :
  training_calls (a ++ b) = training_calls a ++ training_calls b.
Proof. unfold training_calls. apply filter_app. Qed.

Lemma saved_states_app (a b : list (event T)) :
  saved_states (a ++ b) = saved_states a ++ saved_states b.
Proof. unfold saved_states. apply flat_map_app. Qed.

Lemma plotted_app (a b : list (event T)) : plotted (a ++ b) = plotted a ++ plotted b.
Proof. unfold plotted. apply flat_map_app. Qed.

Lemma plot_events_quiet (cfg : config) (ks : list string) (hs : histories T) :
  logged_iterations (plot_events cfg ks hs) = [] /\
  training_calls (plot_events cfg ks hs) = [] /\
  saved_states (plot_events cfg ks hs) = [] /\
  cadence (plot_events cfg ks hs) = [].
Proof.
  induction ks as [|k ks [IH1 [IH2 [IH3 IH4]]]]; [repeat split|].
  unfold plot_events in *. cbn [flat_map].
  rewrite logged_iterations_app, training_calls_app, saved_states_app, cadence_app.
  rewrite IH1, IH2, IH3, IH4.
  destruct (history_of_name k); repeat split.
Qed.

(** The series plotted over history keys: each key with its list. *)
Lemma plotted_plot_events (cfg : config) (ks : list string) (hs : histories T) :
  Forall (fun k => is_history_name k = true) ks ->
  plotted (plot_events cfg ks hs)
  = map (fun k => (k, match history_of_name k with
                      | Some h => get_history h hs
                      | None => []
                      end)) ks.
Proof.
  induction 1 as [|k ks Hk _ IH]; [reflexivity|].
  unfold plot_events in *. cbn [flat_map map]. rewrite plotted_app, IH.
  unfold is_history_name in Hk. destruct (history_of_name k); [reflexivity | discriminate].
Qed.

(** The loop body on a tracked mapping: trace, arguments, lists and files. *)
Lemma train_step_tracked_full (rt : runtime T) (cfg : config) (max_iter P : Z)
    (distributed : bool) (i : Z) (b : batch T) (hs : histories T) (s : state T) :
  tracked (losses_out b) = true ->
  P <> 0%Z ->
  exists hs' s' eta,
    train_step rt cfg max_iter P distributed (i, b) hs s = (Ok hs', s') /\
    trace s'
    = trace s
      ++ [SchedulerStep; ModelTrain; ZeroGrad;
          Backward (sum_values (losses_out b)); OptimizerStep]
      ++ (if (i mod 20 =? 0)%Z || (i =? max_iter - 1)%Z
          then LogLine i eta :: plot_events cfg (keys (losses_out b)) hs'
          else [])
      ++ (if (i mod P =? 0)%Z && (0 <? i)%Z
          then [CheckpointSave i (dict_set "iteration" i (arguments s));
                Validation (val cfg distributed)]
          else []) /\
    arguments s' = dict_set "iteration" i (arguments s) /\
    (forall h, get_history h hs'
               = get_history h hs ++ reduced_entry rt (history_name h) b) /\
    (forall h, In (history_name h) (keys (losses_out b)) ->
       dict_get (history_path (history_name h)) (files s')
       = Some (Pickled (get_history h hs'))) /\
    (forall p, (forall k, In k (keys (losses_out b)) -> p <> history_path k) ->
       dict_get p (files s') = dict_get p (files s)).
Proof.
  intros Htr HP.
  destruct (@train_step_tracked T _ rt cfg max_iter P distributed i b hs s Htr HP)
    as [hs1 [s1 [Hstep [Hargs [_ [_ [Hget [Hfile Hother]]]]]]]].
  destruct (@train_step_tracked_events rt cfg max_iter P distributed i b hs s Htr HP)
    as [hs2 [s2 [eta [Hstep2 Htrace]]]].
  rewrite Hstep in Hstep2. injection Hstep2 as <- <-.
  exists hs1, s1, eta. repeat split; assumption.
Qed.

(** The loop over tracked items: logged lines, calls on the collaborators,
    stored arguments, files left alone. *)
Lemma train_loop_tracked_more (rt : runtime T) (cfg : config) (max_iter P : Z)
    (distributed : bool) :
  P <> 0%Z ->
  forall (items : list (Z * batch T)) (acc : option Z * histories T) (s : state T),
  Forall (fun item => tracked (losses_out (snd item)) = true) items ->
  exists hs' s',
    for_each items acc
      (fun item acc =>
         bind (train_step rt cfg max_iter P distributed item (snd acc))
           (fun hs' => ret (Some (fst item), hs'))) s
    = (Ok (last (map (fun item => Some (fst item)) items) (fst acc), hs'), s') /\
    logged_iterations (trace s')
    = logged_iterations (trace s)
      ++ filter (fun i => (i mod 20 =? 0)%Z || (i =? max_iter - 1)%Z) (map fst items) /\
    training_calls (trace s')
    = training_calls (trace s)
      ++ flat_map (fun item => [SchedulerStep; ModelTrain; ZeroGrad;
                                Backward (sum_values (losses_out (snd item)));
                                OptimizerStep]) items /\
    (Forall (fun ia => dict_get "iteration" (snd ia) = Some (fst ia))
       (saved_states (trace s)) ->
     Forall (fun ia => dict_get "iteration" (snd ia) = Some (fst ia))
       (saved_states (trace s'))) /\
    (forall p,
       (forall item k, In item items -> In k (keys (losses_out (snd item))) ->
                       p <> history_path k) ->
       dict_get p (files s') = dict_get p (files s)) /\
    (items <> [] ->
       dict_get "iteration" (arguments s')
       = last (map (fun item => Some (fst item)) items) None) /\
    (items = [] -> s' = s).
Proof.
  intros HP. induction items as [|[i b] items IH]; intros acc s Htr.
  - exists (snd acc), s. destruct acc as [it hs]. simpl. rewrite !app_nil_r.
    split; [reflexivity|]. split; [reflexivity|]. split; [reflexivity|].
    split; [auto|]. split; [reflexivity|]. split; [congruence | reflexivity].
  - inversion Htr as [|? ? Hb Hrest]; subst. simpl in Hb.
    destruct (@train_step_tracked_full rt cfg max_iter P distributed i b (snd acc) s Hb HP)
      as [hs1 [s1 [eta [Hstep [Htrace [Hargs [_ [_ Hother]]]]]]]].
    destruct (IH (Some i, hs1) s1 Hrest)
      as [hs' [s' [Hrun [Hlog [Hcalls [Hsaved [Hfiles [Hargs' Hnil]]]]]]]].
    exists hs', s'.
    cbn [for_each]. unfold bind at 1. unfold bind at 1.
    rewrite Hstep. cbn [ret fst snd]. rewrite Hrun.
    cbn [map flat_map filter fst snd] in *. rewrite last_cons.
    destruct (plot_events_quiet cfg (keys (losses_out b)) hs1) as [Hq1 [Hq2 [Hq3 _]]].
    unfold logged_iterations in Hq1. unfold training_calls in Hq2.
    unfold saved_states in Hq3.
    split; [reflexivity|].
    split; [|split; [|split; [|split; [|split; [|discriminate]]]]].
    + rewrite Hlog, Htrace, !logged_iterations_app.
      destruct ((i mod 20 =? 0)%Z || (i =? max_iter - 1)%Z);
        destruct ((i mod P =? 0)%Z && (0 <? i)%Z);
        unfold logged_iterations; cbn [flat_map app]; rewrite ?Hq1;
        cbn [app]; rewrite ?app_nil_r, <- ?app_assoc; reflexivity.
    + rewrite Hcalls, Htrace, !training_calls_app.
      destruct ((i mod 20 =? 0)%Z || (i =? max_iter - 1)%Z);
        destruct ((i mod P =? 0)%Z && (0 <? i)%Z);
        unfold training_calls; cbn [filter app]; rewrite ?Hq2;
        cbn [app]; rewrite ?app_nil_r, <- ?app_assoc; reflexivity.
    + intros Hinit. apply Hsaved. rewrite Htrace, !saved_states_app.
      apply Forall_app. split; [assumption|].
      destruct ((i mod 20 =? 0)%Z || (i =? max_iter - 1)%Z);
        destruct ((i mod P =? 0)%Z && (0 <? i)%Z);
        unfold saved_states; cbn [flat_map app]; rewrite ?Hq3; cbn [app];
        repeat constructor; cbn [fst snd]; apply dict_get_set_same.
    + intros p Hp. rewrite Hfiles.
      * apply Hother. intros k Hk. apply (Hp (i, b) k); [now left | assumption].
      * intros item k Hitem Hk. apply (Hp item k); [now right | assumption].
    + intros _. destruct items as [|item items'].
      * rewrite (Hnil eq_refl), Hargs. cbn [map last]. apply dict_get_set_same.
      * rewrite Hargs' by discriminate. cbn [map]. reflexivity.
Qed.

Lemma enumerate_In {A} (xs : list A) (start : Z) (item : Z * A) :
  In item (enumerate xs start) -> In (snd item) xs.
Proof.
  intros Hin. rewrite <- (enumerate_items xs start). now apply in_map.
Qed.

(** A whole run over tracked items, for the further projections. *)
Lemma do_train_tracked_more (rt : runtime T) (cfg : config) (dl : loader T) (P : Z)
    (distributed : bool) (f : dict (file T)) (a : dict Z) (start : Z)
    (hs0 : histories T) :
  P <> 0%Z ->
  dict_get "iteration" a = Some start ->
  loaded_histories f = Some hs0 ->
  dl_batches dl <> [] ->
  Forall (fun b => tracked (losses_out b) = true) (dl_batches dl) ->
  let run := do_train rt cfg dl P distributed (initial f a) in
  let max_iter := Z.of_nat (dl_len dl) in
  fst run = (if (max_iter =? 0)%Z then Raise ZeroDivisionError else Ok tt) /\
  logged_iterations (trace (snd run))
  = filter (fun i => (i mod 20 =? 0)%Z || (i =? max_iter - 1)%Z)
      (map fst (enumerate (dl_batches dl) start)) /\
  training_calls (trace (snd run))
  = ModelTrain
    :: flat_map (fun b => [SchedulerStep; ModelTrain; ZeroGrad;
                           Backward (sum_values (losses_out b)); OptimizerStep])
         (dl_batches dl) /\
  Forall (fun ia => dict_get "iteration" (snd ia) = Some (fst ia))
    (saved_states (trace (snd run))) /\
  (forall p,
     (forall b k, In b (dl_batches dl) -> In k (keys (losses_out b)) ->
                  p <> history_path k) ->
     dict_get p (files (snd run)) = dict_get p f) /\
  dict_get "iteration" (arguments (snd run))
  = Some (start + Z.of_nat (length (dl_batches dl)) - 1)%Z.
Proof.
  intros HP Hstart Hload Hne Htr run max_iter.
  destruct (@train_loop_tracked_more rt cfg max_iter P distributed HP
              (enumerate (dl_batches dl) start) (None, hs0) (started f a)
              (@enumerate_Forall _ (fun b => tracked (losses_out b) = true)
                 (dl_batches dl) start Htr))
    as [hs' [s1 [Hrun [Hlog [Hcalls [Hsaved [Hfiles [Hargs _]]]]]]]].
  cbn [fst snd] in *.
  assert (Hitems : enumerate (dl_batches dl) start <> [])
    by (destruct (dl_batches dl); [congruence | discriminate]).
  rewrite !(@enumerate_last _ (dl_batches dl) start None Hne) in *.
  specialize (Hargs Hitems).
  set (idx := (start + Z.of_nat (length (dl_batches dl)) - 1)%Z) in *.
  set (final := if (max_iter =? 0)%Z then Raise ZeroDivisionError else Ok tt).
  assert (Hdo : run = (final,
                       {| files := files s1; arguments := arguments s1;
                          meters := meters s1;
                          trace := (trace s1 ++ [CheckpointSave idx (arguments s1)])
                                   ++ (if (max_iter =? 0)%Z then [] else [TotalTime]) |})).
  { unfold run, final.
    rewrite (@do_train_loaded T _ rt cfg dl P distributed f a start hs0 Hstart Hload).
    unfold train_and_report, train_loop. unfold bind at 1. fold max_iter.
    rewrite Hrun. cbn [fst]. unfold checkpointer_save. run_step. run_step.
    destruct (max_iter =? 0)%Z; [now rewrite app_nil_r | reflexivity]. }
  rewrite Hdo. cbn [fst snd files arguments trace].
  split; [reflexivity|].
  rewrite !logged_iterations_app, !training_calls_app, !saved_states_app.
  rewrite Hlog, Hcalls.
  split; [|split; [|split; [|split]]].
  - destruct (max_iter =? 0)%Z; simpl; now rewrite ?app_nil_r.
  - assert (Hflat : flat_map (fun item : Z * batch T =>
                               [SchedulerStep; ModelTrain; ZeroGrad;
                                Backward (sum_values (losses_out (snd item)));
                                OptimizerStep]) (enumerate (dl_batches dl) start)
                    = flat_map (fun b => [SchedulerStep; ModelTrain; ZeroGrad;
                                          Backward (sum_values (losses_out b));
                                          OptimizerStep]) (dl_batches dl)).
    { rewrite <- (enumerate_items (dl_batches dl) start) at 2.
      generalize (enumerate (dl_batches dl) start). intros l.
      induction l as [|item l IH]; simpl; [reflexivity | now rewrite IH]. }
    rewrite Hflat.
    destruct (max_iter =? 0)%Z; simpl; now rewrite ?app_nil_r.
  - apply Forall_app. split; [apply Forall_app; split|].
    + apply Hsaved. constructor.
    + simpl. repeat constructor. exact Hargs.
    + destruct (max_iter =? 0)%Z; constructor.
  - intros p Hp. rewrite Hfiles; [reflexivity|].
    intros item k Hitem Hk. apply (Hp (snd item) k); [|assumption].
    now apply (enumerate_In (dl_batches dl) start).
  - exact Hargs.
Qed.

(** X1. In a run over items with tracked mappings a line is logged exactly
    in the iterations whose number is a multiple of 20 or equals
    [len(data_loader) - 1], once each and in order; the iterations are
    numbered from the start iteration on. *)
Theorem log_cadence (rt : runtime T) (cfg : config) (dl : loader T) (P : Z)
    (distributed : bool) (f : dict (file T)) (a : dict Z) (start : Z)
    (hs0 : histories T) :
  P <> 0%Z ->
  dict_get "iteration" a = Some start ->
  loaded_histories f = Some hs0 ->
  dl_batches dl <> [] ->
  Forall (fun b => tracked (losses_out b) = true) (dl_batches dl) ->
  let run := do_train rt cfg dl P distributed (initial f a) in
  let max_iter := Z.of_nat (dl_len dl) in
  logged_iterations (trace (snd run))
  = filter (fun i => (i mod 20 =? 0)%Z || (i =? max_iter - 1)%Z)
      (map (fun n => (start + Z.of_nat n)%Z) (seq 0 (length (dl_batches dl)))) /\
  (forall i, In i (logged_iterations (trace (snd run)))
             <-> (start <= i < start + Z.of_nat (length (dl_batches dl)))%Z
                 /\ ((20 | i)%Z \/ i = (max_iter - 1)%Z)).
Proof.
  intros HP Hstart Hload Hne Htr run max_iter.
  destruct (@do_train_tracked_more rt cfg dl P distributed f a start hs0
              HP Hstart Hload Hne Htr) as [_ [Hlog _]].
  fold run in Hlog. fold max_iter in Hlog.
  rewrite enumerate_indices in Hlog.
  split; [exact Hlog|].
  intros i. rewrite Hlog, filter_In, in_map_iff, orb_true_iff, Z.eqb_eq, Z.eqb_eq.
  rewrite (Z.mod_divide i 20) by discriminate.
  split.
  - intros [[n [Hn Hin]] Hcond]. apply in_seq in Hin. split; [lia | assumption].
  - intros [Hrange Hcond]. split; [|assumption].
    exists (Z.to_nat (i - start)). split; [lia|]. apply in_seq. lia.
Qed.

(** X2. In a run over items with tracked mappings the calls on the model,
    the scheduler and the optimizer are: [model.train()] once before the
    loop, then for every item, in this order, [scheduler.step()],
    [model.train()], [optimizer.zero_grad()], [backward] on the item's own
    sum and [optimizer.step()]. *)
Theorem training_call_order (rt : runtime T) (cfg : config) (dl : loader T) (P : Z)
    (distributed : bool) (f : dict (file T)) (a : dict Z) (start : Z)
    (hs0 : histories T) :
  P <> 0%Z ->
  dict_get "iteration" a = Some start ->
  loaded_histories f = Some hs0 ->
  dl_batches dl <> [] ->
  Forall (fun b => tracked (losses_out b) = true) (dl_batches dl) ->
  training_calls (trace (snd (do_train rt cfg dl P distributed (initial f a))))
  = ModelTrain
    :: flat_map (fun b => [SchedulerStep; ModelTrain; ZeroGrad;
                           Backward (sum_values (losses_out b)); OptimizerStep])
         (dl_batches dl).
Proof.
  intros HP Hstart Hload Hne Htr.
  destruct (@do_train_tracked_more rt cfg dl P distributed f a start hs0
              HP Hstart Hload Hne Htr) as [_ [_ [Hcalls _]]].
  exact Hcalls.
Qed.

(** X3. Every checkpoint of a run over items with tracked mappings, the
    periodic ones and the final one, stores arguments whose "iteration" is
    the iteration in its tag: the one just done, not the next to do. The
    caller's arguments end at the last iteration, start + K - 1. *)
Theorem checkpoint_records_own_iteration (rt : runtime T) (cfg : config)
    (dl : loader T) (P : Z) (distributed : bool) (f : dict (file T)) (a : dict Z)
    (start : Z) (hs0 : histories T) :
  P <> 0%Z ->
  dict_get "iteration" a = Some start ->
  loaded_histories f = Some hs0 ->
  dl_batches dl <> [] ->
  Forall (fun b => tracked (losses_out b) = true) (dl_batches dl) ->
  let run := do_train rt cfg dl P distributed (initial f a) in
  Forall (fun ia => dict_get "iteration" (snd ia) = Some (fst ia))
    (saved_states (trace (snd run))) /\
  dict_get "iteration" (arguments (snd run))
  = Some (start + Z.of_nat (length (dl_batches dl)) - 1)%Z.
Proof.
  intros HP Hstart Hload Hne Htr run.
  destruct (@do_train_tracked_more rt cfg dl P distributed f a start hs0
              HP Hstart Hload Hne Htr) as [_ [_ [_ [Hsaved [_ Hargs]]]]].
  split; assumption.
Qed.

(** X4. Of the four pickled history files, a run over items with tracked
    mappings writes only those whose key occurs in a mapping: the history
    file of a key that occurs in none holds after the run what it held
    before. (The figures, the checkpoints and the outputs of inference are
    other files; the statement is about the history files only.) *)
Theorem unused_history_file_untouched (rt : runtime T) (cfg : config) (dl : loader T)
    (P : Z) (distributed : bool) (f : dict (file T)) (a : dict Z) (start : Z)
    (hs0 : histories T) (h : history_var) :
  P <> 0%Z ->
  dict_get "iteration" a = Some start ->
  loaded_histories f = Some hs0 ->
  dl_batches dl <> [] ->
  Forall (fun b => tracked (losses_out b) = true) (dl_batches dl) ->
  Forall (fun b => ~ In (history_name h) (keys (losses_out b))) (dl_batches dl) ->
  dict_get (history_path (history_name h))
    (files (snd (do_train rt cfg dl P distributed (initial f a))))
  = dict_get (history_path (history_name h)) f.
Proof.
  intros HP Hstart Hload Hne Htr Hnot.
  destruct (@do_train_tracked_more rt cfg dl P distributed f a start hs0
              HP Hstart Hload Hne Htr) as [_ [_ [_ [_ [Hfiles _]]]]].
  apply Hfiles. intros b k Hb Hk Hpath.
  rewrite Forall_forall in Htr, Hnot.
  destruct (tracked_spec _ (Htr b Hb)) as [_ [_ Hhist]].
  rewrite Forall_forall in Hhist.
  destruct (is_history_name_spec k (Hhist k Hk)) as [h' ->].
  apply history_path_inj in Hpath. subst h'. now apply (Hnot b Hb).
Qed.

(** X5. A run over items with tracked mappings returns normally exactly
    when [len(data_loader)] is not 0. If the loader reports length 0 although
    it yields items, the run ends in ZeroDivisionError at the timing report;
    in both cases the final checkpoint, tagged with the last iteration, has
    been saved by then. *)
Theorem timing_report_divides_by_length (rt : runtime T) (cfg : config)
    (dl : loader T) (P : Z) (distributed : bool) (f : dict (file T)) (a : dict Z)
    (start : Z) (hs0 : histories T) :
  P <> 0%Z ->
  dict_get "iteration" a = Some start ->
  loaded_histories f = Some hs0 ->
  dl_batches dl <> [] ->
  Forall (fun b => tracked (losses_out b) = true) (dl_batches dl) ->
  let run := do_train rt cfg dl P distributed (initial f a) in
  fst run = (if dl_len dl =? 0 then Raise ZeroDivisionError else Ok tt) /\
  exists before,
    cadence (trace (snd run))
    = before ++ [Saved (start + Z.of_nat (length (dl_batches dl)) - 1)%Z].
Proof.
  intros HP Hstart Hload Hne Htr run.
  destruct (@train_and_report_tracked T _ rt cfg (Z.of_nat (dl_len dl)) P distributed
              (dl_batches dl) start hs0 (started f a) HP Hne Htr)
    as [hs' [s' [Hrun [Hcad _]]]].
  unfold run.
  rewrite (@do_train_loaded T _ rt cfg dl P distributed f a start hs0 Hstart Hload), Hrun.
  cbn [fst snd]. split.
  - destruct (dl_len dl); reflexivity.
  - eexists. rewrite Hcad. cbn [started trace cadence flat_map app]. reflexivity.
Qed.

(** X6. When all four history files hold pickled lists, a run over items
    whose mappings all have the key of history [h] extends what was stored:
    afterwards the file holds the old list followed by one reduced entry per
    item, in order. *)
Theorem loss_history_extends_stored (rt : runtime T) (cfg : config) (dl : loader T)
    (P : Z) (distributed : bool) (f : dict (file T)) (a : dict Z) (start : Z)
    (h : history_var) (old : list T) :
  P <> 0%Z ->
  dict_get "iteration" a = Some start ->
  first_unreadable f = None ->
  dict_get (history_path (history_name h)) f = Some (Pickled old) ->
  dl_batches dl <> [] ->
  Forall (fun b => tracked (losses_out b) = true) (dl_batches dl) ->
  Forall (fun b => In (history_name h) (keys (losses_out b))) (dl_batches dl) ->
  let s' := snd (do_train rt cfg dl P distributed (initial f a)) in
  let added := flat_map (fun b => reduced_entry rt (history_name h) b) (dl_batches dl) in
  dict_get (history_path (history_name h)) (files s') = Some (Pickled (old ++ added)) /\
  length added = length (dl_batches dl).
Proof.
  intros HP Hstart Hfirst Hold Hne Htr Hkey s' added.
  assert (Hload : loaded_histories f = Some (stored_histories f))
    by (unfold loaded_histories; now rewrite Hfirst).
  assert (Hstored : get_history h (stored_histories f) = old).
  { unfold stored_histories. unfold history_path in Hold.
    destruct h; cbn in Hold |- *; now rewrite Hold. }
  destruct (@train_and_report_tracked T _ rt cfg (Z.of_nat (dl_len dl)) P distributed
              (dl_batches dl) start (stored_histories f) (started f a) HP Hne Htr)
    as [hs' [s1 [Hrun [_ [_ [Hget [Hfile _]]]]]]].
  assert (Hs' : s' = s1).
  { unfold s'.
    now rewrite (@do_train_loaded T _ rt cfg dl P distributed f a start _ Hstart Hload), Hrun. }
  rewrite Hs'. split.
  - rewrite (Hfile h Hkey), (Hget h), Hstored. reflexivity.
  - unfold added. clear -Htr Hkey.
    induction (dl_batches dl) as [|b bs IH]; [reflexivity|].
    inversion Htr; inversion Hkey; subst.
    destruct (@reduced_entry_singleton T _ rt (history_name h) b) as [v Hv]; try assumption.
    cbn [flat_map]. rewrite Hv. cbn [app length]. f_equal. now apply IH.
Qed.

(** X7. In an iteration that logs, on a tracked mapping, the series handed
    to [plt.plot] for a key of the mapping is the list that the same
    iteration has just written to that key's file: it already contains the
    entry of this iteration. *)
Theorem plotted_series_is_persisted (rt : runtime T) (cfg : config) (max_iter P : Z)
    (distributed : bool) (i : Z) (b : batch T) (hs : histories T) (s : state T)
    (h : history_var) :
  tracked (losses_out b) = true ->
  P <> 0%Z ->
  ((i mod 20 =? 0)%Z || (i =? max_iter - 1)%Z) = true ->
  In (history_name h) (keys (losses_out b)) ->
  exists hs' s',
    train_step rt cfg max_iter P distributed (i, b) hs s = (Ok hs', s') /\
    get_history h hs' = get_history h hs ++ reduced_entry rt (history_name h) b /\
    dict_get (history_path (history_name h)) (files s')
    = Some (Pickled (get_history h hs')) /\
    In (history_name h, get_history h hs') (plotted (trace s')) /\
    (forall series, In (history_name h, series) (plotted (trace s')) ->
                    In (history_name h, series) (plotted (trace s))
                    \/ series = get_history h hs').
Proof.
  intros Htr HP Hlog Hin.
  destruct (@train_step_tracked_full rt cfg max_iter P distributed i b hs s Htr HP)
    as [hs' [s' [eta [Hstep [Htrace [_ [Hget [Hfile _]]]]]]]].
  destruct (tracked_spec _ Htr) as [_ [_ Hhist]].
  exists hs', s'. split; [assumption|]. split; [apply Hget|].
  split; [now apply Hfile|].
  assert (Hplot : plotted (trace s')
                  = plotted (trace s)
                    ++ map (fun k => (k, match history_of_name k with
                                         | Some h => get_history h hs'
                                         | None => []
                                         end)) (keys (losses_out b))).
  { rewrite Htrace, Hlog, !plotted_app.
    change (plotted (LogLine i eta :: plot_events cfg (keys (losses_out b)) hs'))
      with (plotted (plot_events cfg (keys (losses_out b)) hs')).
    rewrite (plotted_plot_events cfg hs' Hhist).
    destruct ((i mod P =? 0)%Z && (0 <? i)%Z); simpl; now rewrite app_nil_r. }
  rewrite Hplot. split.
  - apply in_or_app. right. apply in_map_iff. exists (history_name h).
    now rewrite history_of_name_complete.
  - intros series Hs. apply in_app_or in Hs. destruct Hs as [Hs | Hs]; [now left|].
    right. apply in_map_iff in Hs. destruct Hs as [k [Hk _]].
    injection Hk as -> <-. now rewrite history_of_name_complete.
Qed.

(** X8. When the arguments have no "iteration" entry, [do_train] raises
    KeyError at line 62, after the first log message and before the model is
    put in training mode or any file is read. *)
Theorem missing_iteration_key (rt : runtime T) (cfg : config) (dl : loader T) (P : Z)
    (distributed : bool) (f : dict (file T)) (a : dict Z) :
  dict_get "iteration" a = None ->
  do_train rt cfg dl P distributed (initial f a)
  = (Raise KeyError,
     {| files := f; arguments := a; meters := [];
        trace := [LoggerInfo "Start training"] |}).
Proof.
  intros Hmissing. unfold do_train, initial.
  run_step. run_step. run_step. now rewrite Hmissing.
Qed.

(** The first item of a run, when the loop body raises on it. *)
Lemma do_train_first_item_raises (rt : runtime T) (cfg : config) (dl : loader T)
    (P : Z) (distributed : bool) (f : dict (file T)) (a : dict Z) (start : Z)
    (hs0 : histories T) (b : batch T) (rest : list (batch T)) (e : exn)
    (s' : state T) :
  dict_get "iteration" a = Some start ->
  loaded_histories f = Some hs0 ->
  dl_batches dl = b :: rest ->
  train_step rt cfg (Z.of_nat (dl_len dl)) P distributed (start, b) hs0 (started f a)
  = (Raise e, s') ->
  do_train rt cfg dl P distributed (initial f a) = (Raise e, s').
Proof.
  intros Hstart Hload Hsplit Hstep.
  rewrite (@do_train_loaded T _ rt cfg dl P distributed f a start hs0 Hstart Hload).
  rewrite Hsplit. cbn [enumerate].
  unfold train_and_report, train_loop. cbn [for_each].
  unfold bind at 1. unfold bind at 1. unfold bind at 1.
  cbn [snd]. now rewrite Hstep.
Qed.

(** The loop body with [checkpoint_period = 0]: everything up to line 140 is
    done, then the modulo of line 141 raises. *)
Lemma train_step_zero_period (rt : runtime T) (cfg : config) (max_iter : Z)
    (distributed : bool) (i : Z) (b : batch T) (hs : histories T) (s : state T) :
  tracked (losses_out b) = true ->
  exists hs' s' logged,
    train_step rt cfg max_iter 0 distributed (i, b) hs s
    = (Raise ZeroDivisionError, s') /\
    trace s'
    = trace s
      ++ [SchedulerStep; ModelTrain; ZeroGrad;
          Backward (sum_values (losses_out b)); OptimizerStep]
      ++ logged /\
    saved_states logged = [] /\ cadence logged = [] /\
    training_calls logged = [] /\
    (forall h, get_history h hs'
               = get_history h hs ++ reduced_entry rt (history_name h) b) /\
    (forall h, In (history_name h) (keys (losses_out b)) ->
       dict_get (history_path (history_name h)) (files s')
       = Some (Pickled (get_history h hs'))).
Proof.
  intros Htr.
  destruct (tracked_spec _ Htr) as [Hne [Hnd Hhist]].
  destruct (@reduce_loss_dict_values_keys T _ (group rt) (peers_out b) (losses_out b) Hne Hnd)
    as [reduced [Hred Hkeys]].
  assert (Hin : Forall (fun k => In k (keys reduced)) (keys (losses_out b))).
  { rewrite Hkeys. apply Forall_forall. auto. }
  unfold train_step.
  run_step. run_step. run_step. run_step.
  rewrite Hred. run_step.
  unfold bind at 1. unfold update_loss_meters.
  rewrite Hkeys, (history_names_accepted Hhist).
  run_step. run_step.
  destruct (losses_out b) as [|kv0 rest] eqn:Hlosses; [congruence|].
  rewrite <- Hlosses in *.
  run_step. run_step. run_step. run_step.
  unfold bind at 1. unfold time_global_avg. run_step.
  match goal with
  | |- context [dict_get "time" (logger_update ?c [("time"%string, ?x); ("data"%string, ?y)] ?ms)] =>
      destruct (time_meter_present c x y ms) as [m Hm]; rewrite Hm
  end.
  cbn [ret].
  match goal with |- context [bind _ _ ?st0] => set (st := st0) end.
  destruct (persist_loop_tracked rt reduced hs st Hnd Hhist Hin)
    as [hs1 [f1 [Hrun [Hget [Hfile _]]]]].
  unfold bind at 1. rewrite Hrun.
  assert (Hentry : forall h, appended reduced (keys (losses_out b)) h
                             = reduced_entry rt (history_name h) b).
  { intros h. unfold appended, reduced_entry. rewrite Hred, <- Hkeys.
    destruct (mem_string (history_name h) (keys reduced)) eqn:Hmem; [reflexivity|].
    apply mem_string_not_In in Hmem. now rewrite (dict_get_not_In _ _ Hmem). }
  destruct (plot_events_quiet cfg (keys (losses_out b)) hs1) as [_ [Hq2 [Hq3 Hq4]]].
  exists hs1.
  destruct ((i mod 20 =? 0)%Z || (i =? max_iter - 1)%Z).
  - run_step. run_step. rewrite (plot_loop_events rt cfg hs1 _ Hhist).
    cbn [files arguments meters trace]. run_step.
    eexists. exists (LogLine i (scale (global_avg m) (max_iter - i))
                     :: plot_events cfg (keys (losses_out b)) hs1).
    split; [reflexivity|].
    unfold st. cbn [files arguments meters trace].
    split; [repeat rewrite <- app_assoc; reflexivity|].
    split; [exact Hq3|]. split; [exact Hq4|]. split; [exact Hq2|].
    split; [intros h; now rewrite Hget, Hentry | assumption].
  - run_step. run_step.
    eexists. exists []. split; [reflexivity|].
    unfold st. cbn [files arguments meters trace].
    split; [repeat rewrite <- app_assoc; reflexivity|].
    split; [reflexivity|]. split; [reflexivity|]. split; [reflexivity|].
    split; [intros h; now rewrite Hget, Hentry | assumption].
Qed.

(** X9. With [checkpoint_period = 0] a run fails in its first iteration:
    the gradient step is taken and the histories of the mapping's keys are
    appended to and written, then the modulo of line 141 raises
    ZeroDivisionError; no checkpoint is saved and no second item is
    processed. *)
Theorem zero_checkpoint_period (rt : runtime T) (cfg : config) (dl : loader T)
    (distributed : bool) (f : dict (file T)) (a : dict Z) (start : Z)
    (hs0 : histories T) (b : batch T) (rest : list (batch T)) (h : history_var) :
  dict_get "iteration" a = Some start ->
  loaded_histories f = Some hs0 ->
  dl_batches dl = b :: rest ->
  tracked (losses_out b) = true ->
  In (history_name h) (keys (losses_out b)) ->
  let run := do_train rt cfg dl 0 distributed (initial f a) in
  fst run = Raise ZeroDivisionError /\
  training_calls (trace (snd run))
  = [ModelTrain; SchedulerStep; ModelTrain; ZeroGrad;
     Backward (sum_values (losses_out b)); OptimizerStep] /\
  saved_states (trace (snd run)) = [] /\
  dict_get (history_path (history_name h)) (files (snd run))
  = Some (Pickled (get_history h hs0 ++ reduced_entry rt (history_name h) b)).
Proof.
  intros Hstart Hload Hsplit Htr Hin run.
  destruct (@train_step_zero_period rt cfg (Z.of_nat (dl_len dl)) distributed start b
              hs0 (started f a) Htr)
    as [hs' [s' [logged [Hstep [Htrace [Hsaved [_ [Hcalls [Hget Hfile]]]]]]]]].
  unfold run.
  rewrite (@do_train_first_item_raises rt cfg dl 0%Z distributed f a start hs0 b rest
             ZeroDivisionError s' Hstart Hload Hsplit Hstep).
  cbn [fst snd]. split; [reflexivity|].
  rewrite Htrace, !training_calls_app, !saved_states_app, Hcalls, Hsaved.
  split; [reflexivity|]. split; [reflexivity|].
  rewrite (Hfile h Hin), (Hget h). reflexivity.
Qed.

(** X10. When the model returns an empty Loss Mapping for the first item,
    the run fails in that iteration without a gradient step: with fewer than
    two workers at [losses.backward()], since the sum of nothing is the int 0
    (AttributeError, after [optimizer.zero_grad()]); with two workers or more
    already in [reduce_loss_dict], where [torch.stack] refuses the empty list
    (RuntimeError). No file is written. *)
Theorem empty_mapping_fails (rt : runtime T) (cfg : config) (dl : loader T) (P : Z)
    (distributed : bool) (f : dict (file T)) (a : dict Z) (start : Z)
    (hs0 : histories T) (b : batch T) (rest : list (batch T)) :
  dict_get "iteration" a = Some start ->
  loaded_histories f = Some hs0 ->
  dl_batches dl = b :: rest ->
  losses_out b = [] ->
  let run := do_train rt cfg dl P distributed (initial f a) in
  fst run = (if world_size (group rt) <? 2
             then Raise AttributeError else Raise RuntimeError) /\
  training_calls (trace (snd run))
  = [ModelTrain; SchedulerStep; ModelTrain]
    ++ (if world_size (group rt) <? 2 then [ZeroGrad] else []) /\
  files (snd run) = f.
Proof.
  intros Hstart Hload Hsplit Hempty run.
  assert (Hstep : exists s',
    train_step rt cfg (Z.of_nat (dl_len dl)) P distributed (start, b) hs0 (started f a)
    = ((if world_size (group rt) <? 2
        then Raise AttributeError else Raise RuntimeError), s') /\
    trace s' = trace (started f a) ++ [SchedulerStep; ModelTrain]
               ++ (if world_size (group rt) <? 2 then [ZeroGrad] else []) /\
    files s' = f).
  { unfold train_step. rewrite Hempty.
    run_step. run_step. run_step. run_step.
    unfold reduce_loss_dict_values.
    destruct (world_size (group rt) <? 2).
    - run_step. unfold bind at 1. unfold update_loss_meters.
      cbn [keys map mem_string existsb orb].
      run_step. run_step. run_step. run_step.
      eexists. split; [reflexivity|].
      cbn [files arguments meters trace started].
      split; reflexivity.
    - cbn [values map]. run_step.
      eexists. split; [reflexivity|].
      cbn [files arguments meters trace started raise].
      split; reflexivity. }
  destruct Hstep as [s' [Hstep [Htrace Hfiles]]].
  unfold run.
  destruct (world_size (group rt) <? 2);
    rewrite (@do_train_first_item_raises rt cfg dl P distributed f a start hs0 b rest
               _ s' Hstart Hload Hsplit Hstep);
    cbn [fst snd]; rewrite Htrace; repeat split; assumption.
Qed.

Lemma dict_set_values_Forall {V} (Q : V -> Prop) (k : string) (v : V) (d : dict V) :
  Q v -> Forall (fun kv => Q (snd kv)) d ->
  Forall (fun kv => Q (snd kv)) (dict_set k v d).
Proof.
  intros Hv Hd. induction Hd as [|[k' v'] d Hkv Hd IH]; simpl.
  - now repeat constructor.
  - destruct (String.eqb k k'); constructor; simpl; assumption.
Qed.

Lemma dict_of_items_values_Forall {V} (Q : V -> Prop) (items : dict V) :
  Forall (fun kv => Q (snd kv)) items ->
  Forall (fun kv => Q (snd kv)) (dict_of_items items).
Proof.
  unfold dict_of_items. intros Hitems.
  assert (Hgen : forall acc, Forall (fun kv => Q (snd kv)) acc ->
            Forall (fun kv => Q (snd kv))
              (fold_left (fun d kv => dict_set (fst kv) (snd kv) d) items acc)).
  { induction Hitems as [|[k v] items Hkv _ IH]; intros acc Hacc; simpl.
    - assumption.
    - apply IH. now apply dict_set_values_Forall. }
  apply Hgen. constructor.
Qed.

Lemma combine_views_Forall (a : nat) (names : list string) (n : nat) :
  Forall (fun kv : string * tref => fst (snd kv) = a) (combine names (views a n)).
Proof.
  apply Forall_forall. intros [k r] Hin. apply in_combine_r in Hin.
  unfold views in Hin. apply in_map_iff in Hin. destruct Hin as [i [<- _]].
  reflexivity.
Qed.

(** X11. With two workers or more and a non-empty mapping,
    [reduce_loss_dict] returns a new dictionary object; all its entries are
    views into one tensor allocated by the call, so none shares storage with
    a tensor of the input: writing to a returned entry cannot change the
    losses that are back-propagated. *)
Theorem reduce_loss_dict_returns_fresh_views (pg : process_group T)
    (peers : list (list T)) (d : nat) (h : heap T) :
  2 <= world_size pg ->
  get_dict h d <> [] ->
  dict_refs_valid h d ->
  exists h',
    reduce_loss_dict pg peers d h
    = (Ok (length (dict_objs h)), h', [Reduce 0 (length (get_dict h d))]) /\
    d <> length (dict_objs h) /\
    length (storages h') = S (length (storages h)) /\
    Forall (fun kv => fst (snd kv) = length (storages h))
      (get_dict h' (length (dict_objs h))) /\
    (forall kv kv', In kv (get_dict h d) ->
                    In kv' (get_dict h' (length (dict_objs h))) ->
                    fst (snd kv) <> fst (snd kv')).
Proof.
  intros Hws Hne Hvalid.
  pose proof (get_dict_nonempty_valid h d Hne) as Hd.
  unfold reduce_loss_dict.
  destruct (Nat.ltb_spec (world_size pg) 2) as [Hlt | _]; [lia|].
  destruct (get_dict h d) as [|kv0 items] eqn:Hitems; [congruence|].
  cbn [map torch_stack alloc_storage alloc_dict].
  assert (Hfresh :
    Forall (fun kv : string * tref => fst (snd kv) = length (storages h))
      (dict_of_items
         (combine (fst kv0 :: map fst items)
            (views (length (storages h)) (length (snd kv0 :: map snd items)))))).
  { apply (dict_of_items_values_Forall
             (fun r : tref => fst r = length (storages h))).
    apply combine_views_Forall. }
  cbn [length] in Hfresh. rewrite length_map in Hfresh.
  destruct (rank pg =? 0); unfold update_storage; cbn [storages dict_objs];
    rewrite !list_update_last;
    (eexists; split; [cbn [length]; rewrite length_map; reflexivity|]);
    (split; [lia|]);
    cbn [storages dict_objs]; unfold get_dict; cbn [dict_objs];
    rewrite !nth_middle;
    (split; [rewrite length_app; simpl; lia|]);
    (split; [exact Hfresh|]);
    intros kv kv' Hin Hin';
    unfold dict_refs_valid in Hvalid; rewrite Hitems, Forall_forall in Hvalid;
    specialize (Hvalid kv Hin);
    rewrite Forall_forall in Hfresh; specialize (Hfresh kv' Hin');
    cbv beta in Hvalid, Hfresh; unfold tref in *; rewrite Hfresh; lia.
Qed.

End MoreFacts.

(** ** Validation *)

Lemma val_is_val_on (cfg : config) (distributed : bool) :
  val cfg distributed = val_on cfg distributed (make_data_loader cfg).
Proof. reflexivity. Qed.

Lemma inference_pairs_count (g : option (list string) * string -> val_call)
    (l : list (option (list string) * string)) :
  (forall x, is_inference (g x) = true) ->
  length (filter is_inference (flat_map (fun x => [g x; Synchronize]) l)) = length l /\
  length (filter is_synchronize (flat_map (fun x => [g x; Synchronize]) l)) = length l /\
  filter is_mkdir (flat_map (fun x => [g x; Synchronize]) l) = [].
Proof.
  intros Hg. induction l as [|x l [IH1 [IH2 IH3]]]; [repeat split|].
  cbn [flat_map app filter is_inference is_synchronize is_mkdir].
  specialize (Hg x). destruct (g x); try discriminate.
  cbn. rewrite IH1, IH2, IH3. repeat split.
Qed.

(** X12. [val] runs inference once for each pair of an output folder and a
    loader, that is min(number of test datasets, number of loaders) times,
    and calls the barrier once after each; the output directories are made
    for every test dataset, also for one that gets no loader, and none is
    made when OUTPUT_DIR is empty. *)
Theorem val_call_counts (cfg : config) (distributed : bool) (loaders : list string) :
  let calls := val_on cfg distributed loaders in
  length (filter is_inference calls)
  = Nat.min (length (DATASETS_TEST cfg)) (length loaders) /\
  length (filter is_synchronize calls)
  = Nat.min (length (DATASETS_TEST cfg)) (length loaders) /\
  length (filter is_mkdir calls)
  = (if String.eqb (OUTPUT_DIR cfg) "" then 0 else length (DATASETS_TEST cfg)) /\
  length (filter is_inference (val cfg distributed)) = length (DATASETS_TEST cfg).
Proof.
  assert (Hgen : forall loaders,
    length (filter is_inference (val_on cfg distributed loaders))
    = Nat.min (length (DATASETS_TEST cfg)) (length loaders) /\
    length (filter is_synchronize (val_on cfg distributed loaders))
    = Nat.min (length (DATASETS_TEST cfg)) (length loaders) /\
    length (filter is_mkdir (val_on cfg distributed loaders))
    = (if String.eqb (OUTPUT_DIR cfg) "" then 0 else length (DATASETS_TEST cfg))).
  { intros ls. unfold val_on.
    match goal with
    | |- context [flat_map ?body ?l] =>
        destruct (inference_pairs_count
                    (fun fl => Inference distributed (snd fl)
                                 (if MODEL_MASK_ON cfg
                                  then ["bbox"; "segm"]%string else ["bbox"]%string)
                                 (MODEL_RPN_ONLY cfg) (MODEL_DEVICE cfg) (fst fl)) l)
          as [H1 [H2 H3]]; [reflexivity|]
    end.
    rewrite !filter_app. rewrite !length_app.
    cbv beta in H1, H2, H3. rewrite H1, H2, H3.
    rewrite length_combine, length_map.
    destruct (String.eqb (OUTPUT_DIR cfg) ""); cbn [negb filter length app].
    - cbn. repeat split; lia.
    - assert (Hmk : forall names : list string,
                filter is_inference
                  (map (fun name => Mkdir [OUTPUT_DIR cfg; "inference"%string; name]) names) = []
                /\ filter is_synchronize
                     (map (fun name => Mkdir [OUTPUT_DIR cfg; "inference"%string; name]) names) = []
                /\ length (filter is_mkdir
                     (map (fun name => Mkdir [OUTPUT_DIR cfg; "inference"%string; name]) names))
                   = length names).
      { induction names as [|n names [I1 [I2 I3]]]; [repeat split|].
        cbn. rewrite I1, I2, I3. repeat split. }
      destruct (Hmk (DATASETS_TEST cfg)) as [M1 [M2 M3]].
      rewrite M1, M2, M3. cbn. repeat split; lia. }
  intros calls. destruct (Hgen loaders) as [G1 [G2 G3]].
  split; [exact G1|]. split; [exact G2|]. split; [exact G3|].
  rewrite val_is_val_on. destruct (Hgen (make_data_loader cfg)) as [G1' _].
  rewrite G1'. unfold make_data_loader. apply Nat.min_id.
Qed.

Lemma barrier_follows_in_pairs (g : option (list string) * string -> val_call)
    (l : list (option (list string) * string)) :
  forall pre c post,
  flat_map (fun x => [g x; Synchronize]) l = pre ++ c :: post ->
  is_inference c = true ->
  exists post', post = Synchronize :: post'.
Proof.
  induction l as [|x l IH]; intros pre c post Heq Hc.
  - destruct pre; discriminate.
  - cbn [flat_map app] in Heq.
    destruct pre as [|p1 [|p2 pre']]; cbn [app] in Heq.
    + injection Heq as _ <-. eexists. reflexivity.
    + injection Heq as _ <- _. discriminate.
    + injection Heq as _ _ Heq. now apply (IH pre' c post).
Qed.

(** X13. In [val] every inference call is directly followed by the
    cross-process barrier: no second inference and no return happens before
    [synchronize()]. *)
Theorem val_barrier_after_inference (cfg : config) (distributed : bool)
    (loaders : list string) (pre post : list val_call) (c : val_call) :
  val_on cfg distributed loaders = pre ++ c :: post ->
  is_inference c = true ->
  exists post', post = Synchronize :: post'.
Proof.
  unfold val_on.
  match goal with
  | |- [EmptyCache] ++ ?mk ++ flat_map ?body ?l = _ -> _ =>
      set (mkdirs := mk); set (pairs := flat_map body l)
  end.
  assert (Hmk : Forall (fun c => is_inference c = false) ([EmptyCache] ++ mkdirs)).
  { constructor; [reflexivity|]. unfold mkdirs.
    destruct (negb (String.eqb (OUTPUT_DIR cfg) "")); [|constructor].
    apply Forall_forall. intros x Hx. apply in_map_iff in Hx.
    destruct Hx as [n [<- _]]. reflexivity. }
  rewrite app_assoc. revert Hmk. generalize ([EmptyCache] ++ mkdirs). intros front Hfront.
  revert pre. induction Hfront as [|x front Hx _ IH]; intros pre Heq Hc.
  - cbn [app] in Heq. unfold pairs in Heq.
    now apply (barrier_follows_in_pairs _ _ pre c post Heq).
  - destruct pre as [|p pre']; cbn [app] in Heq.
    + injection Heq as -> _. congruence.
    + injection Heq as _ Heq. now apply (IH pre').
Qed.

(** * The further properties on the worked inputs *)

Lemma log_cadence_witness :
  logged_iterations
    (trace (snd (do_train (ex_runtime ex_single) ex_cfg ex_loader 2 false
                   (initial ex_files_empty (ex_arguments 0)))))
  = [0; 4]%Z.
Proof.
  destruct (@log_cadence Q Scalar_Q (ex_runtime ex_single) ex_cfg ex_loader 2%Z false
              ex_files_empty (ex_arguments 0) 0%Z empty_histories) as [Hlog _].
  - discriminate.
  - reflexivity.
  - reflexivity.
  - discriminate.
  - repeat constructor.
  - exact Hlog.
Defined.

Lemma training_call_order_witness :
  training_calls
    (trace (snd (do_train (ex_runtime ex_single) ex_cfg ex_loader 2 false
                   (initial ex_files_empty (ex_arguments 0)))))
  = ModelTrain
    :: flat_map (fun b => [SchedulerStep; ModelTrain; ZeroGrad;
                           Backward (sum_values (losses_out b)); OptimizerStep])
         (dl_batches ex_loader).
Proof.
  apply (@training_call_order Q Scalar_Q (ex_runtime ex_single) ex_cfg ex_loader 2%Z false
           ex_files_empty (ex_arguments 0) 0%Z empty_histories).
  - discriminate.
  - reflexivity.
  - reflexivity.
  - discriminate.
  - repeat constructor.
Defined.

Lemma checkpoint_records_own_iteration_witness :
  let run := do_train (ex_runtime ex_single) ex_cfg ex_loader 2 false
               (initial ex_files_empty (ex_arguments 0)) in
  Forall (fun ia => dict_get "iteration" (snd ia) = Some (fst ia))
    (saved_states (trace (snd run))) /\
  dict_get "iteration" (arguments (snd run)) = Some 4%Z.
Proof.
  apply (@checkpoint_records_own_iteration Q Scalar_Q (ex_runtime ex_single) ex_cfg
           ex_loader 2%Z false ex_files_empty (ex_arguments 0) 0%Z empty_histories).
  - discriminate.
  - reflexivity.
  - reflexivity.
  - discriminate.
  - repeat constructor.
Defined.

Lemma unused_history_file_untouched_witness :
  dict_get "./outputs/loss_objectness.p"
    (files (snd (do_train (ex_runtime ex_single) ex_cfg ex_loader 2 false
                   (initial ex_files_empty (ex_arguments 0)))))
  = dict_get "./outputs/loss_objectness.p" ex_files_empty.
Proof.
  apply (@unused_history_file_untouched Q Scalar_Q (ex_runtime ex_single) ex_cfg ex_loader
           2%Z false ex_files_empty (ex_arguments 0) 0%Z empty_histories LossObjectness).
  - discriminate.
  - reflexivity.
  - reflexivity.
  - discriminate.
  - repeat constructor.
  - repeat (constructor; [cbn; intros [Hk | [Hk | []]]; discriminate|]). constructor.
Defined.

Lemma timing_report_divides_by_length_witness :
  fst (do_train (ex_runtime ex_single) ex_cfg ex_loader_zero_len 2 false
         (initial ex_files_empty (ex_arguments 0)))
  = Raise ZeroDivisionError.
Proof.
  destruct (@timing_report_divides_by_length Q Scalar_Q (ex_runtime ex_single) ex_cfg
              ex_loader_zero_len 2%Z false ex_files_empty (ex_arguments 0) 0%Z
              empty_histories) as [Hraise _].
  - discriminate.
  - reflexivity.
  - reflexivity.
  - discriminate.
  - repeat constructor.
  - exact Hraise.
Defined.

Lemma loss_history_extends_stored_witness :
  let s' := snd (do_train (ex_runtime ex_single) ex_cfg ex_loader 2 false
                   (initial ex_files_stored (ex_arguments 0))) in
  let added := flat_map (fun b => reduced_entry (ex_runtime ex_single)
                                    (history_name LossClassifier) b)
                 (dl_batches ex_loader) in
  dict_get (history_path (history_name LossClassifier)) (files s')
  = Some (Pickled ([7%Q] ++ added)) /\
  length added = length (dl_batches ex_loader).
Proof.
  apply (@loss_history_extends_stored Q Scalar_Q (ex_runtime ex_single) ex_cfg ex_loader
           2%Z false ex_files_stored (ex_arguments 0) 0%Z LossClassifier [7%Q]).
  - discriminate.
  - reflexivity.
  - reflexivity.
  - reflexivity.
  - discriminate.
  - repeat constructor.
  - repeat constructor.
Defined.

Lemma plotted_series_is_persisted_witness :
  exists hs' s',
    train_step (ex_runtime ex_single) ex_cfg 5 2 false (0%Z, ex_batch 1 2)
      empty_histories (started ex_files_empty (ex_arguments 0))
    = (Ok hs', s') /\
    dict_get (history_path (history_name LossClassifier)) (files s')
    = Some (Pickled (get_history LossClassifier hs')) /\
    In (history_name LossClassifier, get_history LossClassifier hs')
       (plotted (trace s')).
Proof.
  destruct (@plotted_series_is_persisted Q Scalar_Q (ex_runtime ex_single) ex_cfg
              5%Z 2%Z false 0%Z (ex_batch 1 2) empty_histories
              (started ex_files_empty (ex_arguments 0)) LossClassifier)
    as [hs' [s' [Hstep [_ [Hfile [Hplot _]]]]]].
  - reflexivity.
  - discriminate.
  - reflexivity.
  - simpl. now left.
  - exists hs', s'. split; [exact Hstep|]. split; [exact Hfile | exact Hplot].
Defined.

Lemma missing_iteration_key_witness :
  do_train (ex_runtime ex_single) ex_cfg ex_loader 2 false (initial ex_files_empty [])
  = (Raise KeyError,
     {| files := ex_files_empty; arguments := []; meters := [];
        trace := [LoggerInfo "Start training"] |}).
Proof.
  apply (@missing_iteration_key Q Scalar_Q (ex_runtime ex_single) ex_cfg ex_loader 2%Z
           false ex_files_empty []).
  reflexivity.
Defined.

Lemma zero_checkpoint_period_witness :
  let run := do_train (ex_runtime ex_single) ex_cfg ex_loader 0 false
               (initial ex_files_empty (ex_arguments 0)) in
  fst run = Raise ZeroDivisionError /\ saved_states (trace (snd run)) = [].
Proof.
  destruct (@zero_checkpoint_period Q Scalar_Q (ex_runtime ex_single) ex_cfg ex_loader
              false ex_files_empty (ex_arguments 0) 0%Z empty_histories
              (ex_batch 1 2) [ex_batch 2 2; ex_batch 3 2; ex_batch 4 2; ex_batch 5 2]
              LossClassifier)
    as [Hraise [_ [Hsaved _]]].
  - reflexivity.
  - reflexivity.
  - reflexivity.
  - reflexivity.
  - simpl. now left.
  - split; [exact Hraise | exact Hsaved].
Defined.

Lemma empty_mapping_fails_witness :
  let run := do_train (ex_runtime ex_coordinator) ex_cfg ex_loader_nothing 2 false
               (initial ex_files_empty (ex_arguments 0)) in
  fst run = Raise RuntimeError /\ files (snd run) = ex_files_empty.
Proof.
  destruct (@empty_mapping_fails Q Scalar_Q (ex_runtime ex_coordinator) ex_cfg
              ex_loader_nothing 2%Z false ex_files_empty (ex_arguments 0) 0%Z
              empty_histories ex_batch_nothing [ex_batch 1 2])
    as [Hraise [_ Hfiles]].
  - reflexivity.
  - reflexivity.
  - reflexivity.
  - reflexivity.
  - split; [exact Hraise | exact Hfiles].
Defined.

Lemma reduce_loss_dict_returns_fresh_views_witness :
  exists h',
    reduce_loss_dict ex_coordinator [values ex_peer] 0 ex_heap
    = (Ok 1, h', [Reduce 0 2]) /\
    Forall (fun kv => fst (snd kv) = 2) (get_dict h' 1).
Proof.
  destruct (@reduce_loss_dict_returns_fresh_views Q Scalar_Q ex_coordinator
              [values ex_peer] 0 ex_heap) as [h' [Hrun [_ [_ [Hfresh _]]]]].
  - simpl. lia.
  - discriminate.
  - unfold dict_refs_valid. simpl. repeat constructor.
  - exists h'. split; [exact Hrun | exact Hfresh].
Defined.

Lemma val_barrier_after_inference_witness :
  val_on ex_cfg false ["coco_val"%string]
  = [EmptyCache; Mkdir ["out"; "inference"; "coco_val"]%string]
    ++ Inference false "coco_val" ["bbox"%string] false "cuda"
         (Some ["out"; "inference"; "coco_val"]%string)
       :: [Synchronize]
  /\ exists post', [Synchronize] = Synchronize :: post'.
Proof.
  split; [reflexivity|].
  apply (@val_barrier_after_inference ex_cfg false ["coco_val"%string]
           [EmptyCache; Mkdir ["out"; "inference"; "coco_val"]%string]
           [Synchronize]
           (Inference false "coco_val" ["bbox"%string] false "cuda"
              (Some ["out"; "inference"; "coco_val"]%string))).
  - reflexivity.
  - reflexivity.
Defined.

Lemma resumed_run_first_iteration_witness :
  let run := do_train (ex_runtime ex_single) ex_cfg
               {| dl_len := 5; dl_batches := [ex_batch 3 2] |} 2 false
               (initial ex_files_empty (ex_arguments 2)) in
  fst run = Ok tt /\
  dict_get "iteration" (arguments (snd run)) = Some 2%Z /\
  cadence (trace (snd run)) = [Saved 2; Validated; Saved 2].
Proof.
  apply (@resumed_run_first_iteration Q Scalar_Q (ex_runtime ex_single) ex_cfg 2%Z false
           ex_files_empty (ex_arguments 2) 2%Z empty_histories 4 (ex_batch 3 2)).
  - discriminate.
  - reflexivity.
  - reflexivity.
  - reflexivity.
Defined.
